(** * Li Code Review: the static analysis engine (analyzer.js)

    A shallow embedding of the analyzer module: the SEVERITY table, the rule
    table with its regular expressions, [detectLanguage], [analyzeFile],
    [analyzeDiff] and [generateSummary], followed by the properties of the
    engine that the specification states.

    JavaScript strings are sequences of UTF-16 code units; the regular
    expressions of the rule table carry no [u] flag and therefore work on
    code units too. *)

From Stdlib Require Import List NArith ZArith Bool Arith Ascii String Lia.
From Stdlib Require Import DecimalString Sorted Permutation.
From Stdlib Require DecimalPos DecimalFacts.
Import ListNotations.

Open Scope string_scope.
Open Scope list_scope.
Open Scope nat_scope.

Set Implicit Arguments.

(* ====================================================================== *)
(** * JavaScript strings and objects *)
(* ====================================================================== *)

Module Js.

(** A UTF-16 code unit. *)
Definition cu := N.

Definition jsstring := list cu.

(** An ASCII literal as a JavaScript string. *)
Definition str (s : string) : jsstring :=
  List.map N_of_ascii (list_ascii_of_string s).

Fixpoint eqb (s t : jsstring) : bool :=
  match s, t with
  | [], [] => true
  | a :: s', b :: t' => N.eqb a b && eqb s' t'
  | _, _ => false
  end.

(** [Array.prototype.includes] on an array of strings, asked for a string. *)
Definition includes (l : list jsstring) (s : jsstring) : bool :=
  existsb (eqb s) l.

(** WhiteSpace and LineTerminator code units: what [\s] matches. *)
Definition isLineTerminator (c : cu) : bool :=
  (c =? 10)%N || (c =? 13)%N || (c =? 0x2028)%N || (c =? 0x2029)%N.

Definition isWhiteSpace (c : cu) : bool :=
  ((9 <=? c) && (c <=? 13))%N || (c =? 32)%N || (c =? 0xA0)%N
  || (c =? 0x1680)%N || ((0x2000 <=? c) && (c <=? 0x200A))%N
  || (c =? 0x2028)%N || (c =? 0x2029)%N || (c =? 0x202F)%N
  || (c =? 0x205F)%N || (c =? 0x3000)%N || (c =? 0xFEFF)%N.

Definition isDigit (c : cu) : bool := ((48 <=? c) && (c <=? 57))%N.

Definition isWordChar (c : cu) : bool :=
  ((65 <=? c) && (c <=? 90))%N || ((97 <=? c) && (c <=? 122))%N
  || isDigit c || (c =? 95)%N.

(** [String.prototype.toLowerCase], on the ASCII letters.  A code unit
    outside ASCII is left as it is here, where the real function follows
    the Unicode tables.  The one caller, [detectLanguage], only compares the
    result with ASCII tags that contain neither [k] nor [i], the only ASCII
    letters a unit outside ASCII can lower to (U+212A, and U+0130 together
    with a combining dot), so no comparison made by the analyzer can tell
    the two functions apart. *)
Definition lowerUnit (c : cu) : cu :=
  if ((65 <=? c) && (c <=? 90))%N then (c + 32)%N else c.

Definition toLowerCase (s : jsstring) : jsstring := List.map lowerUnit s.

(** [String.prototype.split] with a one-unit separator: [n] separators give
    [n + 1] pieces. *)
Fixpoint split (sep : cu) (s : jsstring) : list jsstring :=
  match s with
  | [] => [[]]
  | c :: s' =>
      if N.eqb c sep then [] :: split sep s'
      else match split sep s' with
           | [] => [[c]]
           | piece :: rest => (c :: piece) :: rest
           end
  end.

(** [Array.prototype.pop], the removed element only. *)
Definition pop (A : Type) (l : list A) : option A :=
  match rev l with [] => None | x :: _ => Some x end.

(** [Array.prototype.join]. *)
Fixpoint join (sep : jsstring) (l : list jsstring) : jsstring :=
  match l with
  | [] => []
  | [s] => s
  | s :: rest => s ++ sep ++ join sep rest
  end.

(** Decimal rendering of an integer-valued number, as in a template
    literal. *)
Definition numberToString (z : Z) : jsstring :=
  str (NilZero.string_of_int (Z.to_int z)).

(** The names every object literal inherits from [Object.prototype]; each
    of them is bound to a function, or to the prototype itself, hence to a
    truthy value that is not a number. *)
Definition objectPrototypeKeys : list jsstring :=
  List.map str
    [ "constructor"; "__defineGetter__"; "__defineSetter__"; "hasOwnProperty";
      "__lookupGetter__"; "__lookupSetter__"; "isPrototypeOf";
      "propertyIsEnumerable"; "toString"; "valueOf"; "__proto__";
      "toLocaleString" ]%string.

(** The outcome of [obj[key]] on an object literal whose own properties
    hold values of type [A]. *)
Inductive lookup (A : Type) : Type :=
| Own (a : A)
| Inherited (key : jsstring)
| Undefined.

Arguments Inherited {A} key.
Arguments Undefined {A}.

Fixpoint assoc (A : Type) (props : list (jsstring * A)) (key : jsstring)
  : option A :=
  match props with
  | [] => None
  | (k, v) :: rest => if eqb key k then Some v else assoc rest key
  end.

Definition get (A : Type) (props : list (jsstring * A)) (key : jsstring)
  : lookup A :=
  match assoc props key with
  | Some v => Own v
  | None =>
      if includes objectPrototypeKeys key then Inherited key else Undefined
  end.

End Js.

Import Js.
Arguments str s%_string.

(* ====================================================================== *)
(** * Regular expressions *)
(* ====================================================================== *)

(** The fragment of ECMAScript patterns that the analyzer uses, with the
    backtracking semantics of the language specification: a matcher takes a
    state and a continuation and answers with the final state of the first
    successful path, alternatives and quantifiers being explored in priority
    order. *)
Module RegExp.

Record flags : Type := mkFlags {
  ignoreCase : bool;   (* i *)
  multiline : bool;    (* m *)
  dotAll : bool;       (* s *)
  global : bool        (* g *)
}.

(** What a character class may list. *)
Inductive citem : Type :=
| CUnit (c : cu)       (* a single character *)
| CSpace               (* \s *)
| CNonSpace            (* \S *)
| CWord                (* \w *)
| CDigitClass.         (* \d *)

Inductive re : Type :=
| Empty
| Lit (c : cu)
| Dot
| Class (negated : bool) (items : list citem)
| Seq (r1 r2 : re)
| Alt (r1 r2 : re)
| Rep (min : nat) (max : option nat) (greedy : bool) (r : re)
| Bol                  (* ^ *)
| Eol                  (* $ *)
| WordBoundary         (* \b *)
| NegLookahead (r : re)
| Group (n : nat) (r : re).

Record regexp : Type := mkRegexp { source : re; reFlags : flags }.

(** A match state: the input before the current position (most recent unit
    first), the input from it on, and the captures recorded so far. *)
Record mstate : Type := mkState {
  before : list cu;
  after : list cu;
  captures : list (nat * jsstring)
}.

Definition endIndex (x : mstate) : nat := List.length (before x).

Definition continuation := mstate -> option mstate.

(** Canonicalize, for patterns without the [u] flag.  The patterns of the
    analyzer spell ASCII characters only, and the real function never maps a
    unit outside ASCII to an ASCII one, so upper-casing the ASCII letters
    decides every comparison as the real function does. *)
Definition canonicalize (fl : flags) (c : cu) : cu :=
  if ignoreCase fl && ((97 <=? c) && (c <=? 122))%N then (c - 32)%N else c.

Definition unitMatches (fl : flags) (p c : cu) : bool :=
  N.eqb (canonicalize fl p) (canonicalize fl c).

Definition itemMatches (fl : flags) (it : citem) (c : cu) : bool :=
  match it with
  | CUnit p => unitMatches fl p c
  | CSpace => isWhiteSpace c
  | CNonSpace => negb (isWhiteSpace c)
  | CWord => isWordChar c
  | CDigitClass => isDigit c
  end.

Definition classMatches (fl : flags) (negated : bool) (items : list citem)
    (c : cu) : bool :=
  xorb negated (existsb (fun it => itemMatches fl it c) items).

(** Consume one unit that satisfies [p]. *)
Definition charMatcher (p : cu -> bool) (x : mstate) (k : continuation)
  : option mstate :=
  match after x with
  | c :: rest =>
      if p c then k (mkState (c :: before x) rest (captures x)) else None
  | [] => None
  end.

Fixpoint groups (r : re) : list nat :=
  match r with
  | Seq r1 r2 | Alt r1 r2 => groups r1 ++ groups r2
  | Rep _ _ _ r' | NegLookahead r' => groups r'
  | Group n r' => n :: groups r'
  | _ => []
  end.

Definition clearCaptures (gs : list nat) (x : mstate) : mstate :=
  mkState (before x) (after x)
    (filter (fun c => negb (existsb (Nat.eqb (fst c)) gs)) (captures x)).

Definition setCapture (n : nat) (x y : mstate) : mstate :=
  mkState (before y) (after y)
    ((n, firstn (endIndex y - endIndex x) (after x)) :: captures y).

Definition getCapture (n : nat) (x : mstate) : option jsstring :=
  option_map snd (find (fun c => Nat.eqb (fst c) n) (captures x)).

Definition predMax (max : option nat) : option nat := option_map pred max.

(** RepeatMatcher.  [mr] matches the quantified atom.  One unit of [fuel]
    is spent per iteration; an iteration either lowers a positive [min] or,
    when [min] is zero, has to move the position forward, so that
    [min + length (after x)] iterations are the most any input allows and
    the caller's [S (min + length (after x))] is never used up (lemma
    [quantifier_bound_enough] below). *)
Fixpoint repeatMatcher (mr : mstate -> continuation -> option mstate)
    (gs : list nat) (fuel min : nat) (max : option nat) (greedy : bool)
    (x : mstate) (k : continuation) {struct fuel} : option mstate :=
  match fuel with
  | O => None
  | S fuel' =>
      match max with
      | Some O => k x
      | _ =>
          let d : continuation := fun y =>
            if Nat.eqb min 0 && Nat.eqb (endIndex y) (endIndex x) then None
            else repeatMatcher mr gs fuel' (pred min) (predMax max) greedy y k
          in
          let xr := clearCaptures gs x in
          if negb (Nat.eqb min 0) then mr xr d
          else if greedy then
            match mr xr d with
            | Some z => Some z
            | None => k x
            end
          else
            match k x with
            | Some z => Some z
            | None => mr xr d
            end
      end
  end.

Definition headIs (p : cu -> bool) (l : list cu) : bool :=
  match l with c :: _ => p c | [] => false end.

Definition isNil (l : list cu) : bool :=
  match l with [] => true | _ => false end.

Fixpoint matcher (fl : flags) (r : re) (x : mstate) (k : continuation)
    {struct r} : option mstate :=
  match r with
  | Empty => k x
  | Lit p => charMatcher (unitMatches fl p) x k
  | Dot =>
      charMatcher (fun c => dotAll fl || negb (isLineTerminator c)) x k
  | Class negated items => charMatcher (classMatches fl negated items) x k
  | Seq r1 r2 => matcher fl r1 x (fun y => matcher fl r2 y k)
  | Alt r1 r2 =>
      match matcher fl r1 x k with
      | Some z => Some z
      | None => matcher fl r2 x k
      end
  | Rep min max greedy r' =>
      repeatMatcher (matcher fl r') (groups r')
        (S (min + List.length (after x))) min max greedy x k
  | Bol =>
      if isNil (before x) || (multiline fl && headIs isLineTerminator (before x))
      then k x else None
  | Eol =>
      if isNil (after x) || (multiline fl && headIs isLineTerminator (after x))
      then k x else None
  | WordBoundary =>
      if xorb (headIs isWordChar (before x)) (headIs isWordChar (after x))
      then k x else None
  | NegLookahead r' =>
      match matcher fl r' x (fun y => Some y) with
      | Some _ => None
      | None => k x
      end
  | Group n r' => matcher fl r' x (fun y => k (setCapture n x y))
  end.

(** The scan of RegExpBuiltinExec: try the pattern at the current index,
    then at each later one up to the end of the input. *)
Fixpoint scan (R : regexp) (pre suf : list cu) : option mstate :=
  match matcher (reFlags R) (source R) (mkState pre suf []) (fun y => Some y) with
  | Some y => Some y
  | None =>
      match suf with
      | [] => None
      | c :: suf' => scan R (c :: pre) suf'
      end
  end.

(** RegExpBuiltinExec: the match, if any, and the new value of the
    [lastIndex] property of the pattern object. *)
Definition exec (R : regexp) (lastIndex : nat) (S : jsstring)
  : option mstate * nat :=
  let g := global (reFlags R) in
  let start := if g then lastIndex else 0 in
  if List.length S <? start then (None, if g then 0 else lastIndex)
  else
    match scan R (rev (firstn start S)) (skipn start S) with
    | None => (None, if g then 0 else lastIndex)
    | Some y => (Some y, if g then endIndex y else lastIndex)
    end.

Definition isSome (A : Type) (o : option A) : bool :=
  match o with Some _ => true | None => false end.

(** [RegExp.prototype.test]. *)
Definition test (R : regexp) (lastIndex : nat) (S : jsstring) : bool * nat :=
  let '(r, li) := exec R lastIndex S in (isSome r, li).

(** [test] on a pattern literal evaluated on the spot: a new object, whose
    [lastIndex] is 0 and is dropped with it. *)
Definition testLiteral (R : regexp) (S : jsstring) : bool :=
  fst (test R 0 S).

(** [String.prototype.match] with a pattern without [g]: the first match. *)
Definition matchFirst (R : regexp) (S : jsstring) : option mstate :=
  fst (exec R 0 S).

(** [String.prototype.match] with a [g] pattern: every match, left to
    right, the search resuming where the previous match ended (one unit
    further after an empty match); [None] stands for [null], the answer
    when there is no match.  [skip] counts the units still covered by the
    previous match. *)
Fixpoint matchesFrom (R : regexp) (pre suf : list cu) (skip : nat)
  : list jsstring :=
  match skip with
  | S skip' =>
      match suf with
      | [] => []
      | c :: suf' => matchesFrom R (c :: pre) suf' skip'
      end
  | O =>
      match matcher (reFlags R) (source R) (mkState pre suf []) (fun y => Some y) with
      | Some y =>
          let len := endIndex y - List.length pre in
          firstn len suf ::
            match suf with
            | [] => []
            | c :: suf' => matchesFrom R (c :: pre) suf' (pred len)
            end
      | None =>
          match suf with
          | [] => []
          | c :: suf' => matchesFrom R (c :: pre) suf' 0
          end
      end
  end.

Definition matchAll (R : regexp) (S : jsstring) : option (list jsstring) :=
  match matchesFrom R [] S 0 with
  | [] => None
  | l => Some l
  end.

(** ** Pattern syntax *)

Definition noFlags : flags := mkFlags false false false false.
Definition flags_g : flags := mkFlags false false false true.
Definition flags_i : flags := mkFlags true false false false.
Definition flags_gi : flags := mkFlags true false false true.
Definition flags_gm : flags := mkFlags false true false true.
Definition flags_gms : flags := mkFlags false true true true.

Fixpoint seqs (l : list re) : re :=
  match l with
  | [] => Empty
  | [r] => r
  | r :: rest => Seq r (seqs rest)
  end.

Fixpoint alts (l : list re) : re :=
  match l with
  | [] => Empty
  | [r] => r
  | r :: rest => Alt r (alts rest)
  end.

(** A run of literal ASCII characters. *)
Definition lit (s : string) : re := seqs (List.map Lit (str s)).

(** An alternation of literal words. *)
Definition words (l : list string) : re := alts (List.map lit l).

Definition star (r : re) : re := Rep 0 None true r.
Definition plus (r : re) : re := Rep 1 None true r.
Definition opt (r : re) : re := Rep 0 (Some 1) true r.
Definition lazyStar (r : re) : re := Rep 0 None false r.
Definition atLeast (n : nat) (r : re) : re := Rep n None true r.
Definition upTo (n : nat) (r : re) : re := Rep 0 (Some n) true r.

Definition oneOf (l : list cu) : re := Class false (List.map CUnit l).
Definition noneOf (l : list cu) : re := Class true (List.map CUnit l).

Definition ws : re := Class false [CSpace].        (* \s *)
Definition word : re := Class false [CWord].       (* \w *)
Definition digit : re := Class false [CDigitClass]. (* \d *)
Definition anything : re := Class false [CSpace; CNonSpace]. (* [\s\S] *)

Definition dquote : cu := 34%N.
Definition squote : cu := 39%N.
Definition backtick : cu := 96%N.

End RegExp.

Import RegExp.
Arguments lit s%_string.

(* ====================================================================== *)
(** * The analyzer: data *)
(* ====================================================================== *)

(** [const SEVERITY = { info: 0, warning: 1, error: 2 }] *)
Definition SEVERITY : list (jsstring * Z) :=
  [ (str "info", 0%Z); (str "warning", 1%Z); (str "error", 2%Z) ].

(** What a block rule's [check] reports. *)
Module BlockIssue.
Record t : Type := mk {
  line : Z;
  message : jsstring;
  suggestion : jsstring
}.
End BlockIssue.

(** A rule of the table.  A field that an entry of the table does not
    spell is [None]: reading it gives [undefined]. *)
Module Rule.
Record t : Type := mk {
  id : jsstring;
  name : jsstring;
  severity : jsstring;
  languages : list jsstring;
  pattern : option regexp;
  message : option jsstring;
  suggestion : option jsstring;
  contextFilter : option (jsstring -> jsstring -> bool);
  isBlockRule : option bool;
  check : option (list jsstring -> list BlockIssue.t)
}.
End Rule.

(** A finding, as pushed on [issues]. *)
Module Issue.
Record t : Type := mk {
  ruleId : jsstring;
  ruleName : jsstring;
  severity : jsstring;
  line : Z;
  message : option jsstring;
  suggestion : option jsstring
}.
End Issue.

(** ** The patterns of the rule table *)

Definition quoteClass : re := oneOf [squote; dquote].     (* ['\x22] *)
Definition notQuote : re := noneOf [squote; dquote].      (* [^'\x22] *)
Definition notClosing : re := noneOf [41%N].              (* [^)] *)
Definition parenOrBrace : re := Alt (lit "(") (lit "{").  (* (?:\(|{) *)

(** /(?:query|execute|exec|raw)\s*\(\s*(?:`[^`]*\$\{|f['\x22][^'\x22]*\{
      |['\x22].*?\+\s*(?:req|request|params|input|user|args)|['\x22].*?%s
      |['\x22].*?\?\s*%)/gi *)
Definition SEC001_pattern : regexp :=
  mkRegexp
    (seqs [ words ["query"; "execute"; "exec"; "raw"]; star ws; lit "(";
            star ws;
            alts [ seqs [Lit backtick; star (noneOf [backtick]); lit "${"];
                   seqs [lit "f"; quoteClass; star notQuote; lit "{"];
                   seqs [quoteClass; lazyStar Dot; lit "+"; star ws;
                         words ["req"; "request"; "params"; "input"; "user";
                                "args"]];
                   seqs [quoteClass; lazyStar Dot; lit "%s"];
                   seqs [quoteClass; lazyStar Dot; lit "?"; star ws; lit "%"] ] ])
    flags_gi.

(** /\beval\s*\(/g *)
Definition SEC002_pattern : regexp :=
  mkRegexp (seqs [WordBoundary; lit "eval"; star ws; lit "("]) flags_g.

(** /(?:password|secret|api_key|apikey|api_secret|access_token|auth_token
      |private_key)\s*[:=]\s*['\x22][^'\x22]{8,}['\x22]/gi *)
Definition SEC003_pattern : regexp :=
  mkRegexp
    (seqs [ words ["password"; "secret"; "api_key"; "apikey"; "api_secret";
                   "access_token"; "auth_token"; "private_key"];
            star ws; oneOf [58%N; 61%N]; star ws;
            quoteClass; atLeast 8 notQuote; quoteClass ])
    flags_gi.

(** /(?:readFile|readFileSync|open|fopen|os\.path\.join|filepath\.Join)
      \s*\([^)]*(?:req\.|request\.|params\.|input|user_input|args)/gi *)
Definition SEC004_pattern : regexp :=
  mkRegexp
    (seqs [ words ["readFile"; "readFileSync"; "open"; "fopen";
                   "os.path.join"; "filepath.Join"];
            star ws; lit "("; star notClosing;
            words ["req."; "request."; "params."; "input"; "user_input";
                   "args"] ])
    flags_gi.

(** /\.innerHTML\s*=\s*(?!['\x22`]<)/g *)
Definition SEC005_pattern : regexp :=
  mkRegexp
    (seqs [ lit ".innerHTML"; star ws; lit "="; star ws;
            NegLookahead (Seq (oneOf [squote; dquote; backtick]) (lit "<")) ])
    flags_g.

(** /(?:exec|spawn|system|popen|subprocess\.call|subprocess\.run|os\.system)
      \s*\([^)]*(?:\+|`|\$\{|\.format|%s|f['\x22])/gi *)
Definition SEC006_pattern : regexp :=
  mkRegexp
    (seqs [ words ["exec"; "spawn"; "system"; "popen"; "subprocess.call";
                   "subprocess.run"; "os.system"];
            star ws; lit "("; star notClosing;
            alts [ lit "+"; Lit backtick; lit "${"; lit ".format"; lit "%s";
                   Seq (lit "f") quoteClass ] ])
    flags_gi.

(** /Math\.random\s*\(\)/g *)
Definition SEC007_pattern : regexp :=
  mkRegexp (seqs [lit "Math.random"; star ws; lit "()"]) flags_g.

(** (line) => /(?:token|secret|password|key|auth|session|nonce|salt|hash
      |crypto)/i.test(line) *)
Definition SEC007_contextFilter (line filepath : jsstring) : bool :=
  testLiteral
    (mkRegexp (words ["token"; "secret"; "password"; "key"; "auth"; "session";
                      "nonce"; "salt"; "hash"; "crypto"]) flags_i)
    line.

(** /(?:verify\s*=\s*False|rejectUnauthorized\s*:\s*false
      |InsecureSkipVerify\s*:\s*true|VERIFY_NONE|ssl_verify.*false)/gi *)
Definition SEC008_pattern : regexp :=
  mkRegexp
    (alts [ seqs [lit "verify"; star ws; lit "="; star ws; lit "False"];
            seqs [lit "rejectUnauthorized"; star ws; lit ":"; star ws;
                  lit "false"];
            seqs [lit "InsecureSkipVerify"; star ws; lit ":"; star ws;
                  lit "true"];
            lit "VERIFY_NONE";
            seqs [lit "ssl_verify"; star Dot; lit "false"] ])
    flags_gi.

(** /[^=!<>]==[^=]/g *)
Definition BUG001_pattern : regexp :=
  mkRegexp
    (seqs [noneOf [61%N; 33%N; 60%N; 62%N]; lit "=="; noneOf [61%N]])
    flags_g.

(** (line) => !/['\x22`].*==.*['\x22`]/.test(line) *)
Definition BUG001_contextFilter (line filepath : jsstring) : bool :=
  negb (testLiteral
          (mkRegexp
             (seqs [ oneOf [squote; dquote; backtick]; star Dot; lit "==";
                     star Dot; oneOf [squote; dquote; backtick] ])
             noFlags)
          line).

(** /(?:0\.\d+|parseFloat|float\()\s*===?\s*(?:0\.\d+|parseFloat|float\()/g *)
Definition floatOperand : re :=
  alts [Seq (lit "0.") (plus digit); lit "parseFloat"; lit "float("].

Definition BUG002_pattern : regexp :=
  mkRegexp
    (seqs [floatOperand; star ws; lit "=="; opt (lit "="); star ws;
           floatOperand])
    flags_g.

(** /(?:^|\s)(?:const|let|var)\s+\w+\s*=\s*(?:\w+\.(?:find|save|create
      |update|delete|fetch|get|post|put|patch|remove|insert|query)\s*\()/gm *)
Definition BUG003_pattern : regexp :=
  mkRegexp
    (seqs [ Alt Bol ws; words ["const"; "let"; "var"]; plus ws; plus word;
            star ws; lit "="; star ws; plus word; lit ".";
            words ["find"; "save"; "create"; "update"; "delete"; "fetch";
                   "get"; "post"; "put"; "patch"; "remove"; "insert";
                   "query"];
            star ws; lit "(" ])
    flags_gm.

(** (line) => !/await/.test(line) *)
Definition BUG003_contextFilter (line filepath : jsstring) : bool :=
  negb (testLiteral (mkRegexp (lit "await") noFlags) line).

(** /catch\s*(?:\([^)]*\))?\s*\{\s*\}/g *)
Definition BUG004_pattern : regexp :=
  mkRegexp
    (seqs [ lit "catch"; star ws;
            opt (seqs [lit "("; star notClosing; lit ")"]);
            star ws; lit "{"; star ws; lit "}" ])
    flags_g.

(** /console\.log\s*\(/g *)
Definition BUG005_pattern : regexp :=
  mkRegexp (seqs [lit "console.log"; star ws; lit "("]) flags_g.

(** (line) => !/\/\/.*console|test|spec|debug/.test(line) *)
Definition BUG005_contextFilter (line filepath : jsstring) : bool :=
  negb (testLiteral
          (mkRegexp
             (alts [ seqs [lit "//"; star Dot; lit "console"];
                     lit "test"; lit "spec"; lit "debug" ])
             noFlags)
          line).

(** /\/\/\s*(?:TODO|FIXME|HACK|XXX|BUG|WORKAROUND)[\s:]/gi *)
Definition BUG006_pattern : regexp :=
  mkRegexp
    (seqs [ lit "//"; star ws;
            words ["TODO"; "FIXME"; "HACK"; "XXX"; "BUG"; "WORKAROUND"];
            Class false [CSpace; CUnit 58%N] ])
    flags_gi.

(** /(?:for|forEach|map|\.each)\s*(?:\(|{)[\s\S]{0,100}(?:await|\.query
      |\.find|\.get|\.fetch|\.execute|\.select)/gm *)
Definition PERF001_pattern : regexp :=
  mkRegexp
    (seqs [ words ["for"; "forEach"; "map"; ".each"]; star ws; parenOrBrace;
            upTo 100 anything;
            words ["await"; ".query"; ".find"; ".get"; ".fetch"; ".execute";
                   ".select"] ])
    flags_gm.

(** /(?:readFileSync|writeFileSync|mkdirSync|readdirSync|statSync|existsSync
      |appendFileSync|copyFileSync|renameSync|unlinkSync|rmdirSync)\s*\(/g *)
Definition PERF002_pattern : regexp :=
  mkRegexp
    (seqs [ words ["readFileSync"; "writeFileSync"; "mkdirSync";
                   "readdirSync"; "statSync"; "existsSync"; "appendFileSync";
                   "copyFileSync"; "renameSync"; "unlinkSync"; "rmdirSync"];
            star ws; lit "(" ])
    flags_g.

(** (line) => !/(?:config|setup|init|boot|build|script|cli|bin)/.test(line) *)
Definition PERF002_contextFilter (line filepath : jsstring) : bool :=
  negb (testLiteral
          (mkRegexp (words ["config"; "setup"; "init"; "boot"; "build";
                            "script"; "cli"; "bin"]) noFlags)
          line).

(** /while\s*\(true\)[\s\S]{0,200}\.push\s*\(/gm *)
Definition PERF003_pattern : regexp :=
  mkRegexp
    (seqs [ lit "while"; star ws; lit "(true)"; upTo 200 anything;
            lit ".push"; star ws; lit "(" ])
    flags_gm.

(** /(?:for|while|forEach|map)\s*(?:\(|{)[\s\S]{0,50}new RegExp\(/gm *)
Definition PERF004_pattern : regexp :=
  mkRegexp
    (seqs [ words ["for"; "while"; "forEach"; "map"]; star ws; parenOrBrace;
            upTo 50 anything; lit "new RegExp(" ])
    flags_gm.

(** /def\s+\w+\s*\([^)]*(?:=\s*\[\]|=\s*\{\}|=\s*set\(\))/g *)
Definition PY001_pattern : regexp :=
  mkRegexp
    (seqs [ lit "def"; plus ws; plus word; star ws; lit "("; star notClosing;
            alts [ seqs [lit "="; star ws; lit "[]"];
                   seqs [lit "="; star ws; lit "{}"];
                   seqs [lit "="; star ws; lit "set()"] ] ])
    flags_g.

(** /except\s*:/g *)
Definition PY002_pattern : regexp :=
  mkRegexp (seqs [lit "except"; star ws; lit ":"]) flags_g.

(** /^assert\s+/gm *)
Definition PY003_pattern : regexp :=
  mkRegexp (seqs [Bol; lit "assert"; plus ws]) flags_gm.

(** (line, filepath) => !/test/.test(filepath) *)
Definition PY003_contextFilter (line filepath : jsstring) : bool :=
  negb (testLiteral (mkRegexp (lit "test") noFlags) filepath).

(** /[^,]\s*:?=\s*\w+\.\w+\([^)]*\)\s*$/gm *)
Definition GO001_pattern : regexp :=
  mkRegexp
    (seqs [ noneOf [44%N]; star ws; opt (lit ":"); lit "="; star ws;
            plus word; lit "."; plus word; lit "("; star notClosing; lit ")";
            star ws; Eol ])
    flags_gm.

(** /go\s+func\s*\(/g *)
Definition GO002_pattern : regexp :=
  mkRegexp (seqs [lit "go"; plus ws; lit "func"; star ws; lit "("]) flags_g.

(** /use(?:Effect|Callback|Memo)\s*\(\s*(?:\(\)|[^,]+),\s*\[\s*\]\s*\)/g *)
Definition REACT001_pattern : regexp :=
  mkRegexp
    (seqs [ lit "use"; words ["Effect"; "Callback"; "Memo"]; star ws;
            lit "("; star ws; Alt (lit "()") (plus (noneOf [44%N]));
            lit ","; star ws; lit "["; star ws; lit "]"; star ws; lit ")" ])
    flags_g.

(** /(?:function|const)\s+\w+\s*(?:=|)\s*(?:\([^)]*\))?\s*(?:=>)?\s*\{[^}]*
      set\w+\s*\([^}]*return\s*(?:\(|<)/gms *)
Definition REACT002_pattern : regexp :=
  mkRegexp
    (seqs [ words ["function"; "const"]; plus ws; plus word; star ws;
            Alt (lit "=") Empty; star ws;
            opt (seqs [lit "("; star notClosing; lit ")"]);
            star ws; opt (lit "=>"); star ws; lit "{";
            star (noneOf [125%N]); lit "set"; plus word; star ws; lit "(";
            star (noneOf [125%N]); lit "return"; star ws;
            Alt (lit "(") (lit "<") ])
    flags_gms.

(** /:\s*any\b/g *)
Definition TS001_pattern : regexp :=
  mkRegexp (seqs [lit ":"; star ws; lit "any"; WordBoundary]) flags_g.

(** /\w+!\./g *)
Definition TS002_pattern : regexp :=
  mkRegexp (seqs [plus word; lit "!."]) flags_g.

(** /(?:if|while|for|return|===?|!==?|[<>]=?)\s*\d{3,}/g *)
Definition GEN001_pattern : regexp :=
  mkRegexp
    (seqs [ alts [ lit "if"; lit "while"; lit "for"; lit "return";
                   Seq (lit "==") (opt (lit "="));
                   Seq (lit "!=") (opt (lit "="));
                   Seq (oneOf [60%N; 62%N]) (opt (lit "=")) ];
            star ws; atLeast 3 digit ])
    flags_g.

(** (line) => !/(?:port|status|code|http|error|errno|0x|pixel|width|height
      |size)/i.test(line) *)
Definition GEN001_contextFilter (line filepath : jsstring) : bool :=
  negb (testLiteral
          (mkRegexp (words ["port"; "status"; "code"; "http"; "error";
                            "errno"; "0x"; "pixel"; "width"; "height";
                            "size"]) flags_i)
          line).

(** ** The block rule GEN002 *)

(** /(?:function|def|func|fn)\s+(\w+)/ *)
Definition functionHeader : regexp :=
  mkRegexp
    (seqs [words ["function"; "def"; "func"; "fn"]; plus ws;
           Group 1 (plus word)])
    noFlags.

Definition openBrace : regexp := mkRegexp (lit "{") flags_g.   (* /{/g *)
Definition closeBrace : regexp := mkRegexp (lit "}") flags_g.  (* /}/g *)

Definition infoSign : jsstring := [0x2139; 0xFE0F]%N.
Definition warningSign : jsstring := [0x26A0; 0xFE0F]%N.
Definition redCircle : jsstring := [0xD83D; 0xDD34]%N.

(** A value spliced into a template literal. *)
Definition spliced (v : option jsstring) : jsstring :=
  match v with Some s => s | None => str "undefined" end.

(** [(line.match(re) || []).length] *)
Definition countMatches (R : regexp) (line : jsstring) : Z :=
  Z.of_nat (List.length (match matchAll R line with Some l => l | None => [] end)).

(** The local variables of [check]. *)
Record checkState : Type := mkCheck {
  issues : list BlockIssue.t;
  funcStart : Z;
  braceDepth : Z;
  funcName : option jsstring
}.

(** The first statement of the loop body of [check], at index [i]:
    [if (funcMatch && funcStart === -1) { ... }]. *)
Definition noteHeader (i : Z) (line : jsstring) (st : checkState) : checkState :=
  let funcMatch := matchFirst functionHeader line in
  match funcMatch with
  | Some m =>
      if (funcStart st =? -1)%Z
      then mkCheck (issues st) i 0%Z (getCapture 1 m)
      else st
  | None => st
  end.

(** The second statement: [if (funcStart !== -1) { ... }]. *)
Definition trackBraces (i : Z) (line : jsstring) (st : checkState) : checkState :=
  if negb (funcStart st =? -1)%Z then
    let depth :=
      (braceDepth st + countMatches openBrace line
       - countMatches closeBrace line)%Z in
    if (depth <=? 0)%Z && (funcStart st <? i)%Z then
      let length := (i - funcStart st)%Z in
      let issues' :=
        if (50 <? length)%Z then
          issues st ++
          [ BlockIssue.mk (funcStart st + 1)%Z
              (infoSign ++ str " **Long Function**: `"
               ++ spliced (funcName st) ++ str "` is "
               ++ numberToString length
               ++ str " lines long. Consider breaking it up.")
              (str "Functions over 50 lines are harder to test and maintain. "
               ++ str "Extract sub-functions.") ]
        else issues st in
      mkCheck issues' (-1)%Z depth (funcName st)
    else mkCheck (issues st) (funcStart st) depth (funcName st)
  else st.

(** One turn of the loop of [check], at index [i]. *)
Definition checkStep (i : Z) (line : jsstring) (st : checkState) : checkState :=
  trackBraces i line (noteHeader i line st).

(** [for (let i = 0; i < lines.length; i++) { const line = lines[i]; ... }],
    entered at index [i] with the lines from [i] on. *)
Fixpoint checkLoop (i : Z) (lines : list jsstring) (st : checkState)
  : checkState :=
  match lines with
  | [] => st
  | line :: rest => checkLoop (i + 1)%Z rest (checkStep i line st)
  end.

Definition GEN002_check (lines : list jsstring) : list BlockIssue.t :=
  issues (checkLoop 0%Z lines (mkCheck [] (-1)%Z 0%Z (Some []))).

Definition langs (l : list string) : list jsstring := List.map str l.

(** ** The rule table *)

(** [const rules = [ ... ]], in declaration order. *)
Definition rules : list Rule.t :=
[
  {| Rule.id := str "SEC001";
     Rule.name := str "SQL Injection Risk";
     Rule.severity := str "error";
     Rule.languages := langs ["js"; "ts"; "py"; "java"; "go"; "rb"; "php"];
     Rule.pattern := Some SEC001_pattern;
     Rule.message :=
       Some (redCircle
        ++ str " **SQL Injection Risk**: String interpolation in SQL query. "
        ++ str "Use parameterized queries instead.");
     Rule.suggestion :=
       Some (str "Use parameterized queries: `db.query("
        ++ [dquote]
        ++ str "SELECT * FROM users WHERE id = ?"
        ++ [dquote]
        ++ str ", [userId])`");
     Rule.contextFilter := None;
     Rule.isBlockRule := None;
     Rule.check := None |};
  {| Rule.id := str "SEC002";
     Rule.name := str "eval() Usage";
     Rule.severity := str "error";
     Rule.languages := langs ["js"; "ts"; "py"];
     Rule.pattern := Some SEC002_pattern;
     Rule.message :=
       Some (redCircle
        ++ str " **Dangerous eval()**: `eval()` executes arbitrary code and "
        ++ str "is a major security risk.");
     Rule.suggestion :=
       Some (str "Use `JSON.parse()` for JSON, `new Function()` if absolutely "
        ++ str "necessary, or refactor to avoid dynamic code execution.");
     Rule.contextFilter := None;
     Rule.isBlockRule := None;
     Rule.check := None |};
  {| Rule.id := str "SEC003";
     Rule.name := str "Hardcoded Secrets";
     Rule.severity := str "error";
     Rule.languages := langs ["*"];
     Rule.pattern := Some SEC003_pattern;
     Rule.message :=
       Some (redCircle
        ++ str " **Hardcoded Secret**: Credentials should never be "
        ++ str "hardcoded. Use environment variables.");
     Rule.suggestion :=
       Some (str "Use `process.env.SECRET_NAME` or a secrets manager like AWS "
        ++ str "Secrets Manager, Vault, etc.");
     Rule.contextFilter := None;
     Rule.isBlockRule := None;
     Rule.check := None |};
  {| Rule.id := str "SEC004";
     Rule.name := str "Path Traversal";
     Rule.severity := str "error";
     Rule.languages := langs ["js"; "ts"; "py"; "go"; "java"; "rb"; "php"];
     Rule.pattern := Some SEC004_pattern;
     Rule.message :=
       Some (redCircle
        ++ str " **Path Traversal Risk**: User input used in file path "
        ++ str "without sanitization.");
     Rule.suggestion :=
       Some (str "Validate and sanitize file paths. Use `path.resolve()` and "
        ++ str "check the result stays within the expected directory.");
     Rule.contextFilter := None;
     Rule.isBlockRule := None;
     Rule.check := None |};
  {| Rule.id := str "SEC005";
     Rule.name := str "XSS via innerHTML";
     Rule.severity := str "error";
     Rule.languages := langs ["js"; "ts"];
     Rule.pattern := Some SEC005_pattern;
     Rule.message :=
       Some (redCircle
        ++ str " **XSS Risk**: Setting `innerHTML` with dynamic content can "
        ++ str "lead to cross-site scripting.");
     Rule.suggestion :=
       Some (str "Use `textContent` for text, or sanitize HTML with DOMPurify "
        ++ str "before using innerHTML.");
     Rule.contextFilter := None;
     Rule.isBlockRule := None;
     Rule.check := None |};
  {| Rule.id := str "SEC006";
     Rule.name := str "Command Injection";
     Rule.severity := str "error";
     Rule.languages := langs ["js"; "ts"; "py"; "rb"; "php"];
     Rule.pattern := Some SEC006_pattern;
     Rule.message :=
       Some (redCircle
        ++ str " **Command Injection Risk**: User input in shell command "
        ++ str "without proper escaping.");
     Rule.suggestion :=
       Some (str "Use array-form of exec (e.g., `execFile`) or properly "
        ++ str "escape shell arguments.");
     Rule.contextFilter := None;
     Rule.isBlockRule := None;
     Rule.check := None |};
  {| Rule.id := str "SEC007";
     Rule.name := str "Insecure Randomness";
     Rule.severity := str "warning";
     Rule.languages := langs ["js"; "ts"];
     Rule.pattern := Some SEC007_pattern;
     Rule.message :=
       Some (warningSign
        ++ str " **Insecure Randomness**: `Math.random()` is not "
        ++ str "cryptographically secure.");
     Rule.suggestion :=
       Some (str "For security-sensitive operations, use "
        ++ str "`crypto.randomBytes()` or `crypto.getRandomValues()`.");
     Rule.contextFilter := Some SEC007_contextFilter;
     Rule.isBlockRule := None;
     Rule.check := None |};
  {| Rule.id := str "SEC008";
     Rule.name := str "Disabled SSL Verification";
     Rule.severity := str "error";
     Rule.languages := langs ["py"; "js"; "ts"; "go"; "java"; "rb"];
     Rule.pattern := Some SEC008_pattern;
     Rule.message :=
       Some (redCircle
        ++ str " **SSL Verification Disabled**: This makes connections "
        ++ str "vulnerable to man-in-the-middle attacks.");
     Rule.suggestion :=
       Some (str "Enable SSL verification in production. Only disable for "
        ++ str "local development if absolutely necessary.");
     Rule.contextFilter := None;
     Rule.isBlockRule := None;
     Rule.check := None |};
  {| Rule.id := str "BUG001";
     Rule.name := str "Loose Equality";
     Rule.severity := str "warning";
     Rule.languages := langs ["js"; "ts"];
     Rule.pattern := Some BUG001_pattern;
     Rule.message :=
       Some (warningSign
        ++ str " **Loose Equality**: `==` performs type coercion. Use `===` "
        ++ str "for strict comparison.");
     Rule.suggestion :=
       Some (str "Replace `==` with `===` and `!=` with `!==` to avoid "
        ++ str "unexpected type coercion.");
     Rule.contextFilter := Some BUG001_contextFilter;
     Rule.isBlockRule := None;
     Rule.check := None |};
  {| Rule.id := str "BUG002";
     Rule.name := str "Floating Point Comparison";
     Rule.severity := str "warning";
     Rule.languages := langs ["js"; "ts"; "py"; "java"; "go"; "c"; "cpp"];
     Rule.pattern := Some BUG002_pattern;
     Rule.message :=
       Some (warningSign
        ++ str " **Floating Point Comparison**: Direct comparison of "
        ++ str "floating-point numbers is unreliable.");
     Rule.suggestion :=
       Some (str "Use `Math.abs(a - b) < Number.EPSILON` or a tolerance-based "
        ++ str "comparison.");
     Rule.contextFilter := None;
     Rule.isBlockRule := None;
     Rule.check := None |};
  {| Rule.id := str "BUG003";
     Rule.name := str "Missing await";
     Rule.severity := str "warning";
     Rule.languages := langs ["js"; "ts"];
     Rule.pattern := Some BUG003_pattern;
     Rule.message :=
       Some (warningSign
        ++ str " **Possible Missing await**: This async operation may need "
        ++ str "`await` to work correctly.");
     Rule.suggestion :=
       Some (str "If this function returns a Promise, add `await` to ensure "
        ++ str "proper execution order.");
     Rule.contextFilter := Some BUG003_contextFilter;
     Rule.isBlockRule := None;
     Rule.check := None |};
  {| Rule.id := str "BUG004";
     Rule.name := str "Empty Catch Block";
     Rule.severity := str "warning";
     Rule.languages := langs ["js"; "ts"; "java"; "py"];
     Rule.pattern := Some BUG004_pattern;
     Rule.message :=
       Some (warningSign
        ++ str " **Empty Catch Block**: Silently swallowing errors makes "
        ++ str "debugging impossible.");
     Rule.suggestion :=
       Some (str "At minimum, log the error: `catch (e) { console.error(e); "
        ++ str "}` or handle it properly.");
     Rule.contextFilter := None;
     Rule.isBlockRule := None;
     Rule.check := None |};
  {| Rule.id := str "BUG005";
     Rule.name := str "Console.log in Production";
     Rule.severity := str "info";
     Rule.languages := langs ["js"; "ts"];
     Rule.pattern := Some BUG005_pattern;
     Rule.message :=
       Some (infoSign
        ++ str " **Console.log**: Consider removing console.log from "
        ++ str "production code.");
     Rule.suggestion :=
       Some (str "Use a proper logger (winston, pino) or remove before "
        ++ str "deploying.");
     Rule.contextFilter := Some BUG005_contextFilter;
     Rule.isBlockRule := None;
     Rule.check := None |};
  {| Rule.id := str "BUG006";
     Rule.name := str "TODO/FIXME/HACK Comments";
     Rule.severity := str "info";
     Rule.languages := langs ["*"];
     Rule.pattern := Some BUG006_pattern;
     Rule.message :=
       Some (infoSign
        ++ str " **Technical Debt**: Found a TODO/FIXME comment that should "
        ++ str "be tracked.");
     Rule.suggestion :=
       Some (str "Create a GitHub issue to track this technical debt item.");
     Rule.contextFilter := None;
     Rule.isBlockRule := None;
     Rule.check := None |};
  {| Rule.id := str "PERF001";
     Rule.name := str "N+1 Query Pattern";
     Rule.severity := str "warning";
     Rule.languages := langs ["js"; "ts"; "py"; "rb"; "java"];
     Rule.pattern := Some PERF001_pattern;
     Rule.message :=
       Some (warningSign
        ++ str " **N+1 Query**: Database query inside a loop causes "
        ++ str "performance issues.");
     Rule.suggestion :=
       Some (str "Batch queries outside the loop, or use eager loading / "
        ++ str "JOINs.");
     Rule.contextFilter := None;
     Rule.isBlockRule := None;
     Rule.check := None |};
  {| Rule.id := str "PERF002";
     Rule.name := str "Synchronous I/O";
     Rule.severity := str "warning";
     Rule.languages := langs ["js"; "ts"];
     Rule.pattern := Some PERF002_pattern;
     Rule.message :=
       Some (warningSign
        ++ str " **Synchronous I/O**: Blocking I/O operations can freeze "
        ++ str "the event loop.");
     Rule.suggestion :=
       Some (str "Use async versions (e.g., `fs.promises.readFile`) to avoid "
        ++ str "blocking.");
     Rule.contextFilter := Some PERF002_contextFilter;
     Rule.isBlockRule := None;
     Rule.check := None |};
  {| Rule.id := str "PERF003";
     Rule.name := str "Unbounded Array Growth";
     Rule.severity := str "warning";
     Rule.languages := langs ["js"; "ts"; "py"];
     Rule.pattern := Some PERF003_pattern;
     Rule.message :=
       Some (warningSign
        ++ str " **Unbounded Array Growth**: Array growing in infinite loop "
        ++ str "can cause memory exhaustion.");
     Rule.suggestion :=
       Some (str "Add a maximum size check or use a bounded data structure.");
     Rule.contextFilter := None;
     Rule.isBlockRule := None;
     Rule.check := None |};
  {| Rule.id := str "PERF004";
     Rule.name := str "Regex in Loop";
     Rule.severity := str "info";
     Rule.languages := langs ["js"; "ts"; "py"; "java"];
     Rule.pattern := Some PERF004_pattern;
     Rule.message :=
       Some (infoSign
        ++ str " **Regex in Loop**: Creating regex inside a loop is "
        ++ str "inefficient.");
     Rule.suggestion :=
       Some (str "Compile the regex once outside the loop.");
     Rule.contextFilter := None;
     Rule.isBlockRule := None;
     Rule.check := None |};
  {| Rule.id := str "PY001";
     Rule.name := str "Mutable Default Argument";
     Rule.severity := str "error";
     Rule.languages := langs ["py"];
     Rule.pattern := Some PY001_pattern;
     Rule.message :=
       Some (redCircle
        ++ str " **Mutable Default Argument**: Mutable default arguments "
        ++ str "are shared between calls.");
     Rule.suggestion :=
       Some (str "Use `None` as default and create the mutable object inside "
        ++ str "the function: `def f(x=None): x = x or []`");
     Rule.contextFilter := None;
     Rule.isBlockRule := None;
     Rule.check := None |};
  {| Rule.id := str "PY002";
     Rule.name := str "Bare Except";
     Rule.severity := str "warning";
     Rule.languages := langs ["py"];
     Rule.pattern := Some PY002_pattern;
     Rule.message :=
       Some (warningSign
        ++ str " **Bare Except**: Catches all exceptions including "
        ++ str "KeyboardInterrupt and SystemExit.");
     Rule.suggestion :=
       Some (str "Use `except Exception:` at minimum, or catch specific "
        ++ str "exceptions.");
     Rule.contextFilter := None;
     Rule.isBlockRule := None;
     Rule.check := None |};
  {| Rule.id := str "PY003";
     Rule.name := str "Assert in Production";
     Rule.severity := str "warning";
     Rule.languages := langs ["py"];
     Rule.pattern := Some PY003_pattern;
     Rule.message :=
       Some (warningSign
        ++ str " **Assert in Production**: Assert statements are stripped "
        ++ str "with `-O` flag.");
     Rule.suggestion :=
       Some (str "Use explicit `if not condition: raise ValueError()` for "
        ++ str "production validation.");
     Rule.contextFilter := Some PY003_contextFilter;
     Rule.isBlockRule := None;
     Rule.check := None |};
  {| Rule.id := str "GO001";
     Rule.name := str "Unchecked Error";
     Rule.severity := str "warning";
     Rule.languages := langs ["go"];
     Rule.pattern := Some GO001_pattern;
     Rule.message :=
       Some (warningSign
        ++ str " **Unchecked Error**: Go function may return an error that "
        ++ str "is not being checked.");
     Rule.suggestion :=
       Some (str "Check errors: `result, err := fn(); if err != nil { return "
        ++ str "err }`");
     Rule.contextFilter := None;
     Rule.isBlockRule := None;
     Rule.check := None |};
  {| Rule.id := str "GO002";
     Rule.name := str "Goroutine Leak";
     Rule.severity := str "warning";
     Rule.languages := langs ["go"];
     Rule.pattern := Some GO002_pattern;
     Rule.message :=
       Some (warningSign
        ++ str " **Goroutine Leak Risk**: Anonymous goroutine without clear "
        ++ str "lifecycle management.");
     Rule.suggestion :=
       Some (str "Ensure goroutines have proper cancellation via context or "
        ++ str "done channels.");
     Rule.contextFilter := None;
     Rule.isBlockRule := None;
     Rule.check := None |};
  {| Rule.id := str "REACT001";
     Rule.name := str "Missing Dependency Array";
     Rule.severity := str "warning";
     Rule.languages := langs ["js"; "ts"; "jsx"; "tsx"];
     Rule.pattern := Some REACT001_pattern;
     Rule.message :=
       Some (warningSign
        ++ str " **Empty Dependency Array**: Hook with empty deps array "
        ++ str "runs only once. Verify this is intentional.");
     Rule.suggestion :=
       Some (str "Add all referenced variables to the dependency array, or "
        ++ str "add a comment explaining why it should only run once.");
     Rule.contextFilter := None;
     Rule.isBlockRule := None;
     Rule.check := None |};
  {| Rule.id := str "REACT002";
     Rule.name := str "State Update in Render";
     Rule.severity := str "error";
     Rule.languages := langs ["js"; "ts"; "jsx"; "tsx"];
     Rule.pattern := Some REACT002_pattern;
     Rule.message :=
       Some (redCircle
        ++ str " **State Update in Render**: Setting state during render "
        ++ str "causes infinite re-renders.");
     Rule.suggestion :=
       Some (str "Move state updates to event handlers or useEffect.");
     Rule.contextFilter := None;
     Rule.isBlockRule := None;
     Rule.check := None |};
  {| Rule.id := str "TS001";
     Rule.name := str "any Type";
     Rule.severity := str "info";
     Rule.languages := langs ["ts"; "tsx"];
     Rule.pattern := Some TS001_pattern;
     Rule.message :=
       Some (infoSign
        ++ str " **`any` Type**: Using `any` defeats the purpose of "
        ++ str "TypeScript.");
     Rule.suggestion :=
       Some (str "Use a specific type, `unknown` for truly unknown types, or "
        ++ str "generics.");
     Rule.contextFilter := None;
     Rule.isBlockRule := None;
     Rule.check := None |};
  {| Rule.id := str "TS002";
     Rule.name := str "Non-null Assertion";
     Rule.severity := str "warning";
     Rule.languages := langs ["ts"; "tsx"];
     Rule.pattern := Some TS002_pattern;
     Rule.message :=
       Some (warningSign
        ++ str " **Non-null Assertion**: `!.` bypasses null checking and "
        ++ str "can cause runtime errors.");
     Rule.suggestion :=
       Some (str "Use optional chaining (`?.`) or add a proper null check.");
     Rule.contextFilter := None;
     Rule.isBlockRule := None;
     Rule.check := None |};
  {| Rule.id := str "GEN001";
     Rule.name := str "Magic Number";
     Rule.severity := str "info";
     Rule.languages := langs ["*"];
     Rule.pattern := Some GEN001_pattern;
     Rule.message :=
       Some (infoSign
        ++ str " **Magic Number**: Large numeric literals should be named "
        ++ str "constants for readability.");
     Rule.suggestion :=
       Some (str "Extract to a named constant: `const MAX_RETRIES = 1000;`");
     Rule.contextFilter := Some GEN001_contextFilter;
     Rule.isBlockRule := None;
     Rule.check := None |};
  {| Rule.id := str "GEN002";
     Rule.name := str "Long Function";
     Rule.severity := str "info";
     Rule.languages := langs ["*"];
     Rule.pattern := None;
     Rule.message := None;
     Rule.suggestion := None;
     Rule.contextFilter := None;
     Rule.isBlockRule := Some true;
     Rule.check := Some GEN002_check |}
].

(* ====================================================================== *)
(** * The analyzer: code *)
(* ====================================================================== *)

(** ** Effects

    The patterns of the rule table are objects created once, when the module
    is loaded; all of them carry the [g] flag, so that [test] reads and
    writes their [lastIndex] property.  The store maps the id of a rule to
    the [lastIndex] of its pattern.  A computation may also throw. *)

Inductive outcome (A : Type) : Type :=
| Ok (a : A)
| Throw (error : string).

Arguments Throw {A} error.

Definition store : Type := jsstring -> nat.

Definition M (A : Type) : Type := store -> outcome A * store.

Definition ret (A : Type) (a : A) : M A := fun s => (Ok a, s).

Definition throw (A : Type) (error : string) : M A :=
  fun s => (Throw error, s).

Arguments throw {A} error.

Definition bind (A B : Type) (c : M A) (f : A -> M B) : M B :=
  fun s =>
    match c s with
    | (Ok a, s') => f a s'
    | (Throw e, s') => (Throw e, s')
    end.

Notation "x <- c ;; k" := (bind c (fun x => k))
  (at level 61, c at next level, right associativity).
Notation "c ;; k" := (bind c (fun _ => k))
  (at level 61, right associativity).

Definition update (s : store) (key : jsstring) (n : nat) : store :=
  fun k => if Js.eqb k key then n else s k.

(** [rule.pattern.lastIndex = n] *)
Definition setLastIndex (key : jsstring) (n : nat) : M unit :=
  fun s => (Ok tt, update s key n).

(** [rule.pattern.test(line)] *)
Definition patternTest (key : jsstring) (R : regexp) (line : jsstring)
  : M bool :=
  fun s => let '(b, li) := test R (s key) line in (Ok b, update s key li).

(** [for (const x of xs) { acc = body x acc }] *)
Fixpoint forOf (A B : Type) (body : A -> B -> M B) (xs : list A) (acc : B)
  : M B :=
  match xs with
  | [] => ret acc
  | x :: rest => acc' <- body x acc ;; forOf body rest acc'
  end.

(** [for (let i = ...; i < xs.length; i++) { acc = body i xs[i] acc }],
    entered at index [i] with the elements from [i] on. *)
Fixpoint forIndex (A B : Type) (body : nat -> A -> B -> M B) (i : nat)
    (xs : list A) (acc : B) : M B :=
  match xs with
  | [] => ret acc
  | x :: rest => acc' <- body i x acc ;; forIndex body (S i) rest acc'
  end.

(** ** Values met by the analyzer

    The result of a property read on [SEVERITY] or on the extension map: a
    value of the table, a member of [Object.prototype], or [undefined]. *)

Definition truthyNumber (v : lookup Z) : bool :=
  match v with
  | Own z => negb (z =? 0)%Z
  | Inherited _ => true
  | Undefined => false
  end.

(** [v || 0] *)
Definition orZero (v : lookup Z) : lookup Z :=
  if truthyNumber v then v else Own 0%Z.

(** [a < b].  A member of [Object.prototype] converts to a string that is
    not a numeral and [undefined] converts to NaN: the comparison is false
    as soon as one side is not a number. *)
Definition lessThan (a b : lookup Z) : bool :=
  match a, b with
  | Own x, Own y => (x <? y)%Z
  | _, _ => false
  end.

Definition truthyString (s : jsstring) : bool :=
  match s with [] => false | _ => true end.

(** [languages.includes(lang)]: strict equality with some element, all of
    which are strings. *)
Definition includesValue (l : list jsstring) (v : lookup jsstring) : bool :=
  match v with
  | Own s => includes l s
  | _ => false
  end.

(** ** detectLanguage *)

Definition extensionMap : list (jsstring * jsstring) :=
  List.map (fun p => (str (fst p), str (snd p)))
    [ ("js", "js"); ("mjs", "js"); ("cjs", "js"); ("jsx", "jsx");
      ("ts", "ts"); ("mts", "ts"); ("cts", "ts"); ("tsx", "tsx");
      ("py", "py"); ("pyw", "py");
      ("go", "go");
      ("rs", "rust");
      ("java", "java");
      ("rb", "rb");
      ("php", "php");
      ("c", "c"); ("h", "c");
      ("cpp", "cpp"); ("cc", "cpp"); ("cxx", "cpp"); ("hpp", "cpp") ].

(** [const ext = filepath.split('.').pop()?.toLowerCase();
     return map[ext] || ext;] *)
Definition detectLanguage (filepath : jsstring) : lookup jsstring :=
  let ext := option_map toLowerCase (pop (split 46%N filepath)) in
  match ext with
  | None =>
      (* the key is the string "undefined", and so is not in the map *)
      Undefined
  | Some e =>
      match get extensionMap e with
      | Own tag => if truthyString tag then Own tag else Own e
      | Inherited key => Inherited key
      | Undefined => Own e
      end
  end.

(** ** analyzeFile *)

(** /^\s*(?:\/\/|#|\/\*|\*|--|;)/ *)
Definition commentLeader : regexp :=
  mkRegexp
    (seqs [Bol; star ws;
           alts [lit "//"; lit "#"; lit "/*"; lit "*"; lit "--"; lit ";"]])
    noFlags.

Definition truthyFlag (b : option bool) : bool :=
  match b with Some true => true | _ => false end.

(** The body of the loop over the lines, for a line rule. *)
Definition lineStep (filepath : jsstring) (rule : Rule.t) (i : nat)
    (line : jsstring) (issues : list Issue.t) : M (list Issue.t) :=
  if testLiteral commentLeader line then ret issues
  else
    match Rule.pattern rule with
    | None =>
        throw "TypeError: Cannot set properties of undefined (setting 'lastIndex')"
    | Some R =>
        setLastIndex (Rule.id rule) 0 ;;
        hit <- patternTest (Rule.id rule) R line ;;
        if hit then
          let vetoed :=
            match Rule.contextFilter rule with
            | Some keep => negb (keep line filepath)
            | None => false
            end in
          if vetoed then ret issues
          else
            ret (issues ++
                 [ Issue.mk (Rule.id rule) (Rule.name rule)
                     (Rule.severity rule) (Z.of_nat i + 1)%Z
                     (Rule.message rule) (Rule.suggestion rule) ])
        else ret issues
    end.

(** [for (const issue of blockIssues) issues.push({ ... })] *)
Definition pushBlockIssues (rule : Rule.t) (blockIssues : list BlockIssue.t)
    (issues : list Issue.t) : list Issue.t :=
  fold_left
    (fun acc issue =>
       acc ++ [ Issue.mk (Rule.id rule) (Rule.name rule) (Rule.severity rule)
                  (BlockIssue.line issue) (Some (BlockIssue.message issue))
                  (Some (BlockIssue.suggestion issue)) ])
    blockIssues issues.

(** The body of the loop over the rules. *)
Definition ruleStep (filepath : jsstring) (lang : lookup jsstring)
    (lines : list jsstring) (minSev : lookup Z) (rule : Rule.t)
    (issues : list Issue.t) : M (list Issue.t) :=
  if lessThan (get SEVERITY (Rule.severity rule)) minSev then ret issues
  else if negb (includes (Rule.languages rule) (str "*"))
          && negb (includesValue (Rule.languages rule) lang)
  then ret issues
  else if truthyFlag (Rule.isBlockRule rule) then
    match Rule.check rule with
    | None => throw "TypeError: rule.check is not a function"
    | Some check => ret (pushBlockIssues rule (check lines) issues)
    end
  else forIndex (lineStep filepath rule) 0 lines issues.

(** A parameter with a default value: [None] is the omitted argument. *)
Definition orDefault (arg : option jsstring) (default : jsstring) : jsstring :=
  match arg with Some s => s | None => default end.

(** [function analyzeFile(filepath, content, minSeverity = 'warning')] *)
Definition analyzeFile (filepath content : jsstring)
    (minSeverity : option jsstring) : M (list Issue.t) :=
  let lang := detectLanguage filepath in
  let lines := split 10%N content in
  let minSev := orZero (get SEVERITY (orDefault minSeverity (str "warning"))) in
  forOf (ruleStep filepath lang lines minSev) rules [].

(** ** analyzeDiff *)

(** A file unit; a property that the unit lacks is [None]. *)
Module FileUnit.
Record t : Type := mk {
  filepath : option jsstring;
  content : option jsstring;
  changedLines : option (list Z)
}.
End FileUnit.

(** An element of the result of [analyzeDiff]. *)
Module FileResult.
Record t : Type := mk {
  filepath : jsstring;
  issues : list Issue.t
}.
End FileResult.

(** [changedSet.has(n)] for [changedSet = new Set(changedLines)] *)
Definition setHas (changedLines : list Z) (n : Z) : bool :=
  existsb (Z.eqb n) changedLines.

Definition diffStep (minSeverity : option jsstring) (file : FileUnit.t)
    (allIssues : list FileResult.t) : M (list FileResult.t) :=
  match FileUnit.content file, FileUnit.filepath file with
  | Some content, Some filepath =>
      if negb (truthyString content) || negb (truthyString filepath)
      then ret allIssues
      else
        issues <- analyzeFile filepath content
                    (Some (orDefault minSeverity (str "warning"))) ;;
        match FileUnit.changedLines file with
        | Some (n :: changed) =>
            let filtered :=
              filter (fun i => setHas (n :: changed) (Issue.line i)) issues in
            ret (allIssues ++ [FileResult.mk filepath filtered])
        | _ => ret (allIssues ++ [FileResult.mk filepath issues])
        end
  | _, _ => ret allIssues
  end.

(** [function analyzeDiff(files, minSeverity = 'warning')] *)
Definition analyzeDiff (files : list FileUnit.t)
    (minSeverity : option jsstring) : M (list FileResult.t) :=
  forOf (diffStep minSeverity) files [].

(** ** generateSummary *)

Definition newline : jsstring := [10%N].
Definition checkMark : jsstring := [0x2705%N].
Definition partyPopper : jsstring := [0xD83C; 0xDF89]%N.
Definition magnifier : jsstring := [0xD83D; 0xDD0D]%N.
Definition emDash : jsstring := [0x2014%N].

(** The four counters of [generateSummary]. *)
Record counters : Type := mkCounters {
  totalIssues : nat;
  errors : nat;
  warnings : nat;
  infos : nat
}.

(** The body of the inner loop. *)
Definition countIssue (c : counters) (issue : Issue.t) : counters :=
  let total := S (totalIssues c) in
  if Js.eqb (Issue.severity issue) (str "error")
  then mkCounters total (S (errors c)) (warnings c) (infos c)
  else if Js.eqb (Issue.severity issue) (str "warning")
  then mkCounters total (errors c) (S (warnings c)) (infos c)
  else mkCounters total (errors c) (warnings c) (S (infos c)).

(** [for (const result of allResults) for (const issue of result.issues)] *)
Definition tally (allResults : list FileResult.t) : counters :=
  fold_left
    (fun c result => fold_left countIssue (FileResult.issues result) c)
    allResults (mkCounters 0 0 0 0).

Definition showCount (n : nat) : jsstring := numberToString (Z.of_nat n).

(** [n === 1 ? '' : 's'] *)
Definition plural (n : nat) : jsstring :=
  if Nat.eqb n 1 then [] else str "s".

Definition noIssuesMessage : jsstring :=
  checkMark
  ++ str " **Li Code Review**: No issues found. Code looks good! "
  ++ partyPopper ++ newline ++ newline
  ++ str "<sub>[Li Code Review](https://lbartoszcze.github.io/li-agent/) "
  ++ emDash
  ++ str " Free AI-powered code review</sub>".

Definition summaryHead (total : nat) : jsstring :=
  str "## " ++ magnifier ++ str " Li Code Review Summary"
  ++ newline ++ newline
  ++ str "Found **" ++ showCount total ++ str "** issue" ++ plural total
  ++ str ":" ++ newline.

(** A line of the breakdown: [- <sign> **<n>** <label>(s)\n], appended only
    when [n > 0]. *)
Definition bucketLine (sign : jsstring) (label : string) (n : nat) : jsstring :=
  if 0 <? n
  then str "- " ++ sign ++ str " **" ++ showCount n ++ str "** " ++ str label
       ++ plural n ++ newline
  else [].

Definition summaryFoot : jsstring :=
  newline
  ++ str "<sub>[Li Code Review](https://lbartoszcze.github.io/li-agent/) "
  ++ emDash
  ++ str " Free AI-powered code review | Want deeper analysis? "
  ++ str "[Get a full audit]"
  ++ str "(https://buy.stripe.com/cNi7sLex9bwm2qy8Iwd3i13)</sub>".

Definition generateSummary (allResults : list FileResult.t) : jsstring :=
  let c := tally allResults in
  if Nat.eqb (totalIssues c) 0 then noIssuesMessage
  else
    let summary := summaryHead (totalIssues c) in
    let summary := summary ++ bucketLine redCircle "error" (errors c) in
    let summary := summary ++ bucketLine warningSign "warning" (warnings c) in
    let summary := summary ++ bucketLine infoSign "info" (infos c) in
    summary ++ summaryFoot.

(* ====================================================================== *)
(** * Facts about strings *)
(* ====================================================================== *)

Module JsFacts.

Lemma eqb_spec (s t : jsstring) : reflect (s = t) (eqb s t).
Proof.
  revert t; induction s as [|a s IH]; intros [|b t]; simpl;
    try (constructor; congruence).
  destruct (N.eqb_spec a b) as [->|Hab]; simpl.
  - destruct (IH t) as [->|Hst]; constructor; congruence.
  - constructor; congruence.
Qed.

Lemma eqb_refl (s : jsstring) : eqb s s = true.
Proof. destruct (eqb_spec s s); congruence. Qed.

Lemma eqb_eq (s t : jsstring) : eqb s t = true <-> s = t.
Proof. destruct (eqb_spec s t); split; congruence. Qed.

Lemma eqb_neq (s t : jsstring) : eqb s t = false <-> s <> t.
Proof. destruct (eqb_spec s t); split; congruence. Qed.

Lemma includes_In (l : list jsstring) (s : jsstring) :
  includes l s = true <-> In s l.
Proof.
  unfold includes. rewrite existsb_exists. split.
  - intros (x & Hx & E). apply eqb_eq in E. now subst.
  - intros H. exists s. split; [assumption | apply eqb_refl].
Qed.

End JsFacts.

Import JsFacts.

(* ====================================================================== *)
(** * The bound on repetitions is never reached *)
(* ====================================================================== *)

(** [y] is a state of the same input as [x], at the same position or
    further. *)
Definition reaches (x y : mstate) : Prop :=
  List.length (after y) <= List.length (after x)
  /\ List.length (before y) + List.length (after y)
     = List.length (before x) + List.length (after x).

Lemma reaches_refl (x : mstate) : reaches x x.
Proof. split; lia. Qed.

Lemma reaches_trans (x y z : mstate) : reaches x y -> reaches y z -> reaches x z.
Proof. unfold reaches. intros [? ?] [? ?]. split; lia. Qed.

(** A matcher is local when it calls its continuation on states that it
    reaches only. *)
Definition local (mr : mstate -> continuation -> option mstate) : Prop :=
  forall x k k',
    (forall y, reaches x y -> k y = k' y) -> mr x k = mr x k'.

Lemma charMatcher_local (p : cu -> bool) : local (charMatcher p).
Proof.
  intros x k k' H. unfold charMatcher.
  destruct (after x) as [|c rest] eqn:E; [reflexivity|].
  destruct (p c); [|reflexivity]. apply H.
  unfold reaches. cbn [before after List.length]. rewrite E.
  cbn [List.length]. split; lia.
Qed.

Lemma reaches_clearCaptures (gs : list nat) (x y : mstate) :
  reaches (clearCaptures gs x) y <-> reaches x y.
Proof. reflexivity. Qed.

Lemma repeatMatcher_local (mr : mstate -> continuation -> option mstate)
    (gs : list nat) (greedy : bool) :
  local mr ->
  forall fuel min max, local (repeatMatcher mr gs fuel min max greedy).
Proof.
  intros Hmr. induction fuel as [|fuel IH]; intros min max x k k' H;
    [reflexivity|].
  cbn [repeatMatcher].
  assert (Hd : mr (clearCaptures gs x)
                 (fun y =>
                    if Nat.eqb min 0 && Nat.eqb (endIndex y) (endIndex x)
                    then None
                    else repeatMatcher mr gs fuel (pred min) (predMax max)
                           greedy y k)
               = mr (clearCaptures gs x)
                   (fun y =>
                      if Nat.eqb min 0 && Nat.eqb (endIndex y) (endIndex x)
                      then None
                      else repeatMatcher mr gs fuel (pred min) (predMax max)
                             greedy y k')).
  { apply Hmr. intros y Hy.
    destruct (Nat.eqb min 0 && Nat.eqb (endIndex y) (endIndex x));
      [reflexivity|].
    apply IH. intros z Hz. apply H.
    apply reaches_trans with (y := y); [exact Hy | exact Hz]. }
  rewrite Hd, (H x (reaches_refl x)).
  destruct max as [[|m]|]; reflexivity.
Qed.

Lemma matcher_local (fl : flags) (r : re) : local (matcher fl r).
Proof.
  induction r as [ | c | | negated items | r1 IH1 r2 IH2 | r1 IH1 r2 IH2
                 | min max greedy r IH | | | | r IH | n r IH ];
    intros x k k' H; cbn [matcher].
  - apply H, reaches_refl.
  - now apply charMatcher_local.
  - now apply charMatcher_local.
  - now apply charMatcher_local.
  - apply IH1. intros y Hy. apply IH2. intros z Hz. apply H.
    now apply reaches_trans with (y := y).
  - rewrite (IH1 x k k' H), (IH2 x k k' H). reflexivity.
  - now apply repeatMatcher_local.
  - rewrite (H x (reaches_refl x)). reflexivity.
  - rewrite (H x (reaches_refl x)). reflexivity.
  - rewrite (H x (reaches_refl x)). reflexivity.
  - rewrite (H x (reaches_refl x)). reflexivity.
  - apply IH. intros y Hy. apply H. exact Hy.
Qed.

(** Two supplies of fuel above the bound give the same answer. *)
Lemma repeatMatcher_fuel (mr : mstate -> continuation -> option mstate)
    (gs : list nat) (greedy : bool) (k : continuation) :
  local mr ->
  forall fuel fuel' min max x,
    min + List.length (after x) < fuel ->
    min + List.length (after x) < fuel' ->
    repeatMatcher mr gs fuel min max greedy x k
    = repeatMatcher mr gs fuel' min max greedy x k.
Proof.
  intros Hmr. induction fuel as [|fuel IH]; intros fuel' min max x Hf Hf';
    [lia|].
  destruct fuel' as [|fuel']; [lia|]. cbn [repeatMatcher].
  assert (Hd : mr (clearCaptures gs x)
                 (fun y =>
                    if Nat.eqb min 0 && Nat.eqb (endIndex y) (endIndex x)
                    then None
                    else repeatMatcher mr gs fuel (pred min) (predMax max)
                           greedy y k)
               = mr (clearCaptures gs x)
                   (fun y =>
                      if Nat.eqb min 0 && Nat.eqb (endIndex y) (endIndex x)
                      then None
                      else repeatMatcher mr gs fuel' (pred min) (predMax max)
                             greedy y k)).
  { apply Hmr. intros y [Hy1 Hy2]. cbn [clearCaptures before after] in Hy1, Hy2.
    destruct (Nat.eqb min 0) eqn:Emin; cbn [andb].
    - apply Nat.eqb_eq in Emin. subst min.
      destruct (Nat.eqb (endIndex y) (endIndex x)) eqn:Eend; [reflexivity|].
      apply Nat.eqb_neq in Eend. unfold endIndex in Eend.
      apply IH; cbn [pred]; lia.
    - apply Nat.eqb_neq in Emin. apply IH; lia. }
  rewrite Hd. reflexivity.
Qed.

(** The bound that [matcher] gives to a quantifier is enough: more fuel
    would give the same answer. *)
Lemma quantifier_bound_enough (fl : flags) (r : re) (min : nat)
    (max : option nat) (greedy : bool) (x : mstate) (k : continuation)
    (more : nat) :
  matcher fl (Rep min max greedy r) x k
  = repeatMatcher (matcher fl r) (groups r)
      (S (min + List.length (after x)) + more) min max greedy x k.
Proof.
  cbn [matcher]. apply repeatMatcher_fuel; [apply matcher_local | lia | lia].
Qed.

(* ====================================================================== *)
(** * Reasoning about the loops *)
(* ====================================================================== *)

(** ** Computations that return a value whatever the store *)

Section Returns.

Variable writes : jsstring -> Prop.

(** [returns c a]: from every store, [c] ends normally with the value [a]
    and leaves the store as it was outside the keys in [writes]. *)
Definition returns (A : Type) (c : M A) (a : A) : Prop :=
  forall s, exists s',
    c s = (Ok a, s') /\ forall k, ~ writes k -> s' k = s k.

Lemma returns_ret (A : Type) (a : A) : returns (ret a) a.
Proof. intros s. exists s. split; [reflexivity | auto]. Qed.

Lemma returns_bind (A B : Type) (c : M A) (f : A -> M B) (a : A) (b : B) :
  returns c a -> returns (f a) b -> returns (bind c f) b.
Proof.
  intros Hc Hf s. destruct (Hc s) as (s1 & E1 & F1).
  destruct (Hf s1) as (s2 & E2 & F2).
  exists s2. unfold bind. rewrite E1. split; [exact E2|].
  intros k Hk. rewrite (F2 k Hk). apply F1, Hk.
Qed.

Lemma returns_forOf (A B : Type) (body : A -> list B -> M (list B))
    (g : A -> list B) (xs : list A) :
  (forall x acc, In x xs -> returns (body x acc) (acc ++ g x)) ->
  forall acc, returns (forOf body xs acc) (acc ++ flat_map g xs).
Proof.
  induction xs as [|x xs IH]; intros Hbody acc; simpl.
  - rewrite app_nil_r. apply returns_ret.
  - eapply returns_bind.
    + apply Hbody. now left.
    + rewrite app_assoc. apply IH. intros y acc' Hy. apply Hbody. now right.
Qed.

End Returns.

Lemma returns_weaken (W W' : jsstring -> Prop) (A : Type) (c : M A) (a : A) :
  (forall k, W k -> W' k) -> returns W c a -> returns W' c a.
Proof.
  intros HW Hc s. destruct (Hc s) as (s' & E & F).
  exists s'. split; [exact E|]. intros k Hk. apply F. intros Wk. apply Hk, HW, Wk.
Qed.

Lemma returns_unique (W W' : jsstring -> Prop) (A : Type) (c : M A) (a b : A) :
  returns W c a -> returns W' c b -> a = b.
Proof.
  intros Ha Hb. destruct (Ha (fun _ => 0)) as (s1 & E1 & _).
  destruct (Hb (fun _ => 0)) as (s2 & E2 & _). congruence.
Qed.

(** ** The lines a rule reports, as a function *)

(** [g i x ++ g (i+1) x' ++ ...] *)
Fixpoint flatMapIndex (A B : Type) (g : nat -> A -> list B) (i : nat)
    (xs : list A) : list B :=
  match xs with
  | [] => []
  | x :: rest => g i x ++ flatMapIndex g (S i) rest
  end.

Lemma returns_forIndex (W : jsstring -> Prop) (A B : Type)
    (body : nat -> A -> list B -> M (list B)) (g : nat -> A -> list B)
    (xs : list A) :
  (forall i x acc, returns W (body i x acc) (acc ++ g i x)) ->
  forall i acc,
    returns W (forIndex body i xs acc) (acc ++ flatMapIndex g i xs).
Proof.
  intros Hbody. induction xs as [|x xs IH]; intros i acc; simpl.
  - rewrite app_nil_r. apply returns_ret.
  - eapply returns_bind; [apply Hbody|]. rewrite app_assoc. apply IH.
Qed.

Lemma flatMapIndex_app (A B : Type) (g : nat -> A -> list B) (xs ys : list A)
    (i : nat) :
  flatMapIndex g i (xs ++ ys)
  = flatMapIndex g i xs ++ flatMapIndex g (i + List.length xs) ys.
Proof.
  revert i; induction xs as [|x xs IH]; intros i; simpl.
  - now rewrite Nat.add_0_r.
  - rewrite IH, <- app_assoc.
    now replace (S i + List.length xs) with (i + S (List.length xs)) by lia.
Qed.

Lemma in_flatMapIndex (A B : Type) (g : nat -> A -> list B) (xs : list A)
    (i : nat) (b : B) :
  In b (flatMapIndex g i xs) <->
  exists j x, nth_error xs j = Some x /\ In b (g (i + j) x).
Proof.
  revert i; induction xs as [|x xs IH]; intros i; simpl.
  - split; [tauto|]. intros ([|j] & y & E & _); discriminate.
  - rewrite in_app_iff, IH. split.
    + intros [H|(j & y & E & H)].
      * exists 0, x. rewrite Nat.add_0_r. auto.
      * exists (S j), y. split; [exact E|]. now replace (i + S j) with (S i + j) by lia.
    + intros ([|j] & y & E & H); simpl in E.
      * injection E as <-. rewrite Nat.add_0_r in H. now left.
      * right. exists j, y. split; [exact E|].
        now replace (S i + j) with (i + S j) by lia.
Qed.

(** Whether a line rule reports a line: the line is no comment, the pattern,
    tried from index 0, matches, and the context filter, if any, keeps the
    line. *)
Definition patternHit (rule : Rule.t) (line : jsstring) : bool :=
  match Rule.pattern rule with
  | Some R => fst (test R 0 line)
  | None => false
  end.

Definition kept (filepath : jsstring) (rule : Rule.t) (line : jsstring) : bool :=
  match Rule.contextFilter rule with
  | Some keep => keep line filepath
  | None => true
  end.

Definition lineHit (filepath : jsstring) (rule : Rule.t) (line : jsstring)
  : bool :=
  negb (testLiteral commentLeader line) && patternHit rule line
  && kept filepath rule line.

Definition lineFinding (rule : Rule.t) (i : nat) : Issue.t :=
  Issue.mk (Rule.id rule) (Rule.name rule) (Rule.severity rule)
    (Z.of_nat i + 1)%Z (Rule.message rule) (Rule.suggestion rule).

Definition lineFindings (filepath : jsstring) (rule : Rule.t) (i : nat)
    (line : jsstring) : list Issue.t :=
  if lineHit filepath rule line then [lineFinding rule i] else [].

Definition blockFinding (rule : Rule.t) (issue : BlockIssue.t) : Issue.t :=
  Issue.mk (Rule.id rule) (Rule.name rule) (Rule.severity rule)
    (BlockIssue.line issue) (Some (BlockIssue.message issue))
    (Some (BlockIssue.suggestion issue)).

(** Whether the loop over the rules gets past its two [continue]s. *)
Definition applicable (lang : lookup jsstring) (minSev : lookup Z)
    (rule : Rule.t) : bool :=
  negb (lessThan (get SEVERITY (Rule.severity rule)) minSev)
  && (includes (Rule.languages rule) (str "*")
      || includesValue (Rule.languages rule) lang).

Definition ruleFindings (filepath : jsstring) (lang : lookup jsstring)
    (lines : list jsstring) (minSev : lookup Z) (rule : Rule.t)
  : list Issue.t :=
  if applicable lang minSev rule then
    if truthyFlag (Rule.isBlockRule rule) then
      match Rule.check rule with
      | Some check => List.map (blockFinding rule) (check lines)
      | None => []
      end
    else flatMapIndex (lineFindings filepath rule) 0 lines
  else [].

Definition floorOf (minSeverity : option jsstring) : lookup Z :=
  orZero (get SEVERITY (orDefault minSeverity (str "warning"))).

Definition fileFindings (filepath content : jsstring)
    (minSeverity : option jsstring) : list Issue.t :=
  flat_map
    (ruleFindings filepath (detectLanguage filepath) (split 10%N content)
       (floorOf minSeverity))
    rules.

(** A rule has what the branch it takes reads: a block rule its [check], a
    line rule its [pattern]. *)
Definition wellFormed (rule : Rule.t) : bool :=
  if truthyFlag (Rule.isBlockRule rule)
  then isSome (Rule.check rule)
  else isSome (Rule.pattern rule).

Definition isLineRule (rule : Rule.t) : bool :=
  negb (truthyFlag (Rule.isBlockRule rule)).

(** The keys of the store that [analyzeFile] may write. *)
Definition lineRuleKey (k : jsstring) : Prop :=
  exists rule, In rule rules /\ isLineRule rule = true /\ k = Rule.id rule.

Lemma pushBlockIssues_map (rule : Rule.t) (bl : list BlockIssue.t)
    (issues : list Issue.t) :
  pushBlockIssues rule bl issues = issues ++ List.map (blockFinding rule) bl.
Proof.
  unfold pushBlockIssues. revert issues.
  induction bl as [|b bl IH]; intros issues; simpl.
  - now rewrite app_nil_r.
  - rewrite IH, <- app_assoc. reflexivity.
Qed.

Lemma lineStep_returns (filepath : jsstring) (rule : Rule.t) (R : regexp)
    (i : nat) (line : jsstring) (issues : list Issue.t) :
  Rule.pattern rule = Some R ->
  returns (eq (Rule.id rule)) (lineStep filepath rule i line issues)
    (issues ++ lineFindings filepath rule i line).
Proof.
  intros HR s. unfold lineStep, lineFindings, lineHit, patternHit, kept.
  rewrite HR.
  destruct (testLiteral commentLeader line); simpl.
  - exists s. rewrite app_nil_r. split; [reflexivity | auto].
  - unfold bind, setLastIndex, patternTest.
    assert (E0 : update s (Rule.id rule) 0 (Rule.id rule) = 0)
      by (unfold update; now rewrite JsFacts.eqb_refl).
    rewrite E0. destruct (test R 0 line) as [hit li]. simpl.
    assert (F : forall n k, Rule.id rule <> k ->
                update (update s (Rule.id rule) 0) (Rule.id rule) n k = s k).
    { intros n k Hk. unfold update.
      destruct (JsFacts.eqb_spec k (Rule.id rule)); congruence. }
    destruct hit; simpl.
    + destruct (Rule.contextFilter rule) as [keep|]; simpl.
      * destruct (keep line filepath); simpl; eexists; unfold ret;
          (split; [try rewrite app_nil_r; reflexivity | apply F]).
      * eexists; unfold ret; split; [reflexivity | apply F].
    + eexists; unfold ret; rewrite app_nil_r; split; [reflexivity | apply F].
Qed.

Lemma ruleStep_returns (filepath : jsstring) (lang : lookup jsstring)
    (lines : list jsstring) (minSev : lookup Z) (rule : Rule.t)
    (issues : list Issue.t) :
  In rule rules -> wellFormed rule = true ->
  returns lineRuleKey (ruleStep filepath lang lines minSev rule issues)
    (issues ++ ruleFindings filepath lang lines minSev rule).
Proof.
  intros Hin Hwf. unfold ruleStep, ruleFindings, applicable.
  destruct (lessThan _ minSev); simpl.
  { rewrite app_nil_r. apply returns_ret. }
  destruct (includes (Rule.languages rule) (str "*")); simpl.
  2: destruct (includesValue (Rule.languages rule) lang); simpl.
  3: { rewrite app_nil_r. apply returns_ret. }
  all: unfold wellFormed in Hwf;
    destruct (truthyFlag (Rule.isBlockRule rule)) eqn:Hb.
  all: try (destruct (Rule.check rule) as [check|]; [|discriminate];
            rewrite pushBlockIssues_map; apply returns_ret).
  all: destruct (Rule.pattern rule) as [R|] eqn:HR; [|discriminate];
    apply returns_weaken with (W := eq (Rule.id rule));
    [ intros k <-; exists rule; unfold isLineRule; rewrite Hb; auto
    | apply returns_forIndex; intros; now apply lineStep_returns with (R := R) ].
Qed.

Lemma rules_wellFormed : forallb wellFormed rules = true.
Proof. vm_compute. reflexivity. Qed.

(** The loop of [analyzeFile] computes [fileFindings]. *)
Lemma analyzeFile_returns (filepath content : jsstring)
    (minSeverity : option jsstring) :
  returns lineRuleKey (analyzeFile filepath content minSeverity)
    (fileFindings filepath content minSeverity).
Proof.
  unfold analyzeFile, fileFindings.
  change (flat_map ?g rules) with ([] ++ flat_map g rules).
  apply returns_forOf. intros rule acc Hin.
  apply ruleStep_returns; [exact Hin|].
  pose proof rules_wellFormed as H. rewrite forallb_forall in H. now apply H.
Qed.

(* ====================================================================== *)
(** * Facts about the rule table *)
(* ====================================================================== *)

Fixpoint distinct (l : list jsstring) : bool :=
  match l with
  | [] => true
  | x :: rest => negb (includes rest x) && distinct rest
  end.

Lemma distinct_NoDup (l : list jsstring) : distinct l = true -> NoDup l.
Proof.
  induction l as [|x l IH]; simpl; intros H; constructor.
  - apply andb_prop in H as [H _]. rewrite <- includes_In.
    now destruct (includes l x).
  - apply IH. now apply andb_prop in H as [_ H].
Qed.

(** The ids of the table are pairwise different: the id of a rule names its
    pattern object without ambiguity. *)
Lemma rules_ids_unique : NoDup (List.map Rule.id rules).
Proof. apply distinct_NoDup. vm_compute. reflexivity. Qed.

Lemma same_id_same_rule (r1 r2 : Rule.t) :
  In r1 rules -> In r2 rules -> Rule.id r1 = Rule.id r2 -> r1 = r2.
Proof.
  pose proof rules_ids_unique as ND. revert ND.
  induction rules as [|r rs IH]; simpl; [tauto|].
  intros ND. inversion ND as [|? ? Hnotin ND']; subst.
  intros [<-|H1] [<-|H2] E; auto.
  - exfalso. apply Hnotin. rewrite E. now apply in_map.
  - exfalso. apply Hnotin. rewrite <- E. now apply in_map.
Qed.

(** Every rule of the table is either a line rule with a pattern or the
    block rule whose checker is [GEN002_check]. *)
Definition tableRule (rule : Rule.t) : Prop :=
  (isLineRule rule = true /\ exists R, Rule.pattern rule = Some R)
  \/ (isLineRule rule = false /\ Rule.check rule = Some GEN002_check).

Lemma rules_tableRule : Forall tableRule rules.
Proof.
  unfold rules.
  repeat (constructor;
          [ first [ left; split; [reflexivity | eexists; reflexivity]
                  | right; split; reflexivity ] | ]).
  constructor.
Qed.

(** No pattern of the table matches the empty line. *)
Lemma rules_miss_empty_line :
  forallb (fun rule => negb (patternHit rule [])) rules = true.
Proof. vm_compute. reflexivity. Qed.

(** The severity of every rule is one of the three levels. *)
Lemma rules_severity_known :
  forallb (fun rule => isSome (assoc SEVERITY (Rule.severity rule))) rules
  = true.
Proof. vm_compute. reflexivity. Qed.

(* ====================================================================== *)
(** * The long-function checker *)
(* ====================================================================== *)

Lemma StronglySorted_snoc (A : Type) (R : A -> A -> Prop) (l : list A) (a : A) :
  StronglySorted R l -> Forall (fun x => R x a) l ->
  StronglySorted R (l ++ [a]).
Proof.
  induction 1 as [|x l Hl IH Hx]; intros Ha; simpl.
  - repeat constructor.
  - inversion Ha; subst. constructor; [now apply IH|].
    apply Forall_app. split; [assumption | now constructor].
Qed.

Definition issueLines (st : checkState) : list Z :=
  List.map BlockIssue.line (issues st).

(** What holds of the variables of [check] when the lines before index [i]
    have been read. *)
Record checkInv (i : Z) (st : checkState) : Prop := mkCheckInv {
  inv_start : funcStart st = (-1)%Z \/ (0 <= funcStart st < i)%Z;
  inv_open :
    funcStart st <> (-1)%Z -> (braceDepth st <= 0)%Z ->
    funcStart st = (i - 1)%Z;
  inv_sorted : StronglySorted Z.lt (issueLines st);
  inv_range : Forall (fun n => 1 <= n <= i)%Z (issueLines st);
  inv_below :
    funcStart st <> (-1)%Z ->
    Forall (fun n => n <= funcStart st)%Z (issueLines st)
}.

(** What holds between the two statements of the loop body. *)
Record headerInv (i : Z) (st : checkState) : Prop := mkHeaderInv {
  hinv_start : funcStart st = (-1)%Z \/ (0 <= funcStart st <= i)%Z;
  hinv_sorted : StronglySorted Z.lt (issueLines st);
  hinv_range : Forall (fun n => 1 <= n <= i)%Z (issueLines st);
  hinv_below :
    funcStart st <> (-1)%Z ->
    Forall (fun n => n <= funcStart st)%Z (issueLines st)
}.

Lemma noteHeader_inv (i : Z) (line : jsstring) (st : checkState) :
  (0 <= i)%Z -> checkInv i st -> headerInv i (noteHeader i line st).
Proof.
  intros Hi [Hstart Hopen Hsorted Hrange Hbelow].
  assert (Hkeep : headerInv i st).
  { constructor; try assumption. destruct Hstart; [now left | right; lia]. }
  unfold noteHeader.
  destruct (matchFirst functionHeader line) as [m|]; [|exact Hkeep].
  destruct (funcStart st =? -1)%Z; [|exact Hkeep].
  constructor; cbn [funcStart issues issueLines]; fold (issueLines st);
    try assumption.
  - right; lia.
  - intros _. eapply Forall_impl; [|exact Hrange]. simpl. intros; lia.
Qed.

Lemma trackBraces_inv (i : Z) (line : jsstring) (st : checkState) :
  headerInv i st -> checkInv (i + 1) (trackBraces i line st).
Proof.
  intros [Hstart Hsorted Hrange Hbelow].
  assert (Hrange' : Forall (fun n => 1 <= n <= i + 1)%Z (issueLines st)).
  { eapply Forall_impl; [|exact Hrange]. simpl. intros; lia. }
  unfold trackBraces.
  destruct (funcStart st =? -1)%Z eqn:Efs; cbn [negb].
  { apply Z.eqb_eq in Efs.
    constructor; try assumption; try (now left); intros; congruence. }
  apply Z.eqb_neq in Efs.
  destruct Hstart as [?|Hfs]; [contradiction|].
  match goal with
  | |- context [((?d <=? 0)%Z && _)] => set (depth := d)
  end.
  destruct ((depth <=? 0)%Z && (funcStart st <? i)%Z) eqn:Eclose.
  - apply andb_prop in Eclose as [_ Elt]. apply Z.ltb_lt in Elt.
    destruct (50 <? i - funcStart st)%Z.
    + constructor; unfold issueLines; cbn [funcStart braceDepth issues];
        try (now left); try (intros; congruence).
      * rewrite map_app. cbn [List.map BlockIssue.line].
        apply StronglySorted_snoc; [exact Hsorted|].
        eapply Forall_impl; [|exact (Hbelow Efs)]. simpl. intros; lia.
      * rewrite map_app. apply Forall_app.
        split; [exact Hrange'|]. constructor; [|constructor].
        cbn [BlockIssue.line]. lia.
    + constructor; cbn [funcStart braceDepth issues issueLines];
        fold (issueLines st); try (now left); try (intros; congruence);
        assumption.
  - constructor; cbn [funcStart braceDepth issues issueLines];
      fold (issueLines st); try assumption.
    + right; lia.
    + intros _ Hd. apply andb_false_iff in Eclose as [E|E].
      * apply Z.leb_gt in E. lia.
      * apply Z.ltb_ge in E. lia.
Qed.

Lemma checkStep_inv (i : Z) (line : jsstring) (st : checkState) :
  (0 <= i)%Z -> checkInv i st -> checkInv (i + 1) (checkStep i line st).
Proof.
  intros Hi H. apply trackBraces_inv. now apply noteHeader_inv.
Qed.

Lemma checkLoop_inv (lines : list jsstring) (i : Z) (st : checkState) :
  (0 <= i)%Z -> checkInv i st ->
  checkInv (i + Z.of_nat (List.length lines)) (checkLoop i lines st).
Proof.
  revert i st. induction lines as [|line rest IH]; intros i st Hi H.
  - simpl. now rewrite Z.add_0_r.
  - cbn [checkLoop List.length].
    replace (i + Z.of_nat (S (List.length rest)))%Z
      with ((i + 1) + Z.of_nat (List.length rest))%Z by lia.
    apply IH; [lia|]. now apply checkStep_inv.
Qed.

Definition checkStart : checkState := mkCheck [] (-1)%Z 0%Z (Some []).

Lemma checkStart_inv : checkInv 0 checkStart.
Proof.
  constructor; cbn; try (now left); try constructor; intros; congruence.
Qed.

Lemma checkLoop_app (xs ys : list jsstring) (i : Z) (st : checkState) :
  checkLoop i (xs ++ ys) st
  = checkLoop (i + Z.of_nat (List.length xs)) ys (checkLoop i xs st).
Proof.
  revert i st. induction xs as [|x xs IH]; intros i st.
  - simpl. now rewrite Z.add_0_r.
  - cbn [app checkLoop List.length]. rewrite IH. f_equal. lia.
Qed.

(** The reported lines go up, and are line numbers of the file. *)
Lemma GEN002_check_sorted (lines : list jsstring) :
  StronglySorted Z.lt (List.map BlockIssue.line (GEN002_check lines))
  /\ Forall (fun n => 1 <= n <= Z.of_nat (List.length lines))%Z
       (List.map BlockIssue.line (GEN002_check lines)).
Proof.
  destruct (@checkLoop_inv lines 0%Z checkStart (Z.le_refl 0) checkStart_inv)
    as [_ _ Hs Hr _].
  split; [exact Hs | exact Hr].
Qed.

(** An empty line after the last one changes nothing to the report: if a
    function is still open there with no brace pending, it opened on the
    last line and is one line long. *)
Lemma GEN002_check_trailing_empty (lines : list jsstring) :
  GEN002_check (lines ++ [[]]) = GEN002_check lines.
Proof.
  unfold GEN002_check. fold checkStart. rewrite checkLoop_app.
  pose proof (@checkLoop_inv lines 0%Z checkStart (Z.le_refl 0) checkStart_inv)
    as [Hstart Hopen _ _ _].
  set (st := checkLoop 0 lines checkStart) in *.
  set (n := (0 + Z.of_nat (List.length lines))%Z) in *.
  cbn [checkLoop]. unfold checkStep.
  assert (Hh : noteHeader n [] st = st) by reflexivity.
  rewrite Hh. unfold trackBraces.
  destruct (funcStart st =? -1)%Z eqn:Efs; cbn [negb]; [reflexivity|].
  apply Z.eqb_neq in Efs.
  assert (E0 : countMatches openBrace [] = 0%Z) by reflexivity.
  assert (E1 : countMatches closeBrace [] = 0%Z) by reflexivity.
  rewrite E0, E1.
  replace (braceDepth st + 0 - 0)%Z with (braceDepth st) by lia.
  destruct ((braceDepth st <=? 0)%Z && (funcStart st <? n)%Z) eqn:Eclose;
    [|reflexivity].
  apply andb_prop in Eclose as [Ed _]. apply Z.leb_le in Ed.
  rewrite (Hopen Efs Ed).
  replace (50 <? n - (n - 1))%Z with false; [reflexivity|].
  symmetry. apply Z.ltb_ge. lia.
Qed.

(* ====================================================================== *)
(** * Lines and comments *)
(* ====================================================================== *)

Lemma split_nonempty (sep : cu) (s : jsstring) : split sep s <> [].
Proof.
  destruct s as [|c s]; simpl; [discriminate|].
  destruct (N.eqb c sep); [discriminate|].
  destruct (split sep s); discriminate.
Qed.

(** A final separator adds one empty piece. *)
Lemma split_trailing_separator (sep : cu) (s : jsstring) :
  split sep (s ++ [sep]) = split sep s ++ [[]].
Proof.
  induction s as [|c s IH]; simpl.
  - now rewrite N.eqb_refl.
  - destruct (N.eqb c sep); rewrite IH; [reflexivity|].
    pose proof (split_nonempty sep s) as Hne.
    destruct (split sep s); [contradiction | reflexivity].
Qed.

(** The comment leaders, and the lines that begin with one after optional
    white space. *)
Definition commentLeaders : list jsstring :=
  List.map str ["//"; "#"; "/*"; "*"; "--"; ";"].

Definition commentLine (line : jsstring) : Prop :=
  exists blank leader rest,
    line = blank ++ leader ++ rest
    /\ Forall (fun c => isWhiteSpace c = true) blank
    /\ In leader commentLeaders.

Lemma scan_here (R : regexp) (pre suf : list cu) (y : mstate) :
  matcher (reFlags R) (source R) (mkState pre suf []) (fun y => Some y) = Some y ->
  scan R pre suf = Some y.
Proof. intros H. destruct suf; simpl; now rewrite H. Qed.

(** [\s*] may consume a whole run of white space. *)
Lemma star_ws_consumes (fl : flags) (k : continuation) (blank : list cu) :
  Forall (fun c => isWhiteSpace c = true) blank ->
  forall pre tail fuel,
    List.length blank < fuel ->
    (exists y, k (mkState (rev blank ++ pre) tail []) = Some y) ->
    exists y,
      repeatMatcher (matcher fl ws) [] fuel 0 None true
        (mkState pre (blank ++ tail) []) k = Some y.
Proof.
  intros Hblank. remember (matcher fl ws) as mr eqn:Emr.
  assert (Hmr : forall x k',
             mr x k' = charMatcher (classMatches fl false [CSpace]) x k')
    by (subst mr; reflexivity).
  clear Emr.
  induction Hblank as [|c blank Hc Hblank IH]; intros pre tail fuel Hfuel Hk;
    (destruct fuel as [|fuel]; [simpl in Hfuel; lia|]).
  - simpl in Hk. cbn [repeatMatcher Nat.eqb negb].
    unfold clearCaptures. cbn [before after captures filter app].
    destruct (mr _ _) as [z|]; [now exists z | exact Hk].
  - cbn [repeatMatcher Nat.eqb negb].
    unfold clearCaptures. cbn [before after captures filter app].
    rewrite Hmr. unfold charMatcher. cbn [after before captures].
    unfold classMatches. cbn [existsb itemMatches]. rewrite Hc.
    cbn [orb xorb andb]. unfold endIndex. cbn [before List.length].
    replace (Nat.eqb (S (List.length pre)) (List.length pre)) with false
      by (symmetry; apply Nat.eqb_neq; lia).
    cbn [pred predMax option_map].
    destruct (IH (c :: pre) tail fuel) as (y & Ey).
    + simpl in Hfuel. lia.
    + simpl in Hk. now rewrite <- app_assoc in Hk.
    + rewrite Ey. now exists y.
Qed.

Lemma testLiteral_scan (R : regexp) (S : jsstring) (y : mstate) :
  global (reFlags R) = false -> scan R [] S = Some y ->
  testLiteral R S = true.
Proof.
  intros Hg Hy. unfold testLiteral, test, exec. rewrite Hg.
  cbn [Nat.ltb Nat.leb firstn skipn rev]. now rewrite Hy.
Qed.

(** A line that begins with a comment leader, after optional white space,
    is one that the engine skips. *)
Lemma commentLine_test (line : jsstring) :
  commentLine line -> testLiteral commentLeader line = true.
Proof.
  intros (blank & leader & rest & -> & Hblank & Hleader).
  assert (H : exists y,
             matcher (reFlags commentLeader) (source commentLeader)
               (mkState [] (blank ++ leader ++ rest) []) (fun y => Some y)
             = Some y).
  { cbn [commentLeader reFlags source seqs matcher before after isNil orb
         star groups ws Nat.add].
    apply star_ws_consumes; [exact Hblank | rewrite length_app; lia |].
    unfold commentLeaders in Hleader. simpl in Hleader.
    destruct Hleader as [<-|[<-|[<-|[<-|[<-|[<-|[]]]]]]];
      cbn; eexists; reflexivity. }
  destruct H as (y & Hy).
  apply testLiteral_scan with (y := y); [reflexivity|].
  now apply scan_here.
Qed.

(* ====================================================================== *)
(** * Where a finding comes from *)
(* ====================================================================== *)

Lemma analyzeFile_result (filepath content : jsstring)
    (minSeverity : option jsstring) (s s' : store) (o : outcome (list Issue.t)) :
  analyzeFile filepath content minSeverity s = (o, s') ->
  o = Ok (fileFindings filepath content minSeverity).
Proof.
  intros H.
  destruct (analyzeFile_returns filepath content minSeverity s) as (s1 & E & _).
  congruence.
Qed.

(** A finding of the file was pushed for a rule of the table that passed
    the two filters of the loop, either for a line that the rule hits or
    for an issue that its checker reports. *)
Lemma fileFindings_origin (filepath content : jsstring)
    (minSeverity : option jsstring) (f : Issue.t) :
  In f (fileFindings filepath content minSeverity) ->
  exists rule,
    In rule rules
    /\ applicable (detectLanguage filepath) (floorOf minSeverity) rule = true
    /\ ((isLineRule rule = true
         /\ exists i line,
              nth_error (split 10%N content) i = Some line
              /\ lineHit filepath rule line = true
              /\ f = lineFinding rule i)
        \/ (isLineRule rule = false
            /\ exists check b,
                 Rule.check rule = Some check
                 /\ In b (check (split 10%N content))
                 /\ f = blockFinding rule b)).
Proof.
  unfold fileFindings. rewrite in_flat_map. intros (rule & Hin & Hf).
  exists rule. split; [exact Hin|]. unfold ruleFindings in Hf.
  destruct (applicable _ _ rule); [|contradiction]. split; [reflexivity|].
  unfold isLineRule. destruct (truthyFlag (Rule.isBlockRule rule)).
  - right. split; [reflexivity|].
    destruct (Rule.check rule) as [check|]; [|contradiction].
    apply in_map_iff in Hf as (b & <- & Hb). now exists check, b.
  - left. split; [reflexivity|].
    apply in_flatMapIndex in Hf as (i & line & Hline & Hf).
    unfold lineFindings in Hf. simpl in Hf.
    destruct (lineHit filepath rule line) eqn:Hhit; [|contradiction].
    destruct Hf as [<-|[]]. now exists i, line.
Qed.

Lemma finding_ids (filepath content : jsstring) (minSeverity : option jsstring)
    (f : Issue.t) :
  In f (fileFindings filepath content minSeverity) ->
  exists rule,
    In rule rules
    /\ applicable (detectLanguage filepath) (floorOf minSeverity) rule = true
    /\ Issue.ruleId f = Rule.id rule
    /\ Issue.severity f = Rule.severity rule.
Proof.
  intros H. apply fileFindings_origin in H as (rule & Hin & Happ & H).
  exists rule. repeat split; try assumption;
    destruct H as [(_ & i & line & _ & _ & ->)|(_ & check & b & _ & _ & ->)];
    reflexivity.
Qed.

Lemma get_assoc (A : Type) (props : list (jsstring * A)) (key : jsstring) (v : A) :
  assoc props key = Some v -> get props key = Own v.
Proof. intros H. unfold get. now rewrite H. Qed.

(* ====================================================================== *)
(** * Properties of analyzeFile *)
(* ====================================================================== *)

(** The three levels that the caller may ask for. *)
Definition levels : list jsstring := [str "info"; str "warning"; str "error"].

(** C1.  Every finding that [analyzeFile] returns, for a floor among
    'info', 'warning' and 'error', carries the id and the severity of a rule
    of the table whose severity is at least the floor in the order
    info < warning < error of the SEVERITY table, and whose language list
    holds the wildcard or the language detected from the path. *)
Theorem analyzeFile_findings_applicable
    (filepath content minSeverity : jsstring) (s s' : store)
    (issues : list Issue.t) (f : Issue.t) :
  In minSeverity levels ->
  analyzeFile filepath content (Some minSeverity) s = (Ok issues, s') ->
  In f issues ->
  exists rule floor level,
    In rule rules
    /\ Issue.ruleId f = Rule.id rule
    /\ Issue.severity f = Rule.severity rule
    /\ assoc SEVERITY minSeverity = Some floor
    /\ assoc SEVERITY (Rule.severity rule) = Some level
    /\ (floor <= level)%Z
    /\ (In (str "*") (Rule.languages rule)
        \/ exists lang,
             detectLanguage filepath = Own lang
             /\ In lang (Rule.languages rule)).
Proof.
  intros Hlevel Hrun Hf.
  apply analyzeFile_result in Hrun. injection Hrun as ->.
  apply finding_ids in Hf as (rule & Hin & Happ & Hid & Hsev).
  pose proof rules_severity_known as Hknown.
  rewrite forallb_forall in Hknown. specialize (Hknown rule Hin).
  destruct (assoc SEVERITY (Rule.severity rule)) as [level|] eqn:Elevel;
    [|discriminate].
  assert (Hfloor : exists floor,
             assoc SEVERITY minSeverity = Some floor
             /\ floorOf (Some minSeverity) = Own floor).
  { unfold levels in Hlevel. simpl in Hlevel.
    destruct Hlevel as [<-|[<-|[<-|[]]]];
      [exists 0%Z | exists 1%Z | exists 2%Z]; split; reflexivity. }
  destruct Hfloor as (floor & Efloor & Efl).
  exists rule, floor, level. repeat split; try assumption.
  - unfold applicable in Happ. apply andb_prop in Happ as [Hs _].
    rewrite Efl, (get_assoc _ _ Elevel) in Hs. simpl in Hs.
    apply negb_true_iff, Z.ltb_ge in Hs. exact Hs.
  - unfold applicable in Happ. apply andb_prop in Happ as [_ Hl].
    apply orb_prop in Hl as [Hl|Hl].
    + left. now apply includes_In.
    + right. unfold includesValue in Hl.
      destruct (detectLanguage filepath) as [lang| |]; try discriminate.
      exists lang. split; [reflexivity | now apply includes_In].
Qed.

Definition zeroStore : store := fun _ => 0.

(** The rule at a position of the table (SEC001 is at 0). *)
Definition ruleAt (n : nat) : Rule.t :=
  nth n rules (Rule.mk [] [] [] [] None None None None None None).

Lemma analyzeFile_findings_applicable_witness :
  exists rule floor level,
    In rule rules
    /\ str "SEC002" = Rule.id rule
    /\ str "error" = Rule.severity rule
    /\ assoc SEVERITY (str "error") = Some floor
    /\ assoc SEVERITY (Rule.severity rule) = Some level
    /\ (floor <= level)%Z
    /\ (In (str "*") (Rule.languages rule)
        \/ exists lang,
             detectLanguage (str "app.js") = Own lang
             /\ In lang (Rule.languages rule)).
Proof.
  set (s' := snd (analyzeFile (str "app.js") (str "const result = eval(x);")
                    (Some (str "error")) zeroStore)).
  set (f := lineFinding (ruleAt 1) 0).
  apply (@analyzeFile_findings_applicable (str "app.js")
           (str "const result = eval(x);") (str "error") zeroStore s' [f] f).
  - right; right; left; reflexivity.
  - vm_compute. reflexivity.
  - left; reflexivity.
Defined.

(** C2, as the code has it.  For every path, content and floor (given or
    omitted), [analyzeFile] ends without throwing, and the findings it
    returns are the same from every store: they depend on the three
    arguments only, whatever earlier calls left in the [lastIndex] of the
    patterns; and empty content gives no finding.  The call is not without
    effect, though: testing a pattern that bears the [g] flag writes its
    [lastIndex]. *)
Theorem analyzeFile_total_deterministic (filepath content : jsstring)
    (minSeverity : option jsstring) :
  exists issues,
    (forall s, exists s',
        analyzeFile filepath content minSeverity s = (Ok issues, s'))
    /\ (content = [] -> issues = []).
Proof.
  exists (fileFindings filepath content minSeverity). split.
  - intros s.
    destruct (analyzeFile_returns filepath content minSeverity s)
      as (s' & E & _).
    now exists s'.
  - intros ->. unfold fileFindings. cbn [split].
    pose proof rules_miss_empty_line as Hmiss.
    pose proof rules_tableRule as Htable.
    induction rules as [|rule rs IH]; [reflexivity|].
    cbn [flat_map forallb] in *. apply andb_prop in Hmiss as [Hrule Hrs].
    inversion Htable as [|? ? Hr Hrest]; subst.
    rewrite (IH Hrs Hrest), app_nil_r.
    unfold ruleFindings. destruct (applicable _ _ rule); [|reflexivity].
    destruct Hr as [(Hline & _)|(Hblock & Hcheck)]; unfold isLineRule in *.
    + apply negb_true_iff in Hline. rewrite Hline.
      cbn [flatMapIndex]. unfold lineFindings, lineHit.
      apply negb_true_iff in Hrule. rewrite Hrule.
      now rewrite andb_false_r.
    + apply negb_false_iff in Hblock. rewrite Hblock, Hcheck. reflexivity.
Qed.

Lemma analyzeFile_total_deterministic_witness :
  exists issues,
    (forall s, exists s',
        analyzeFile (str "app.py") [] None s = (Ok issues, s'))
    /\ issues = [].
Proof.
  destruct (@analyzeFile_total_deterministic (str "app.py") [] None)
    as (issues & Hrun & Hempty).
  exists issues. split; [exact Hrun | apply Hempty; reflexivity].
Defined.

(** C2, as stated, fails: the call leaves a trace.  After the analysis of
    [eval(x)] the pattern of SEC002 has its [lastIndex] at 5, where it was
    0 before the call. *)
Lemma analyzeFile_writes_lastIndex :
  let s' := snd (analyzeFile (str "a.js") (str "eval(x)") (Some (str "error"))
                   zeroStore) in
  zeroStore (str "SEC002") = 0 /\ s' (str "SEC002") = 5
  /\ ~ (forall filepath content minSeverity s,
          snd (analyzeFile filepath content minSeverity s) = s).
Proof.
  split; [reflexivity|]. split; [vm_compute; reflexivity|].
  intros H.
  specialize (H (str "a.js") (str "eval(x)") (Some (str "error")) zeroStore).
  apply (f_equal (fun s => s (str "SEC002"))) in H.
  vm_compute in H. discriminate.
Qed.

(** ** Order of the findings *)

Lemma Forall2_map_right (A B : Type) (P : A -> B -> Prop) (g : A -> B)
    (l : list A) :
  Forall (fun a => P a (g a)) l -> Forall2 P l (List.map g l).
Proof. induction 1; simpl; constructor; assumption. Qed.

Lemma lineFindings_sorted (filepath : jsstring) (rule : Rule.t)
    (lines : list jsstring) (i : nat) :
  StronglySorted Z.lt
    (List.map Issue.line (flatMapIndex (lineFindings filepath rule) i lines))
  /\ Forall (fun n => Z.of_nat i + 1 <= n)%Z
       (List.map Issue.line (flatMapIndex (lineFindings filepath rule) i lines)).
Proof.
  revert i. induction lines as [|line rest IH]; intros i; cbn [flatMapIndex].
  - split; constructor.
  - destruct (IH (S i)) as [Hs Hb]. unfold lineFindings at 1 3.
    destruct (lineHit filepath rule line); cbn [app List.map].
    + split.
      * constructor; [exact Hs|]. cbn [lineFinding Issue.line].
        eapply Forall_impl; [|exact Hb]. simpl. intros; lia.
      * constructor; [cbn [lineFinding Issue.line]; lia|].
        eapply Forall_impl; [|exact Hb]. simpl. intros; lia.
    + split; [exact Hs|]. eapply Forall_impl; [|exact Hb]. simpl. intros; lia.
Qed.

(** What the table order and the line order ask of the findings of one
    rule. *)
Definition orderedChunk (rule : Rule.t) (chunk : list Issue.t) : Prop :=
  Forall (fun f => Issue.ruleId f = Rule.id rule) chunk
  /\ StronglySorted Z.lt (List.map Issue.line chunk)
  /\ Forall (fun f => 1 <= Issue.line f)%Z chunk.

Lemma ruleFindings_ordered (filepath : jsstring) (lang : lookup jsstring)
    (lines : list jsstring) (minSev : lookup Z) (rule : Rule.t) :
  tableRule rule ->
  orderedChunk rule (ruleFindings filepath lang lines minSev rule).
Proof.
  intros Htable. unfold ruleFindings.
  destruct (applicable lang minSev rule);
    [|repeat split; constructor].
  destruct Htable as [(Hline & _)|(Hblock & Hcheck)]; unfold isLineRule in *.
  - apply negb_true_iff in Hline. rewrite Hline.
    destruct (lineFindings_sorted filepath rule lines 0) as [Hs Hb].
    repeat split; [| exact Hs |].
    + apply Forall_forall. intros f Hf.
      apply in_flatMapIndex in Hf as (j & line & _ & Hf).
      unfold lineFindings in Hf.
      destruct (lineHit filepath rule line); [|contradiction].
      destruct Hf as [<-|[]]. reflexivity.
    + rewrite Forall_map in Hb. eapply Forall_impl; [|exact Hb].
      simpl. intros; lia.
  - apply negb_false_iff in Hblock. rewrite Hblock, Hcheck.
    destruct (GEN002_check_sorted lines) as [Hs Hr].
    repeat split.
    + apply Forall_forall. intros f Hf.
      apply in_map_iff in Hf as (b & <- & _). reflexivity.
    + rewrite map_map. cbn [blockFinding Issue.line]. exact Hs.
    + rewrite Forall_map in Hr. rewrite Forall_map.
      eapply Forall_impl; [|exact Hr]. simpl. intros; lia.
Qed.

(** C4.  The list that [analyzeFile] returns is the concatenation, in the
    declaration order of the rule table, of one run of findings per rule
    (possibly empty); the findings of a run carry the id of its rule and
    their line numbers, which start at 1, go strictly up. *)
Theorem analyzeFile_order (filepath content : jsstring)
    (minSeverity : option jsstring) (s : store) :
  exists chunks s',
    analyzeFile filepath content minSeverity s = (Ok (List.concat chunks), s')
    /\ Forall2 orderedChunk rules chunks.
Proof.
  destruct (analyzeFile_returns filepath content minSeverity s) as (s' & E & _).
  exists (List.map (ruleFindings filepath (detectLanguage filepath)
                      (split 10%N content) (floorOf minSeverity)) rules), s'.
  split.
  - rewrite E. unfold fileFindings. now rewrite flat_map_concat_map.
  - apply Forall2_map_right.
    eapply Forall_impl; [|exact rules_tableRule].
    intros rule Hrule. now apply ruleFindings_ordered.
Qed.

(** ** Comment lines *)

(** C5.  When a line of the content begins, after optional white space,
    with one of the comment leaders, no finding on that line comes from a
    line rule: a rule of the table that bears the id of such a finding is a
    block rule.  The checker of a block rule that passes the two filters is
    run on all the lines of the content, comment lines included, and all
    that it reports is returned. *)
Theorem comment_lines_skipped (filepath content : jsstring)
    (minSeverity : option jsstring) (s s' : store) (issues : list Issue.t) :
  analyzeFile filepath content minSeverity s = (Ok issues, s') ->
  (forall i line f,
      nth_error (split 10%N content) i = Some line ->
      commentLine line ->
      In f issues ->
      Issue.line f = (Z.of_nat i + 1)%Z ->
      forall rule,
        In rule rules -> Rule.id rule = Issue.ruleId f ->
        isLineRule rule = false)
  /\ (forall rule check b,
        In rule rules ->
        isLineRule rule = false ->
        Rule.check rule = Some check ->
        applicable (detectLanguage filepath) (floorOf minSeverity) rule = true ->
        In b (check (split 10%N content)) ->
        In (blockFinding rule b) issues).
Proof.
  intros Hrun. apply analyzeFile_result in Hrun. injection Hrun as ->. split.
  - intros i line f Hline Hcomment Hf Hnum rule Hin Hid.
    apply fileFindings_origin in Hf as (rule' & Hin' & _ & Hf).
    destruct Hf as [(Hkind & j & line' & Hline' & Hhit & ->)
                   |(Hkind & check & b & _ & _ & ->)].
    + exfalso. cbn [lineFinding Issue.line] in Hnum.
      assert (j = i) by lia. subst j.
      rewrite Hline in Hline'. injection Hline' as <-.
      unfold lineHit in Hhit. rewrite (commentLine_test Hcomment) in Hhit.
      discriminate.
    + cbn [blockFinding Issue.ruleId] in Hid.
      now rewrite (same_id_same_rule Hin Hin' Hid).
  - intros rule check b Hin Hkind Hcheck Happ Hb.
    unfold fileFindings. apply in_flat_map. exists rule. split; [exact Hin|].
    unfold ruleFindings. rewrite Happ. unfold isLineRule in Hkind.
    apply negb_false_iff in Hkind. rewrite Hkind, Hcheck.
    now apply in_map.
Qed.

(** A line rule would hit the second line, were it no comment: with the
    leader the analysis is empty, without it SEC002 reports line 2. *)
Definition lf : string := String (ascii_of_nat 10) EmptyString.

Lemma comment_lines_skipped_witness :
  (forall rule,
      In rule rules -> Rule.id rule = str "GEN002" -> isLineRule rule = false)
  /\ fst (analyzeFile (str "app.js")
            (str ("let x = 1;" ++ lf ++ "  // eval(x)")%string)
            (Some (str "info")) zeroStore) = Ok []
  /\ fst (analyzeFile (str "app.js")
            (str ("let x = 1;" ++ lf ++ "  eval(x)")%string)
            (Some (str "info")) zeroStore)
     = Ok [lineFinding (ruleAt 1) 1].
Proof.
  split; [|split; vm_compute; reflexivity].
  (* GEN002 reports line 1 of a file whose first line is a comment that
     spells a function header and opens a brace closed 51 lines below *)
  set (content :=
         str "// function f {" ++ List.concat (repeat [10%N] 51) ++ str "}").
  set (run := analyzeFile (str "app.js") content (Some (str "info")) zeroStore).
  set (f := blockFinding (ruleAt 28)
              (BlockIssue.mk 1%Z
                 (infoSign ++ str " **Long Function**: `f` is 51 lines long. "
                  ++ str "Consider breaking it up.")
                 (str "Functions over 50 lines are harder to test and "
                  ++ str "maintain. Extract sub-functions."))).
  assert (Hrun : run = (Ok [f], snd run)) by (vm_compute; reflexivity).
  destruct (comment_lines_skipped _ _ _ _ Hrun) as [H _].
  intros rule Hin Hid.
  apply (H 0 (str "// function f {") f); try assumption.
  - vm_compute. reflexivity.
  - exists [], (str "//"), (str " function f {").
    split; [reflexivity|]. split; [constructor | left; reflexivity].
  - left; reflexivity.
  - reflexivity.
Defined.

(** ** A final line ending *)

Lemma ruleFindings_trailing_empty (filepath : jsstring)
    (lang : lookup jsstring) (lines : list jsstring) (minSev : lookup Z)
    (rule : Rule.t) :
  tableRule rule -> patternHit rule [] = false ->
  ruleFindings filepath lang (lines ++ [[]]) minSev rule
  = ruleFindings filepath lang lines minSev rule.
Proof.
  intros Htable Hmiss. unfold ruleFindings.
  destruct (applicable lang minSev rule); [|reflexivity].
  destruct Htable as [(Hline & _)|(Hblock & Hcheck)]; unfold isLineRule in *.
  - apply negb_true_iff in Hline. rewrite Hline.
    rewrite flatMapIndex_app. cbn [flatMapIndex].
    unfold lineFindings at 2. unfold lineHit.
    rewrite Hmiss, andb_false_r. cbn [andb]. now rewrite !app_nil_r.
  - apply negb_false_iff in Hblock. rewrite Hblock, Hcheck.
    now rewrite GEN002_check_trailing_empty.
Qed.

(** C8.  A line ending at the very end of the content changes nothing:
    [analyzeFile] returns for [content + '\n'] the list of findings, rule
    by rule and line by line, that it returns for [content]. *)
Theorem analyzeFile_trailing_newline (filepath content : jsstring)
    (minSeverity : option jsstring) (s : store) :
  fst (analyzeFile filepath (content ++ [10%N]) minSeverity s)
  = fst (analyzeFile filepath content minSeverity s).
Proof.
  destruct (analyzeFile_returns filepath (content ++ [10%N]) minSeverity s)
    as (s1 & E1 & _).
  destruct (analyzeFile_returns filepath content minSeverity s)
    as (s2 & E2 & _).
  rewrite E1, E2. cbn [fst]. f_equal.
  unfold fileFindings. rewrite split_trailing_separator.
  pose proof rules_miss_empty_line as Hmiss.
  pose proof rules_tableRule as Htable.
  induction rules as [|rule rs IH]; [reflexivity|].
  cbn [flat_map forallb] in *. apply andb_prop in Hmiss as [Hrule Hrs].
  inversion Htable as [|? ? Hr Hrest]; subst.
  rewrite (IH Hrs Hrest). f_equal.
  apply ruleFindings_trailing_empty; [exact Hr|].
  now apply negb_true_iff in Hrule.
Qed.

(** ** A floor that is no level *)

Lemma forOf_ext (A B : Type) (body1 body2 : A -> B -> M B) (xs : list A) :
  (forall x acc s, In x xs -> body1 x acc s = body2 x acc s) ->
  forall acc s, forOf body1 xs acc s = forOf body2 xs acc s.
Proof.
  induction xs as [|x xs IH]; intros Hbody acc s; [reflexivity|].
  cbn [forOf]. unfold bind. rewrite Hbody by now left.
  destruct (body2 x acc s) as [[acc'|e] s1]; [|reflexivity].
  apply IH. intros y acc2 s2 Hy. apply Hbody. now right.
Qed.

(** No rule of the table lies below the floor 0. *)
Lemma rules_not_below_zero :
  forallb
    (fun rule =>
       negb (lessThan (get SEVERITY (Rule.severity rule)) (Own 0%Z)))
    rules = true.
Proof. vm_compute. reflexivity. Qed.

Lemma floor_of_unknown_level (minSeverity : jsstring) :
  ~ In minSeverity levels ->
  (includes objectPrototypeKeys minSeverity = true
   /\ floorOf (Some minSeverity) = Inherited minSeverity)
  \/ (includes objectPrototypeKeys minSeverity = false
      /\ floorOf (Some minSeverity) = Own 0%Z).
Proof.
  intros Hnot. unfold floorOf, orDefault, get, SEVERITY. cbn [assoc].
  destruct (JsFacts.eqb_spec minSeverity (str "info")) as [->|_].
  { exfalso. apply Hnot. left; reflexivity. }
  destruct (JsFacts.eqb_spec minSeverity (str "warning")) as [->|_].
  { exfalso. apply Hnot. right; left; reflexivity. }
  destruct (JsFacts.eqb_spec minSeverity (str "error")) as [->|_].
  { exfalso. apply Hnot. right; right; left; reflexivity. }
  destruct (includes objectPrototypeKeys minSeverity); [left | right];
    split; reflexivity.
Qed.

(** A floor that is none of 'info', 'warning', 'error' changes nothing in
    what [analyzeFile] returns: it does not throw and does exactly what it
    does with the floor 'info', the severity test skipping no rule.  Where
    the string names no member that SEVERITY inherits from
    [Object.prototype], the floor is the number 0. *)
Theorem analyzeFile_unknown_floor (filepath content minSeverity : jsstring)
    (s : store) :
  ~ In minSeverity levels ->
  analyzeFile filepath content (Some minSeverity) s
  = analyzeFile filepath content (Some (str "info")) s
  /\ (exists issues s',
        analyzeFile filepath content (Some minSeverity) s = (Ok issues, s'))
  /\ (forall rule,
        In rule rules ->
        lessThan (get SEVERITY (Rule.severity rule))
          (floorOf (Some minSeverity)) = false)
  /\ (includes objectPrototypeKeys minSeverity = false ->
      floorOf (Some minSeverity) = Own 0%Z).
Proof.
  intros Hnot.
  assert (Hskip : forall rule,
             In rule rules ->
             lessThan (get SEVERITY (Rule.severity rule))
               (floorOf (Some minSeverity)) = false).
  { intros rule Hin.
    destruct (floor_of_unknown_level Hnot) as [(_ & ->)|(_ & ->)].
    - destruct (get SEVERITY (Rule.severity rule)); reflexivity.
    - pose proof rules_not_below_zero as H. rewrite forallb_forall in H.
      apply negb_true_iff. now apply H. }
  split; [|split; [|split]].
  - unfold analyzeFile. apply forOf_ext. intros rule acc s0 Hin.
    unfold ruleStep. fold (floorOf (Some minSeverity)).
    fold (floorOf (Some (str "info"))). rewrite (Hskip rule Hin).
    pose proof rules_not_below_zero as H. rewrite forallb_forall in H.
    specialize (H rule Hin). apply negb_true_iff in H.
    change (floorOf (Some (str "info"))) with (@Own Z 0%Z). now rewrite H.
  - destruct (analyzeFile_returns filepath content (Some minSeverity) s)
      as (s' & E & _). eauto.
  - exact Hskip.
  - intros Hown.
    destruct (floor_of_unknown_level Hnot) as [(E & _)|(_ & E)];
      [congruence | exact E].
Qed.

Lemma analyzeFile_unknown_floor_witness :
  analyzeFile (str "app.js") (str "console.log(1)") (Some (str "WARNING"))
    zeroStore
  = analyzeFile (str "app.js") (str "console.log(1)") (Some (str "info"))
      zeroStore
  /\ floorOf (Some (str "WARNING")) = Own 0%Z.
Proof.
  assert (Hnot : ~ In (str "WARNING") levels).
  { intros [H|[H|[H|[]]]]; discriminate H. }
  destruct (@analyzeFile_unknown_floor (str "app.js") (str "console.log(1)")
              (str "WARNING") zeroStore Hnot) as (E & _ & _ & H0).
  split; [exact E | apply H0; reflexivity].
Defined.


(** ** The N+1 rule works line by line *)

(** The loop of the demonstration file of the repository: the header on
    one line, the awaited query on the next. *)
Definition loopOverTwoLines : jsstring :=
  str ("for (const id of ids) {" ++ lf
       ++ "    const user = await db.find({ id });" ++ lf
       ++ "}")%string.

Definition loopOnOneLine : jsstring :=
  str "for (const id of ids) { const user = await db.find({ id }); }".

(** A PERF001 finding marks a line that holds the loop and the query by
    itself: the pattern is tried on one line at a time, so that its window
    of 100 characters ends with the line. *)
Lemma PERF001_hits_single_line (filepath content : jsstring)
    (minSeverity : option jsstring) (s s' : store) (issues : list Issue.t)
    (f : Issue.t) :
  analyzeFile filepath content minSeverity s = (Ok issues, s') ->
  In f issues -> Issue.ruleId f = str "PERF001" ->
  exists i line,
    nth_error (split 10%N content) i = Some line
    /\ Issue.line f = (Z.of_nat i + 1)%Z
    /\ patternHit (ruleAt 14) line = true.
Proof.
  intros Hrun Hf Hid.
  apply analyzeFile_result in Hrun. injection Hrun as ->.
  apply fileFindings_origin in Hf as (rule & Hin & _ & Hf).
  assert (Hat : In (ruleAt 14) rules) by (apply nth_In; vm_compute; lia).
  destruct Hf as [(_ & i & line & Hline & Hhit & ->)
                 |(Hk & check & b & _ & _ & ->)].
  - cbn [lineFinding Issue.ruleId] in Hid.
    assert (rule = ruleAt 14) as -> by (now apply same_id_same_rule).
    exists i, line. repeat split; [exact Hline|].
    unfold lineHit in Hhit. apply andb_prop in Hhit as [Hhit _].
    now apply andb_prop in Hhit as [_ Hhit].
  - cbn [blockFinding Issue.ruleId] in Hid.
    assert (rule = ruleAt 14) as -> by (now apply same_id_same_rule).
    exfalso. vm_compute in Hk. discriminate Hk.
Qed.

(** C7.  The loop of the demonstration file, with the awaited query a few
    characters after the opening brace but on the next line, gets no
    finding from PERF001 (nor from any other rule) at the floor 'warning',
    where the same text on one line gets the PERF001 finding: the window
    of the pattern does not reach into the following lines. *)
Theorem PERF001_misses_loop_over_two_lines :
  Rule.id (ruleAt 14) = str "PERF001"
  /\ fst (analyzeFile (str "app.js") loopOverTwoLines (Some (str "warning"))
            zeroStore) = Ok []
  /\ fst (analyzeFile (str "app.js") loopOnOneLine (Some (str "warning"))
            zeroStore) = Ok [lineFinding (ruleAt 14) 0].
Proof. repeat split; vm_compute; reflexivity. Qed.

(* ====================================================================== *)
(** * Properties of analyzeDiff *)
(* ====================================================================== *)

(** The units that get past the guard of the loop: those with a content
    and a path that are truthy, that is, present and not empty. *)
Definition analyzed (file : FileUnit.t) : bool :=
  match FileUnit.content file, FileUnit.filepath file with
  | Some content, Some filepath =>
      truthyString content && truthyString filepath
  | _, _ => false
  end.

(** The findings kept for a unit with the given changed lines. *)
Definition scoped (changedLines : option (list Z)) (issues : list Issue.t)
  : list Issue.t :=
  match changedLines with
  | Some (n :: changed) =>
      filter (fun i => setHas (n :: changed) (Issue.line i)) issues
  | _ => issues
  end.

Definition floorArg (minSeverity : option jsstring) : option jsstring :=
  Some (orDefault minSeverity (str "warning")).

(** What a turn of the loop pushes. *)
Definition diffRecords (minSeverity : option jsstring) (file : FileUnit.t)
  : list FileResult.t :=
  match FileUnit.content file, FileUnit.filepath file with
  | Some content, Some filepath =>
      if negb (truthyString content) || negb (truthyString filepath) then []
      else [ FileResult.mk filepath
               (scoped (FileUnit.changedLines file)
                  (fileFindings filepath content (floorArg minSeverity))) ]
  | _, _ => []
  end.

Lemma diffStep_returns (minSeverity : option jsstring) (file : FileUnit.t)
    (allIssues : list FileResult.t) :
  returns lineRuleKey (diffStep minSeverity file allIssues)
    (allIssues ++ diffRecords minSeverity file).
Proof.
  unfold diffStep, diffRecords.
  destruct (FileUnit.content file) as [content|];
    [|rewrite app_nil_r; apply returns_ret].
  destruct (FileUnit.filepath file) as [filepath|];
    [|rewrite app_nil_r; apply returns_ret].
  destruct (negb (truthyString content) || negb (truthyString filepath));
    [rewrite app_nil_r; apply returns_ret|].
  eapply returns_bind; [apply analyzeFile_returns|].
  unfold scoped, floorArg.
  destruct (FileUnit.changedLines file) as [[|n changed]|]; apply returns_ret.
Qed.

Lemma analyzeDiff_returns (files : list FileUnit.t)
    (minSeverity : option jsstring) :
  returns lineRuleKey (analyzeDiff files minSeverity)
    (flat_map (diffRecords minSeverity) files).
Proof.
  unfold analyzeDiff.
  change (flat_map ?g files) with ([] ++ flat_map g files).
  apply returns_forOf. intros file acc _. apply diffStep_returns.
Qed.

(** The record of an analyzed unit. *)
Definition recordOf (minSeverity : option jsstring) (file : FileUnit.t)
    (r : FileResult.t) : Prop :=
  exists content,
    FileUnit.content file = Some content
    /\ FileUnit.filepath file = Some (FileResult.filepath r)
    /\ FileResult.issues r
       = scoped (FileUnit.changedLines file)
           (fileFindings (FileResult.filepath r) content (floorArg minSeverity)).

(** The records are those of the analyzed units, one each, in order. *)
Lemma diffRecords_analyzed (minSeverity : option jsstring)
    (files : list FileUnit.t) :
  Forall2 (recordOf minSeverity) (filter analyzed files)
    (flat_map (diffRecords minSeverity) files).
Proof.
  induction files as [|file files IH]; [constructor|].
  cbn [filter flat_map]. unfold analyzed at 1, diffRecords at 1.
  destruct (FileUnit.content file) as [content|] eqn:Ec; [|exact IH].
  destruct (FileUnit.filepath file) as [filepath|] eqn:Ep; [|exact IH].
  destruct (truthyString content); [|exact IH].
  destruct (truthyString filepath); [|exact IH].
  cbn [andb negb orb app]. constructor; [|exact IH].
  exists content. cbn [FileResult.filepath FileResult.issues]. auto.
Qed.

Lemma setHas_In (changedLines : list Z) (n : Z) :
  setHas changedLines n = true <-> In n changedLines.
Proof.
  unfold setHas. rewrite existsb_exists. split.
  - intros (x & Hx & E). apply Z.eqb_eq in E. now subst.
  - intros H. exists n. split; [exact H | apply Z.eqb_refl].
Qed.

(** C3.  [analyzeDiff] ends normally with one record per unit that it
    analyzes.  When the unit carries a changed-line set that is not empty,
    the record holds the findings of the file whose line is in the set, and
    no other; when it carries none, or an empty one, the record holds all
    the findings of the file. *)
Theorem analyzeDiff_changed_lines (files : list FileUnit.t)
    (minSeverity : option jsstring) (s : store) :
  exists results s',
    analyzeDiff files minSeverity s = (Ok results, s')
    /\ Forall2
         (fun file r =>
            exists content all,
              FileUnit.content file = Some content
              /\ FileUnit.filepath file = Some (FileResult.filepath r)
              /\ (forall s0,
                    fst (analyzeFile (FileResult.filepath r) content
                           (floorArg minSeverity) s0) = Ok all)
              /\ match FileUnit.changedLines file with
                 | Some (n :: changed) =>
                     forall f,
                       In f (FileResult.issues r) <->
                       In f all /\ In (Issue.line f) (n :: changed)
                 | _ => FileResult.issues r = all
                 end)
         (filter analyzed files) results.
Proof.
  destruct (analyzeDiff_returns files minSeverity s) as (s' & E & _).
  exists (flat_map (diffRecords minSeverity) files), s'.
  split; [exact E|].
  eapply Forall2_impl; [|apply diffRecords_analyzed].
  intros file r (content & Hc & Hp & Hi).
  exists content,
    (fileFindings (FileResult.filepath r) content (floorArg minSeverity)).
  repeat split; try assumption.
  - intros s0.
    destruct (analyzeFile_returns (FileResult.filepath r) content
                (floorArg minSeverity) s0) as (s1 & E1 & _).
    now rewrite E1.
  - rewrite Hi. unfold scoped.
    destruct (FileUnit.changedLines file) as [[|n changed]|]; try reflexivity.
    intros f. rewrite filter_In, setHas_In. reflexivity.
Qed.

(** C6, as the code has it.  [analyzeDiff] returns exactly one record per
    unit whose path and content are present and not empty, in input order;
    the record carries the path of the unit and the findings of its file,
    all of them when the unit has no changed line, those on a changed line
    (in the same order) otherwise, be there none.  A unit whose path or
    content is missing or is the empty string gets no record.  When no
    unit is of that kind there are as many records as units. *)
Theorem analyzeDiff_one_record_per_unit (files : list FileUnit.t)
    (minSeverity : option jsstring) (s : store) :
  exists results s',
    analyzeDiff files minSeverity s = (Ok results, s')
    /\ Forall2
         (fun file r =>
            exists content all,
              FileUnit.content file = Some content
              /\ FileUnit.filepath file = Some (FileResult.filepath r)
              /\ fst (analyzeFile (FileResult.filepath r) content
                        (floorArg minSeverity) s) = Ok all
              /\ FileResult.issues r
                 = match FileUnit.changedLines file with
                   | Some (n :: changed) =>
                       filter
                         (fun f =>
                            existsb (Z.eqb (Issue.line f)) (n :: changed))
                         all
                   | _ => all
                   end)
         (filter analyzed files) results
    /\ (forallb analyzed files = true ->
        List.length results = List.length files).
Proof.
  destruct (analyzeDiff_returns files minSeverity s) as (s' & E & _).
  exists (flat_map (diffRecords minSeverity) files), s'.
  split; [exact E|].
  pose proof (diffRecords_analyzed minSeverity files) as H. split.
  - eapply Forall2_impl; [|exact H].
    intros file r (content & Hc & Hp & Hi).
    exists content,
      (fileFindings (FileResult.filepath r) content (floorArg minSeverity)).
    repeat split; try assumption.
    destruct (analyzeFile_returns (FileResult.filepath r) content
                (floorArg minSeverity) s) as (s1 & E1 & _).
    now rewrite E1.
  - intros Hall. apply Forall2_length in H. rewrite <- H.
    f_equal. clear H E. induction files as [|file files IH]; [reflexivity|].
    cbn [forallb filter] in *. apply andb_prop in Hall as [-> Hall].
    now rewrite IH.
Qed.

Definition unitOf (filepath content : string) (changedLines : option (list Z))
  : FileUnit.t :=
  FileUnit.mk (Some (str filepath)) (Some (str content)) changedLines.

(** Two units: the first has a finding on each of its two lines and line 2
    for changed line, the second has none. *)
Definition twoUnits : list FileUnit.t :=
  [ unitOf "a.js" ("eval(a)" ++ lf ++ "eval(b)")%string (Some [2%Z]);
    unitOf "b.js" "let x;" None ].

Lemma analyzeDiff_one_record_per_unit_witness :
  exists results s',
    analyzeDiff twoUnits (Some (str "error")) zeroStore = (Ok results, s')
    /\ List.length results = 2
    /\ results
       = [ FileResult.mk (str "a.js") [lineFinding (ruleAt 1) 1];
           FileResult.mk (str "b.js") [] ].
Proof.
  destruct (@analyzeDiff_one_record_per_unit twoUnits (Some (str "error"))
              zeroStore)
    as (results & s' & E & Hrecords & Hlen).
  exists results, s'. split; [exact E|]. split; [apply Hlen; reflexivity|].
  cbn [twoUnits filter analyzed unitOf FileUnit.content FileUnit.filepath
       truthyString str list_ascii_of_string List.map andb] in Hrecords.
  inversion Hrecords as [|u1 r1 us rs H1 Hrest]; subst.
  inversion Hrest as [|u2 r2 us' rs' H2 Hnil]; subst.
  inversion Hnil; subst.
  destruct H1 as (c1 & all1 & Hc1 & Hp1 & Ha1 & Hi1).
  destruct H2 as (c2 & all2 & Hc2 & Hp2 & Ha2 & Hi2).
  destruct r1 as [p1 i1], r2 as [p2 i2].
  cbn [FileUnit.content FileUnit.filepath FileUnit.changedLines
       FileResult.filepath FileResult.issues] in *.
  injection Hc1 as <-. injection Hp1 as <-.
  injection Hc2 as <-. injection Hp2 as <-.
  vm_compute in Ha1. injection Ha1 as <-.
  vm_compute in Ha2. injection Ha2 as <-.
  subst i1 i2. vm_compute. reflexivity.
Defined.

(** A unit with a path and with the empty string for content. *)
Definition emptyFile : FileUnit.t :=
  FileUnit.mk (Some (str "a.js")) (Some []) None.

(** C6, as stated, fails: a unit with a path and with the empty string for
    content gets no record. *)
Lemma analyzeDiff_skips_empty_content :
  FileUnit.filepath emptyFile = Some (str "a.js")
  /\ FileUnit.content emptyFile = Some []
  /\ fst (analyzeDiff [emptyFile] (Some (str "info")) zeroStore) = Ok [].
Proof. repeat split. Qed.

(* ====================================================================== *)
(** * Properties of generateSummary *)
(* ====================================================================== *)

(** All the findings of the results, in order. *)
Definition allFindings (allResults : list FileResult.t) : list Issue.t :=
  flat_map FileResult.issues allResults.

Definition isError (f : Issue.t) : bool :=
  Js.eqb (Issue.severity f) (str "error").

Definition isWarning (f : Issue.t) : bool :=
  Js.eqb (Issue.severity f) (str "warning").

(** The third bucket takes every finding that is neither an error nor a
    warning. *)
Definition isInfo (f : Issue.t) : bool := negb (isError f) && negb (isWarning f).

Definition count (p : Issue.t -> bool) (l : list Issue.t) : nat :=
  List.length (filter p l).

Definition addCounts (c : counters) (l : list Issue.t) : counters :=
  mkCounters (totalIssues c + List.length l) (errors c + count isError l)
    (warnings c + count isWarning l) (infos c + count isInfo l).

Lemma inner_loop_counts (l : list Issue.t) (c : counters) :
  fold_left countIssue l c = addCounts c l.
Proof.
  revert c. induction l as [|f l IH]; intros [t e w i].
  - unfold addCounts, count. cbn. now rewrite !Nat.add_0_r.
  - cbn [fold_left]. rewrite IH. unfold countIssue, addCounts, count, isInfo.
    cbn [filter]. fold (isError f). fold (isWarning f).
    destruct (isError f) eqn:Ee.
    + assert (isWarning f = false) as ->.
      { unfold isError, isWarning in *. apply JsFacts.eqb_eq in Ee.
        rewrite Ee. reflexivity. }
      cbn. f_equal; lia.
    + destruct (isWarning f); cbn; f_equal; lia.
Qed.

Lemma tally_counts (allResults : list FileResult.t) :
  tally allResults = addCounts (mkCounters 0 0 0 0) (allFindings allResults).
Proof.
  unfold tally, allFindings.
  assert (H : forall c,
             fold_left
               (fun c result => fold_left countIssue (FileResult.issues result) c)
               allResults c
             = addCounts c (flat_map FileResult.issues allResults)).
  { induction allResults as [|r rs IH]; intros [t e w i].
    - unfold addCounts, count. cbn. now rewrite !Nat.add_0_r.
    - cbn [fold_left flat_map]. rewrite IH, inner_loop_counts.
      unfold addCounts, count. cbn [totalIssues errors warnings infos].
      rewrite !filter_app, !length_app. f_equal; lia. }
  apply H.
Qed.

(** [hay] holds [needle] as a substring. *)
Definition infix (needle hay : jsstring) : Prop :=
  exists pre post, hay = pre ++ needle ++ post.

Fixpoint startsWithIgnoringCase (needle hay : jsstring) : bool :=
  match needle, hay with
  | [], _ => true
  | a :: needle', b :: hay' =>
      N.eqb (lowerUnit a) (lowerUnit b) && startsWithIgnoringCase needle' hay'
  | _ :: _, [] => false
  end.

Fixpoint containsIgnoringCase (needle hay : jsstring) : bool :=
  startsWithIgnoringCase needle hay
  || match hay with
     | [] => false
     | _ :: hay' => containsIgnoringCase needle hay'
     end.

(** ** Decimal numerals *)

(** The number that a run of decimal digits spells, read from the left on
    top of [acc]; [None] when a unit is no digit. *)
Fixpoint numeralValue (acc : N) (digits : jsstring) : option N :=
  match digits with
  | [] => Some acc
  | c :: rest =>
      if ((48 <=? c) && (c <=? 57))%N
      then numeralValue (10 * acc + (c - 48))%N rest
      else None
  end.

(** [digits] is the decimal numeral of [n]: at least one unit, digits
    only, of value [n], and no leading zero (0 itself is written with one
    zero). *)
Definition decimalNumeral (n : nat) (digits : jsstring) : Prop :=
  digits <> []
  /\ numeralValue 0 digits = Some (N.of_nat n)
  /\ (0 < n -> hd 0%N digits <> 48%N)
  /\ (n = 0 -> digits = [48%N]).

Lemma numeralValue_acc (d : Decimal.uint) (acc : positive) :
  numeralValue (Npos acc) (str (NilEmpty.string_of_uint d))
  = Some (Npos (Pos.of_uint_acc d acc)).
Proof.
  revert acc. induction d; intros acc;
    cbn [NilEmpty.string_of_uint str list_ascii_of_string List.map
         numeralValue Pos.of_uint_acc];
    [reflexivity|..];
    simpl (N_of_ascii _); cbn [N.leb N.compare Pos.compare Pos.compare_cont
                                andb];
    rewrite <- IHd; f_equal; lia.
Qed.

Lemma numeralValue_of_uint (d : Decimal.uint) :
  numeralValue 0 (str (NilEmpty.string_of_uint d)) = Some (Pos.of_uint d).
Proof.
  induction d;
    cbn [NilEmpty.string_of_uint str list_ascii_of_string List.map
         numeralValue Pos.of_uint];
    [reflexivity|..];
    simpl (N_of_ascii _); cbn [N.leb N.compare Pos.compare Pos.compare_cont
                                andb];
    [ exact IHd | .. ];
    match goal with
    | |- numeralValue ?a _ = _ =>
        let p := eval vm_compute in a in change a with p
    end;
    apply numeralValue_acc.
Qed.

Lemma to_uint_no_leading_zero (p : positive) (d : Decimal.uint) :
  Pos.to_uint p <> Decimal.D0 d.
Proof.
  intros H.
  pose proof (DecimalPos.Unsigned.to_of (Pos.to_uint p)) as Hn.
  rewrite DecimalPos.Unsigned.of_to in Hn. cbn [N.to_uint] in Hn.
  rewrite H in Hn. unfold Decimal.unorm in Hn. cbn [Decimal.nzhead] in Hn.
  destruct (Decimal.nzhead d) eqn:E; try discriminate Hn.
  - apply (DecimalPos.Unsigned.to_uint_nonzero p). now rewrite H, Hn.
  - exact (DecimalFacts.nzhead_nonzero _ _ E).
Qed.

(** What a template literal writes for a count is its decimal numeral. *)
Lemma showCount_decimal (n : nat) : decimalNumeral n (showCount n).
Proof.
  unfold showCount, numberToString. destruct n as [|n].
  - repeat split; try discriminate; try reflexivity; try (intros H; lia).
  - cbn [Z.of_nat Z.to_int NilZero.string_of_int].
    set (p := Pos.of_succ_nat n).
    pose proof (DecimalPos.Unsigned.to_uint_nonnil p) as Hnil.
    assert (Hs : NilZero.string_of_uint (Pos.to_uint p)
                 = NilEmpty.string_of_uint (Pos.to_uint p)).
    { unfold NilZero.string_of_uint.
      destruct (Pos.to_uint p); [contradiction|reflexivity..]. }
    rewrite Hs. repeat split.
    + destruct (Pos.to_uint p); [contradiction|discriminate..].
    + rewrite numeralValue_of_uint, DecimalPos.Unsigned.of_to.
      reflexivity.
    + intros _ H0.
      pose proof (to_uint_no_leading_zero p) as Hz.
      destruct (Pos.to_uint p) as [|d|d|d|d|d|d|d|d|d|d];
        try contradiction; try (vm_compute in H0; discriminate H0).
      now apply (Hz d).
    + intros H. discriminate H.
Qed.

(** A numeral is determined by the number: two runs of digits without
    leading zero that spell the same number are the same run. *)
Fixpoint weight (digits : jsstring) : N :=
  match digits with
  | [] => 1
  | _ :: rest => 10 * weight rest
  end.

Lemma weight_pos (d : jsstring) : (0 < weight d)%N.
Proof. induction d as [|c r IH]; cbn [weight]; lia. Qed.

Lemma numeralValue_shift (d : jsstring) (acc : N) :
  numeralValue acc d
  = option_map (fun w => (acc * weight d + w)%N) (numeralValue 0 d).
Proof.
  revert acc. induction d as [|c r IH]; intros acc.
  - cbn. f_equal. lia.
  - cbn [numeralValue weight].
    destruct ((48 <=? c) && (c <=? 57))%N; [|reflexivity].
    rewrite (IH (10 * acc + (c - 48))%N), (IH (10 * 0 + (c - 48))%N).
    destruct (numeralValue 0 r) as [w|]; [|reflexivity].
    cbn [option_map]. f_equal. lia.
Qed.

Lemma numeralValue_cons (c : N) (r : jsstring) (v : N) :
  numeralValue 0 (c :: r) = Some v ->
  (48 <= c <= 57)%N
  /\ exists w, numeralValue 0 r = Some w
               /\ v = ((c - 48) * weight r + w)%N.
Proof.
  cbn [numeralValue].
  destruct (N.leb_spec 48 c) as [Hlo|Hlo]; cbn [andb]; [|discriminate].
  destruct (N.leb_spec c 57) as [Hhi|Hhi]; [|discriminate].
  rewrite numeralValue_shift.
  destruct (numeralValue 0 r) as [w|]; [|discriminate].
  cbn [option_map]. intros [= <-]. split; [lia|].
  exists w. split; [reflexivity | lia].
Qed.

Lemma numeralValue_below_weight (d : jsstring) (v : N) :
  numeralValue 0 d = Some v -> (v < weight d)%N.
Proof.
  revert v. induction d as [|c r IH]; intros v H.
  - cbn in H. injection H as <-. cbn. lia.
  - apply numeralValue_cons in H as (Hc & w & Hr & ->).
    specialize (IH w Hr). cbn [weight]. nia.
Qed.

Lemma weight_longer (d1 d2 : jsstring) :
  List.length d1 < List.length d2 -> (10 * weight d1 <= weight d2)%N.
Proof.
  revert d2. induction d1 as [|c r IH]; intros [|c2 r2] H; cbn in H;
    try lia; cbn [weight].
  - pose proof (weight_pos r2). lia.
  - specialize (IH r2). lia.
Qed.

Lemma weight_same_length (d1 d2 : jsstring) :
  List.length d1 = List.length d2 -> weight d1 = weight d2.
Proof.
  revert d2. induction d1 as [|c r IH]; intros [|c2 r2] H; cbn in H;
    try discriminate; cbn [weight]; [reflexivity|].
  now rewrite (IH r2) by lia.
Qed.

Lemma numeralValue_same_length (d1 d2 : jsstring) (v : N) :
  List.length d1 = List.length d2 ->
  numeralValue 0 d1 = Some v -> numeralValue 0 d2 = Some v -> d1 = d2.
Proof.
  revert d2 v. induction d1 as [|c r IH]; intros [|c2 r2] v Hlen H1 H2;
    cbn in Hlen; try discriminate; [reflexivity|].
  apply numeralValue_cons in H1 as (Hc & w & Hr & Hv).
  apply numeralValue_cons in H2 as (Hc2 & w2 & Hr2 & Hv2).
  assert (Hw : weight r = weight r2) by (apply weight_same_length; lia).
  pose proof (numeralValue_below_weight _ Hr) as Hb.
  pose proof (numeralValue_below_weight _ Hr2) as Hb2.
  rewrite Hw in *.
  assert (Hk : (c - 48 = c2 - 48)%N) by nia.
  assert (w = w2) by (rewrite Hk in Hv; lia). subst w2.
  f_equal; [lia|]. apply (IH r2 w); [lia | assumption..].
Qed.

Lemma decimalNumeral_unique (n : nat) (d1 d2 : jsstring) :
  decimalNumeral n d1 -> decimalNumeral n d2 -> d1 = d2.
Proof.
  intros (Hne1 & Hv1 & Hlead1 & Hzero1) (Hne2 & Hv2 & Hlead2 & Hzero2).
  destruct n as [|n]; [now rewrite Hzero1, Hzero2|].
  destruct d1 as [|c1 r1]; [contradiction|].
  destruct d2 as [|c2 r2]; [contradiction|].
  specialize (Hlead1 ltac:(lia)). specialize (Hlead2 ltac:(lia)).
  cbn [hd] in *.
  assert (Hlen : List.length r1 = List.length r2).
  { pose proof (numeralValue_below_weight _ Hv1) as Hb1.
    pose proof (numeralValue_below_weight _ Hv2) as Hb2.
    cbn [weight] in Hb1, Hb2.
    pose proof Hv1 as Hc1. pose proof Hv2 as Hc2.
    apply numeralValue_cons in Hc1 as (Hd1 & w1 & _ & He1).
    apply numeralValue_cons in Hc2 as (Hd2 & w2 & _ & He2).
    destruct (Nat.lt_trichotomy (List.length r1) (List.length r2))
      as [Hlt|[Heq|Hlt]]; [|exact Heq|];
      apply weight_longer in Hlt; nia. }
  apply (@numeralValue_same_length _ _ (N.of_nat (S n)));
    [cbn; lia | assumption..].
Qed.

(** C9.  With no finding in the results the summary is the fixed message,
    which says 'No issues found'.  With [N > 0] findings it is the head,
    then the line of the errors, the line of the warnings and the line of
    the others, in that order, then the foot.  The head reads
    'Found **N** issue(s):' with the decimal numeral of [N], so that the
    summary holds that text; the line of a bucket reads
    '- <sign> **n** <label>(s)' with the decimal numeral of the count of
    the bucket, and is there only when that count is positive.  The plural
    's' is left out for a count of 1 only. *)
Theorem generateSummary_spec (allResults : list FileResult.t) :
  let fs := allFindings allResults in
  let N := List.length fs in
  (N = 0 ->
   generateSummary allResults = noIssuesMessage
   /\ containsIgnoringCase (str "no issues found") noIssuesMessage = true)
  /\ (0 < N ->
      generateSummary allResults
      = summaryHead N
        ++ bucketLine redCircle "error" (count isError fs)
        ++ bucketLine warningSign "warning" (count isWarning fs)
        ++ bucketLine infoSign "info" (count isInfo fs)
        ++ summaryFoot
      /\ forall digits, decimalNumeral N digits ->
           summaryHead N
           = str "## " ++ magnifier ++ str " Li Code Review Summary"
             ++ newline ++ newline
             ++ str "Found **" ++ digits ++ str "** issue" ++ plural N
             ++ str ":" ++ newline
           /\ infix (str "Found **" ++ digits ++ str "** issue")
                (generateSummary allResults))
  /\ (forall sign label n,
        (0 < n ->
         forall digits, decimalNumeral n digits ->
           bucketLine sign label n
           = str "- " ++ sign ++ str " **" ++ digits ++ str "** "
             ++ str label ++ plural n ++ newline)
        /\ (n = 0 -> bucketLine sign label n = []))
  /\ (forall n, plural n = if Nat.eqb n 1 then [] else [115%N]).
Proof.
  intros fs N. unfold generateSummary. rewrite tally_counts.
  fold fs. unfold addCounts. cbn [totalIssues errors warnings infos Nat.add].
  fold N. split; [|split; [|split]].
  - intros ->. split; [reflexivity | vm_compute; reflexivity].
  - intros HN. destruct N as [|n]; [lia|]. cbn [Nat.eqb]. split.
    + now rewrite <- !app_assoc.
    + intros digits Hdigits.
      rewrite (decimalNumeral_unique Hdigits (showCount_decimal (S n))).
      split; [reflexivity|].
      unfold summaryHead, infix.
      exists (str "## " ++ magnifier ++ str " Li Code Review Summary"
              ++ newline ++ newline),
        (plural (S n) ++ str ":" ++ newline
         ++ bucketLine redCircle "error" (count isError fs)
         ++ bucketLine warningSign "warning" (count isWarning fs)
         ++ bucketLine infoSign "info" (count isInfo fs)
         ++ summaryFoot).
      now rewrite <- !app_assoc.
  - intros sign label n. split.
    + intros Hn digits Hdigits.
      rewrite (decimalNumeral_unique Hdigits (showCount_decimal n)).
      unfold bucketLine.
      replace (0 <? n) with true by (symmetry; apply Nat.ltb_lt; exact Hn).
      reflexivity.
    + intros ->. reflexivity.
  - intros n. unfold plural. now destruct (Nat.eqb n 1).
Qed.

Definition findingOf (severity : string) : Issue.t :=
  Issue.mk [] [] (str severity) 1%Z None None.

(** The two results of the test of the repository: an error and a warning
    in one file, an info in the other. *)
Definition sampleResults : list FileResult.t :=
  [ FileResult.mk (str "app.js") [findingOf "error"; findingOf "warning"];
    FileResult.mk (str "lib.js") [findingOf "info"] ].

Lemma generateSummary_spec_witness :
  generateSummary [FileResult.mk (str "app.js") []] = noIssuesMessage
  /\ generateSummary sampleResults
     = summaryHead 3 ++ bucketLine redCircle "error" 1
       ++ bucketLine warningSign "warning" 1 ++ bucketLine infoSign "info" 1
       ++ summaryFoot
  /\ infix (str "Found **" ++ str "3" ++ str "** issue")
       (generateSummary sampleResults)
  /\ bucketLine redCircle "error" 12
     = str "- " ++ redCircle ++ str " **" ++ str "12" ++ str "** "
       ++ str "error" ++ str "s" ++ newline
  /\ bucketLine warningSign "warning" 0 = [].
Proof.
  destruct (generateSummary_spec [FileResult.mk (str "app.js") []])
    as (Hzero & _ & _).
  destruct (generateSummary_spec sampleResults) as (_ & Hsome & Hline & _).
  assert (Hpos : 0 < List.length (allFindings sampleResults)) by (cbn; lia).
  destruct (Hsome Hpos) as (Htext & Hhead).
  split; [apply Hzero; reflexivity|].
  split; [exact Htext|].
  split.
  - apply (Hhead (str "3")).
    repeat split; try discriminate; try reflexivity; intros H; cbn in H; lia.
  - split.
    + apply (Hline redCircle "error" 12); [lia|].
      repeat split; try discriminate; try reflexivity; intros H; lia.
    + apply (Hline warningSign "warning" 0). reflexivity.
Defined.

(* ====================================================================== *)
(** * The tests of the repository, replayed on the model *)
(* ====================================================================== *)

(** [issues.some(i => i.ruleId === id)] on the result of a call. *)
Definition reports (id : string) (filepath content : jsstring)
    (minSeverity : string) : bool :=
  match fst (analyzeFile filepath content (Some (str minSeverity)) zeroStore) with
  | Ok issues => existsb (fun i => Js.eqb (Issue.ruleId i) (str id)) issues
  | Throw _ => false
  end.

(** [String.prototype.includes] *)
Fixpoint startsWith (needle hay : jsstring) : bool :=
  match needle, hay with
  | [], _ => true
  | a :: needle', b :: hay' => N.eqb a b && startsWith needle' hay'
  | _ :: _, [] => false
  end.

Fixpoint includesString (hay needle : jsstring) : bool :=
  startsWith needle hay
  || match hay with
     | [] => false
     | _ :: hay' => includesString hay' needle
     end.

Example test_language_detection :
  detectLanguage (str "app.js") = Own (str "js")
  /\ detectLanguage (str "app.ts") = Own (str "ts")
  /\ detectLanguage (str "main.py") = Own (str "py")
  /\ detectLanguage (str "main.go") = Own (str "go")
  /\ detectLanguage (str "App.tsx") = Own (str "tsx").
Proof. repeat split. Qed.

Example test_sql_injection :
  reports "SEC001" (str "app.js")
    (str "db.query(`SELECT * FROM users WHERE id = ${req.params.id}`)")
    "error" = true.
Proof. vm_compute. reflexivity. Qed.

Example test_eval :
  reports "SEC002" (str "app.js") (str "const result = eval(userInput);")
    "error" = true.
Proof. vm_compute. reflexivity. Qed.

Example test_hardcoded_secret :
  reports "SEC003" (str "config.js")
    (str "const api_key = " ++ [dquote] ++ str "sk-1234567890abcdef"
     ++ [dquote] ++ str ";")
    "error" = true.
Proof. vm_compute. reflexivity. Qed.

Example test_innerHTML :
  reports "SEC005" (str "app.js") (str "element.innerHTML = userInput;")
    "error" = true.
Proof. vm_compute. reflexivity. Qed.

Example test_empty_catch :
  reports "BUG004" (str "app.js") (str "try { doSomething(); } catch (e) {}")
    "warning" = true.
Proof. vm_compute. reflexivity. Qed.

Example test_python_mutable_default :
  reports "PY001" (str "app.py") (str "def process(items=[]):") "error" = true.
Proof. vm_compute. reflexivity. Qed.

Example test_python_bare_except :
  reports "PY002" (str "app.py") (str "except:") "warning" = true.
Proof. vm_compute. reflexivity. Qed.

Example test_typescript_any :
  reports "TS001" (str "app.ts") (str "function process(data: any) {") "info"
  = true.
Proof. vm_compute. reflexivity. Qed.

Example test_comment_no_false_positive :
  reports "SEC002" (str "app.js")
    (str "// eval() is dangerous, do not use it") "info" = false.
Proof. vm_compute. reflexivity. Qed.

Example test_clean_code :
  fst (analyzeFile (str "app.js")
         (str ("const x = 1 + 2;" ++ lf ++ "console.log(x);")%string)
         (Some (str "error")) zeroStore) = Ok [].
Proof. vm_compute. reflexivity. Qed.

Example test_ssl_verification :
  reports "SEC008" (str "app.py") (str "requests.get(url, verify=False)")
    "error" = true.
Proof. vm_compute. reflexivity. Qed.

Example test_summary :
  includesString (generateSummary sampleResults) (str "3") = true
  /\ includesString (generateSummary sampleResults) (str "error") = true
  /\ includesString (generateSummary sampleResults) (str "Li Code Review")
     = true.
Proof. repeat split; vm_compute; reflexivity. Qed.

Example test_empty_summary :
  includesString (generateSummary [FileResult.mk (str "app.js") []])
    (str "No issues found") = true.
Proof. vm_compute. reflexivity. Qed.

(* ====================================================================== *)
(** * Further properties of detectLanguage *)
(* ====================================================================== *)

Lemma split_without_separator (sep : cu) (s : jsstring) :
  ~ In sep s -> split sep s = [s].
Proof.
  induction s as [|c s IH]; intros Hnot; [reflexivity|].
  cbn [split]. destruct (N.eqb_spec c sep) as [->|_].
  - exfalso. apply Hnot. now left.
  - rewrite IH; [reflexivity|]. intros H. apply Hnot. now right.
Qed.

(** The pieces of [a + sep + b] are those of [a], then those of [b]. *)
Lemma split_around_separator (sep : cu) (a b : jsstring) :
  split sep (a ++ sep :: b) = split sep a ++ split sep b.
Proof.
  induction a as [|c a IH]; cbn [app split].
  - now rewrite N.eqb_refl.
  - destruct (N.eqb c sep); rewrite IH; [reflexivity|].
    pose proof (split_nonempty sep a) as Hne.
    destruct (split sep a); [contradiction | reflexivity].
Qed.

Lemma pop_last (A : Type) (l : list A) (x : A) : pop (l ++ [x]) = Some x.
Proof. unfold pop. now rewrite rev_app_distr. Qed.

Lemma pop_app (A : Type) (l1 l2 : list A) : l2 <> [] -> pop (l1 ++ l2) = pop l2.
Proof.
  intros Hne. unfold pop. rewrite rev_app_distr.
  destruct (rev l2) as [|x r] eqn:E; [|reflexivity].
  exfalso. apply Hne. apply (f_equal (@rev A)) in E.
  now rewrite rev_involutive in E.
Qed.

(** The language of a path is that of what follows its last dot: the
    directories and the base name play no part, and a name without a dot
    is its own extension. *)
Theorem detectLanguage_last_piece (base ext : jsstring) :
  ~ In 46%N ext ->
  detectLanguage (base ++ 46%N :: ext) = detectLanguage ext.
Proof.
  intros Hnot. unfold detectLanguage.
  rewrite split_around_separator, (@split_without_separator 46%N ext Hnot).
  now rewrite pop_last.
Qed.

Lemma detectLanguage_last_piece_witness :
  detectLanguage (str "src/App.test.TSX") = detectLanguage (str "TSX")
  /\ detectLanguage (str "TSX") = Own (str "tsx").
Proof.
  split; [|reflexivity].
  apply (@detectLanguage_last_piece (str "src/App.test") (str "TSX")).
  intros H. repeat (destruct H as [H|H]; [discriminate H|]). exact H.
Defined.






(* ====================================================================== *)
(** * Further properties of analyzeFile *)
(* ====================================================================== *)

(** Every finding points into the file: its line number lies between 1 and
    the number of lines of the content. *)
Theorem analyzeFile_lines_in_file (filepath content : jsstring)
    (minSeverity : option jsstring) (s : store) :
  exists issues s',
    analyzeFile filepath content minSeverity s = (Ok issues, s')
    /\ Forall
         (fun f =>
            1 <= Issue.line f <= Z.of_nat (List.length (split 10%N content)))%Z
         issues.
Proof.
  destruct (analyzeFile_returns filepath content minSeverity s) as (s' & E & _).
  exists (fileFindings filepath content minSeverity), s'.
  split; [exact E|]. apply Forall_forall. intros f Hf.
  apply fileFindings_origin in Hf as (rule & Hin & _ & Hf).
  destruct Hf as [(_ & i & line & Hline & _ & ->)
                 |(Hk & check & b & Hcheck & Hb & ->)].
  - cbn [lineFinding Issue.line].
    assert (i < List.length (split 10%N content))
      by (apply nth_error_Some; congruence).
    lia.
  - cbn [blockFinding Issue.line].
    pose proof rules_tableRule as Ht. rewrite Forall_forall in Ht.
    destruct (Ht _ Hin) as [(Hl & _)|(_ & Hg)]; [congruence|].
    rewrite Hg in Hcheck. injection Hcheck as <-.
    destruct (GEN002_check_sorted (split 10%N content)) as [_ Hr].
    rewrite Forall_forall in Hr. apply Hr. now apply in_map.
Qed.

Lemma StronglySorted_lt_NoDup (l : list Z) : StronglySorted Z.lt l -> NoDup l.
Proof.
  induction 1 as [|x l Hl IH Hx]; constructor; [|exact IH].
  intros Hin. rewrite Forall_forall in Hx. specialize (Hx x Hin). lia.
Qed.

Definition place (f : Issue.t) : jsstring * Z := (Issue.ruleId f, Issue.line f).

Lemma Forall2_In_right (A B : Type) (P : A -> B -> Prop) (l : list A)
    (l' : list B) (b : B) :
  Forall2 P l l' -> In b l' -> exists a, In a l /\ P a b.
Proof.
  induction 1 as [|x y l l' Hxy _ IH]; intros Hin; [contradiction|].
  destruct Hin as [<-|Hin].
  - exists x. split; [now left | exact Hxy].
  - destruct (IH Hin) as (a & Ha & Hab). exists a. split; [now right | exact Hab].
Qed.

Lemma chunks_places_NoDup (rs : list Rule.t) (chunks : list (list Issue.t)) :
  NoDup (List.map Rule.id rs) -> Forall2 orderedChunk rs chunks ->
  NoDup (List.map place (List.concat chunks)).
Proof.
  intros Hids H. induction H as [|rule chunk rs chunks Hc Hrest IH];
    [constructor|].
  cbn [List.concat List.map] in *. inversion Hids as [|? ? Hnot Hids']; subst.
  destruct Hc as (Hid & Hsorted & _).
  rewrite map_app. apply NoDup_app.
  - apply StronglySorted_lt_NoDup in Hsorted.
    clear - Hsorted. induction chunk as [|f chunk IH]; [constructor|].
    cbn [List.map] in *. inversion Hsorted as [|? ? Hf Hchunk]; subst.
    constructor; [|auto].
    intros Hin. apply in_map_iff in Hin as (g & Eg & Hg).
    apply Hf. unfold place in Eg. injection Eg as _ <-. now apply in_map.
  - now apply IH.
  - intros pl H1 H2.
    apply in_map_iff in H1 as (f & <- & Hf).
    apply in_map_iff in H2 as (g & Eg & Hg).
    rewrite Forall_forall in Hid. specialize (Hid f Hf).
    apply in_concat in Hg as (chunk' & Hchunk' & Hg).
    destruct (@Forall2_In_right _ _ _ _ _ _ Hrest Hchunk')
      as (rule' & Hin' & Hc').
    destruct Hc' as (Hid' & _). rewrite Forall_forall in Hid'.
    specialize (Hid' g Hg). apply Hnot.
    unfold place in Eg. injection Eg as Eg _.
    rewrite <- Hid, <- Eg, Hid'. now apply in_map.
Qed.

(** A rule reports a line at most once: no two findings of a result share
    both their rule id and their line, however often the pattern matches
    on the line. *)
Theorem analyzeFile_one_finding_per_rule_and_line (filepath content : jsstring)
    (minSeverity : option jsstring) (s : store) :
  exists issues s',
    analyzeFile filepath content minSeverity s = (Ok issues, s')
    /\ NoDup (List.map place issues).
Proof.
  destruct (analyzeFile_returns filepath content minSeverity s) as (s' & E & _).
  exists (fileFindings filepath content minSeverity), s'. split; [exact E|].
  unfold fileFindings. rewrite flat_map_concat_map.
  apply chunks_places_NoDup with (rs := rules); [exact rules_ids_unique|].
  apply Forall2_map_right.
  eapply Forall_impl; [|exact rules_tableRule].
  intros rule Hrule. now apply ruleFindings_ordered.
Qed.

(** ** The floor is a filter *)

(** Whether the severity of a finding passes the floor, by the test of the
    loop over the rules. *)
Definition meetsFloor (minSeverity : option jsstring) (f : Issue.t) : bool :=
  negb (lessThan (get SEVERITY (Issue.severity f)) (floorOf minSeverity)).

Lemma filter_all (A : Type) (p : A -> bool) (l : list A) :
  Forall (fun a => p a = true) l -> filter p l = l.
Proof. induction 1 as [|a l Ha _ IH]; simpl; [|rewrite Ha, IH]; reflexivity. Qed.

Lemma filter_none (A : Type) (p : A -> bool) (l : list A) :
  Forall (fun a => p a = false) l -> filter p l = [].
Proof. induction 1 as [|a l Ha _ IH]; simpl; [|rewrite Ha, IH]; reflexivity. Qed.

Lemma ruleFindings_severity (filepath : jsstring) (lang : lookup jsstring)
    (lines : list jsstring) (minSev : lookup Z) (rule : Rule.t) :
  Forall (fun f => Issue.severity f = Rule.severity rule)
    (ruleFindings filepath lang lines minSev rule).
Proof.
  apply Forall_forall. intros f Hf. unfold ruleFindings in Hf.
  destruct (applicable lang minSev rule); [|contradiction].
  destruct (truthyFlag (Rule.isBlockRule rule)).
  - destruct (Rule.check rule) as [check|]; [|contradiction].
    apply in_map_iff in Hf as (b & <- & _). reflexivity.
  - apply in_flatMapIndex in Hf as (i & line & _ & Hf).
    unfold lineFindings in Hf.
    destruct (lineHit filepath rule line); [|contradiction].
    destruct Hf as [<-|[]]. reflexivity.
Qed.

Lemma ruleFindings_floor (filepath : jsstring) (lang : lookup jsstring)
    (lines : list jsstring) (minSeverity : option jsstring) (rule : Rule.t) :
  lessThan (get SEVERITY (Rule.severity rule)) (Own 0%Z) = false ->
  ruleFindings filepath lang lines (floorOf minSeverity) rule
  = filter (meetsFloor minSeverity)
      (ruleFindings filepath lang lines (Own 0%Z) rule).
Proof.
  intros Hzero.
  pose proof (ruleFindings_severity filepath lang lines (Own 0%Z) rule) as Hsev.
  destruct (lessThan (get SEVERITY (Rule.severity rule)) (floorOf minSeverity))
    eqn:Hfloor.
  - rewrite filter_none.
    + unfold ruleFindings, applicable. now rewrite Hfloor.
    + eapply Forall_impl; [|exact Hsev]. intros f Ef.
      unfold meetsFloor. now rewrite Ef, Hfloor.
  - rewrite filter_all.
    + unfold ruleFindings, applicable. now rewrite Hfloor, Hzero.
    + eapply Forall_impl; [|exact Hsev]. intros f Ef.
      unfold meetsFloor. now rewrite Ef, Hfloor.
Qed.

(** Raising the floor only removes findings: what [analyzeFile] returns
    for a floor is what it returns for the floor 'info', less the findings
    whose severity is below the floor, in the same order. *)
Theorem analyzeFile_floor_filters (filepath content : jsstring)
    (minSeverity : option jsstring) (s : store) :
  exists all,
    fst (analyzeFile filepath content (Some (str "info")) s) = Ok all
    /\ fst (analyzeFile filepath content minSeverity s)
       = Ok (filter (meetsFloor minSeverity) all).
Proof.
  destruct (analyzeFile_returns filepath content (Some (str "info")) s)
    as (s1 & E1 & _).
  destruct (analyzeFile_returns filepath content minSeverity s)
    as (s2 & E2 & _).
  exists (fileFindings filepath content (Some (str "info"))).
  rewrite E1, E2. split; [reflexivity|]. cbn [fst]. f_equal.
  unfold fileFindings. change (floorOf (Some (str "info"))) with (@Own Z 0%Z).
  pose proof rules_not_below_zero as Hzero.
  induction rules as [|rule rs IH]; [reflexivity|].
  cbn [flat_map forallb] in *. apply andb_prop in Hzero as [Hrule Hrs].
  rewrite filter_app, <- (IH Hrs). f_equal.
  apply ruleFindings_floor. now apply negb_true_iff.
Qed.

(** ** Messages *)

Lemma rules_have_messages :
  forallb
    (fun rule =>
       negb (isLineRule rule)
       || (isSome (Rule.message rule) && isSome (Rule.suggestion rule)))
    rules = true.
Proof. vm_compute. reflexivity. Qed.

(** No finding lacks its message or its suggestion: every line rule of the
    table spells both, and a checker gives both with each issue. *)
Theorem analyzeFile_findings_have_messages (filepath content : jsstring)
    (minSeverity : option jsstring) (s : store) :
  exists issues s',
    analyzeFile filepath content minSeverity s = (Ok issues, s')
    /\ Forall
         (fun f =>
            exists message suggestion,
              Issue.message f = Some message
              /\ Issue.suggestion f = Some suggestion)
         issues.
Proof.
  destruct (analyzeFile_returns filepath content minSeverity s) as (s' & E & _).
  exists (fileFindings filepath content minSeverity), s'.
  split; [exact E|]. apply Forall_forall. intros f Hf.
  apply fileFindings_origin in Hf as (rule & Hin & _ & Hf).
  destruct Hf as [(Hk & i & line & _ & _ & ->)|(_ & check & b & _ & _ & ->)].
  - pose proof rules_have_messages as H. rewrite forallb_forall in H.
    specialize (H rule Hin). rewrite Hk in H. cbn [negb orb] in H.
    apply andb_prop in H as [Hm Hs]. cbn [lineFinding Issue.message Issue.suggestion].
    destruct (Rule.message rule) as [m|]; [|discriminate].
    destruct (Rule.suggestion rule) as [g|]; [|discriminate]. eauto.
  - cbn [blockFinding Issue.message Issue.suggestion]. eauto.
Qed.

(** ** Files of a language that no rule names *)

(** The languages that the rules of the table name. *)
Definition ruleLanguages : list jsstring :=
  langs ["js"; "ts"; "py"; "java"; "go"; "rb"; "php"; "c"; "cpp"; "jsx"; "tsx"].

(** The rules for every language. *)
Definition universalRules : list jsstring :=
  langs ["SEC003"; "BUG006"; "GEN001"; "GEN002"].

Lemma rules_languages :
  forallb
    (fun rule =>
       if includes (Rule.languages rule) (str "*")
       then includes universalRules (Rule.id rule)
       else forallb (includes ruleLanguages) (Rule.languages rule))
    rules = true.
Proof. vm_compute. reflexivity. Qed.

(** When the language detected from the path is none that a rule names (a
    Rust or a Markdown file, say), the only findings are those of the four
    rules that bear the wildcard. *)
Theorem analyzeFile_unnamed_language (filepath content : jsstring)
    (minSeverity : option jsstring) (s s' : store) (issues : list Issue.t) :
  includesValue ruleLanguages (detectLanguage filepath) = false ->
  analyzeFile filepath content minSeverity s = (Ok issues, s') ->
  Forall (fun f => In (Issue.ruleId f) universalRules) issues.
Proof.
  intros Hlang Hrun. apply analyzeFile_result in Hrun. injection Hrun as ->.
  apply Forall_forall. intros f Hf.
  apply finding_ids in Hf as (rule & Hin & Happ & -> & _).
  pose proof rules_languages as H. rewrite forallb_forall in H.
  specialize (H rule Hin).
  unfold applicable in Happ. apply andb_prop in Happ as [_ Happ].
  destruct (includes (Rule.languages rule) (str "*")).
  - now apply includes_In.
  - cbn [orb] in Happ. exfalso.
    destruct (detectLanguage filepath) as [lang| |]; try discriminate Happ.
    cbn [includesValue] in *. apply includes_In in Happ.
    rewrite forallb_forall in H. specialize (H lang Happ). congruence.
Qed.

Lemma analyzeFile_unnamed_language_witness :
  Forall (fun f => In (Issue.ruleId f) universalRules)
    [lineFinding (ruleAt 27) 0].
Proof.
  apply (@analyzeFile_unnamed_language (str "main.rs")
           (str "if n > 1000 { eval(x) }") (Some (str "info")) zeroStore
           (snd (analyzeFile (str "main.rs") (str "if n > 1000 { eval(x) }")
                   (Some (str "info")) zeroStore))).
  - reflexivity.
  - vm_compute. reflexivity.
Defined.

(** ** The assert rule and test files *)

(** The scan finds a match that exists further on in the input, unless it
    finds one before. *)
Lemma scan_finds (R : regexp) (suf : list cu) (pre acc : list cu) :
  (exists y,
      matcher (reFlags R) (source R) (mkState (rev pre ++ acc) suf [])
        (fun y => Some y) = Some y) ->
  exists y, scan R acc (pre ++ suf) = Some y.
Proof.
  revert acc. induction pre as [|c pre IH]; intros acc (y & Hy).
  - exists y. now apply scan_here.
  - cbn [app scan].
    match goal with
    | |- context [match ?m with Some _ => _ | None => _ end] =>
        destruct m as [z|]; [now exists z|]
    end.
    apply IH. exists y. cbn [rev] in Hy. now rewrite <- app_assoc in Hy.
Qed.

Lemma test_in_path (filepath : jsstring) :
  infix (str "test") filepath ->
  testLiteral (mkRegexp (lit "test") noFlags) filepath = true.
Proof.
  intros (pre & post & ->).
  destruct (@scan_finds (mkRegexp (lit "test") noFlags) (str "test" ++ post)
              pre []) as (y & Hy).
  { eexists. cbn. reflexivity. }
  now apply testLiteral_scan with (y := y).
Qed.

(** PY003 is never reported for a file whose path spells 'test': its
    context filter looks at the path, not at the line. *)
Theorem PY003_silent_in_test_files (filepath content : jsstring)
    (minSeverity : option jsstring) (s s' : store) (issues : list Issue.t) :
  infix (str "test") filepath ->
  analyzeFile filepath content minSeverity s = (Ok issues, s') ->
  Forall (fun f => Issue.ruleId f <> str "PY003") issues.
Proof.
  intros Hpath Hrun. apply analyzeFile_result in Hrun. injection Hrun as ->.
  apply Forall_forall. intros f Hf Hid.
  apply fileFindings_origin in Hf as (rule & Hin & _ & Hf).
  assert (Hat : In (ruleAt 20) rules) by (apply nth_In; vm_compute; lia).
  assert (rule = ruleAt 20) as ->.
  { apply same_id_same_rule; try assumption.
    destruct Hf as [(_ & i & line & _ & _ & ->)|(_ & check & b & _ & _ & ->)];
      exact Hid. }
  destruct Hf as [(_ & i & line & _ & Hhit & _)|(Hk & _)];
    [|vm_compute in Hk; discriminate Hk].
  unfold lineHit in Hhit. apply andb_prop in Hhit as [_ Hkept].
  change (kept filepath (ruleAt 20) line)
    with (negb (testLiteral (mkRegexp (lit "test") noFlags) filepath)) in Hkept.
  rewrite (test_in_path Hpath) in Hkept. discriminate Hkept.
Qed.

Lemma PY003_silent_in_test_files_witness :
  Forall (fun f => Issue.ruleId f <> str "PY003") []
  /\ fst (analyzeFile (str "checks.py") (str "assert x > 0")
            (Some (str "warning")) zeroStore)
     = Ok [lineFinding (ruleAt 20) 0].
Proof.
  split; [|vm_compute; reflexivity].
  apply (@PY003_silent_in_test_files (str "tests/checks.py")
           (str "assert x > 0") (Some (str "warning")) zeroStore
           (snd (analyzeFile (str "tests/checks.py") (str "assert x > 0")
                   (Some (str "warning")) zeroStore))).
  - exists [], (str "s/checks.py"). reflexivity.
  - vm_compute. reflexivity.
Defined.

(** ** Line rules see one line at a time *)

(** A finding, [n] lines further down. *)
Definition shiftLine (n : nat) (f : Issue.t) : Issue.t :=
  Issue.mk (Issue.ruleId f) (Issue.ruleName f) (Issue.severity f)
    (Issue.line f + Z.of_nat n)%Z (Issue.message f) (Issue.suggestion f).

Lemma lineFindings_shift (filepath : jsstring) (rule : Rule.t)
    (lines : list jsstring) (n i : nat) :
  flatMapIndex (lineFindings filepath rule) (n + i) lines
  = List.map (shiftLine n) (flatMapIndex (lineFindings filepath rule) i lines).
Proof.
  revert i. induction lines as [|line rest IH]; intros i; [reflexivity|].
  cbn [flatMapIndex]. rewrite map_app. f_equal.
  - unfold lineFindings. destruct (lineHit filepath rule line); [|reflexivity].
    cbn [List.map]. unfold shiftLine, lineFinding.
    cbn [Issue.ruleId Issue.ruleName Issue.severity Issue.line Issue.message
         Issue.suggestion].
    do 2 f_equal. lia.
  - replace (S (n + i)) with (n + S i) by lia. apply IH.
Qed.

Lemma flat_map_split_perm (A B : Type) (a b : A -> list B) (l : list A) :
  Permutation (flat_map (fun x => a x ++ b x) l)
    (flat_map a l ++ flat_map b l).
Proof.
  induction l as [|x l IH]; cbn [flat_map]; [constructor|].
  rewrite <- !app_assoc. apply Permutation_app_head.
  rewrite IH. rewrite !app_assoc. apply Permutation_app_tail.
  apply Permutation_app_comm.
Qed.

Lemma flat_map_ext_In (A B : Type) (f g : A -> list B) (l : list A) :
  (forall x, In x l -> f x = g x) -> flat_map f l = flat_map g l.
Proof.
  induction l as [|x l IH]; intros H; [reflexivity|].
  cbn [flat_map]. rewrite (H x) by now left.
  rewrite IH; [reflexivity|]. intros y Hy. apply H. now right.
Qed.

(** The block rule of the table is not run above the floor 'info'. *)
Lemma block_rules_need_info :
  forallb
    (fun rule =>
       isLineRule rule
       || (lessThan (get SEVERITY (Rule.severity rule)) (Own 1%Z)
           && lessThan (get SEVERITY (Rule.severity rule)) (Own 2%Z)))
    rules = true.
Proof. vm_compute. reflexivity. Qed.

Lemma ruleFindings_concatenation (filepath : jsstring)
    (lang : lookup jsstring) (lines1 lines2 : list jsstring)
    (minSev : lookup Z) (rule : Rule.t) :
  isLineRule rule = true
  \/ lessThan (get SEVERITY (Rule.severity rule)) minSev = true ->
  ruleFindings filepath lang (lines1 ++ lines2) minSev rule
  = ruleFindings filepath lang lines1 minSev rule
    ++ List.map (shiftLine (List.length lines1))
         (ruleFindings filepath lang lines2 minSev rule).
Proof.
  intros Hrule. unfold ruleFindings, applicable.
  destruct Hrule as [Hline|Hlow].
  - unfold isLineRule in Hline. apply negb_true_iff in Hline. rewrite Hline.
    destruct (_ && _); [|reflexivity].
    rewrite flatMapIndex_app. f_equal.
    rewrite <- (lineFindings_shift filepath rule lines2 (List.length lines1) 0).
    f_equal. lia.
  - rewrite Hlow. reflexivity.
Qed.

(** Above the floor 'info' the analysis goes line by line: the findings
    for [c1 + '\n' + c2] are those for [c1] together with those for [c2],
    the latter as many lines further down as [c1] has lines. *)
Theorem analyzeFile_concatenation (filepath c1 c2 : jsstring)
    (minSeverity : option jsstring) (s : store) :
  In minSeverity [None; Some (str "warning"); Some (str "error")] ->
  exists l1 l2 l,
    fst (analyzeFile filepath c1 minSeverity s) = Ok l1
    /\ fst (analyzeFile filepath c2 minSeverity s) = Ok l2
    /\ fst (analyzeFile filepath (c1 ++ 10%N :: c2) minSeverity s) = Ok l
    /\ Permutation l
         (l1 ++ List.map (shiftLine (List.length (split 10%N c1))) l2).
Proof.
  intros Hfloor.
  destruct (analyzeFile_returns filepath c1 minSeverity s) as (s1 & E1 & _).
  destruct (analyzeFile_returns filepath c2 minSeverity s) as (s2 & E2 & _).
  destruct (analyzeFile_returns filepath (c1 ++ 10%N :: c2) minSeverity s)
    as (s3 & E3 & _).
  do 3 eexists. rewrite E1, E2, E3. repeat split.
  unfold fileFindings. rewrite split_around_separator.
  set (n := List.length (split 10%N c1)).
  set (lang := detectLanguage filepath).
  assert (Hblock : forall rule,
             In rule rules ->
             isLineRule rule = true
             \/ lessThan (get SEVERITY (Rule.severity rule))
                  (floorOf minSeverity) = true).
  { intros rule Hin. pose proof block_rules_need_info as H.
    rewrite forallb_forall in H. specialize (H rule Hin).
    apply orb_prop in H as [H|H]; [now left | right].
    apply andb_prop in H as [H1 H2].
    destruct Hfloor as [<-|[<-|[<-|[]]]]; assumption. }
  rewrite (@flat_map_ext_In _ _
             (fun rule => ruleFindings filepath lang
                            (split 10%N c1 ++ split 10%N c2)
                            (floorOf minSeverity) rule)
             (fun rule => ruleFindings filepath lang (split 10%N c1)
                            (floorOf minSeverity) rule
                          ++ List.map (shiftLine n)
                               (ruleFindings filepath lang (split 10%N c2)
                                  (floorOf minSeverity) rule))).
  - rewrite flat_map_split_perm. apply Permutation_app_head.
    rewrite !flat_map_concat_map, concat_map, map_map. reflexivity.
  - intros rule Hin. apply ruleFindings_concatenation. now apply Hblock.
Qed.

Lemma analyzeFile_concatenation_witness :
  exists l1 l2 l,
    fst (analyzeFile (str "app.js") (str "eval(a)") (Some (str "error"))
           zeroStore) = Ok l1
    /\ fst (analyzeFile (str "app.js") (str "eval(b)") (Some (str "error"))
              zeroStore) = Ok l2
    /\ fst (analyzeFile (str "app.js") (str "eval(a)" ++ 10%N :: str "eval(b)")
              (Some (str "error")) zeroStore) = Ok l
    /\ Permutation l (l1 ++ List.map (shiftLine 1) l2).
Proof.
  apply (@analyzeFile_concatenation (str "app.js") (str "eval(a)")
           (str "eval(b)") (Some (str "error")) zeroStore).
  right; right; left; reflexivity.
Defined.

(* ====================================================================== *)
(** * Further properties of the long-function checker *)
(* ====================================================================== *)

Lemma checkStep_far (i : Z) (line : jsstring) (st : checkState) :
  Forall (fun n => n + 51 <= i)%Z (issueLines st) ->
  Forall (fun n => n + 51 <= i + 1)%Z (issueLines (checkStep i line st)).
Proof.
  intros H.
  assert (H' : Forall (fun n => n + 51 <= i + 1)%Z (issueLines st)).
  { eapply Forall_impl; [|exact H]. simpl. intros; lia. }
  assert (Hhead : issueLines (noteHeader i line st) = issueLines st).
  { unfold noteHeader. destruct (matchFirst functionHeader line); [|reflexivity].
    destruct (funcStart st =? -1)%Z; reflexivity. }
  unfold checkStep. rewrite <- Hhead in H'.
  set (st1 := noteHeader i line st) in *. clearbody st1. clear Hhead H.
  unfold trackBraces. destruct (negb (funcStart st1 =? -1)%Z); [|exact H'].
  destruct (_ && _); [|exact H'].
  destruct (50 <? i - funcStart st1)%Z eqn:E; [|exact H'].
  unfold issueLines. cbn [issues]. rewrite map_app. apply Forall_app.
  split; [exact H'|]. constructor; [|constructor].
  cbn [BlockIssue.line]. apply Z.ltb_lt in E. lia.
Qed.

Lemma checkLoop_far (lines : list jsstring) (i : Z) (st : checkState) :
  Forall (fun n => n + 51 <= i)%Z (issueLines st) ->
  Forall (fun n => n + 51 <= i + Z.of_nat (List.length lines))%Z
    (issueLines (checkLoop i lines st)).
Proof.
  revert i st. induction lines as [|line rest IH]; intros i st H.
  - cbn [checkLoop List.length]. eapply Forall_impl; [|exact H].
    simpl. intros; lia.
  - cbn [checkLoop List.length].
    replace (i + Z.of_nat (S (List.length rest)))%Z
      with ((i + 1) + Z.of_nat (List.length rest))%Z by lia.
    apply IH. now apply checkStep_far.
Qed.

(** A function is reported only when the line that closes it lies more
    than 50 lines below its header: every reported line has at least 51
    lines after it, and a file of 51 lines or fewer gets no report. *)
Theorem GEN002_check_needs_room (lines : list jsstring) :
  Forall
    (fun b => BlockIssue.line b + 51 <= Z.of_nat (List.length lines))%Z
    (GEN002_check lines)
  /\ (List.length lines <= 51 -> GEN002_check lines = []).
Proof.
  assert (H : Forall
                (fun b => BlockIssue.line b + 51
                          <= Z.of_nat (List.length lines))%Z
                (GEN002_check lines)).
  { pose proof (@checkLoop_far lines 0%Z checkStart (Forall_nil _)) as H.
    unfold issueLines in H. rewrite Forall_map in H. exact H. }
  split; [exact H|]. intros Hlen.
  destruct (GEN002_check_sorted lines) as [_ Hr]. rewrite Forall_map in Hr.
  destruct (GEN002_check lines) as [|b bs]; [reflexivity|].
  inversion H; subst. inversion Hr; subst. lia.
Qed.

Lemma GEN002_check_needs_room_witness :
  GEN002_check (List.map str ["function f() {"; "  return 1;"; "}"]) = [].
Proof.
  apply (@GEN002_check_needs_room
           (List.map str ["function f() {"; "  return 1;"; "}"])).
  cbn. lia.
Defined.

(** The line at an index, seen as a function header by the checker. *)
Definition headerAt (lines : list jsstring) (z : Z) : Prop :=
  (0 <= z)%Z
  /\ exists line,
       nth_error lines (Z.to_nat z) = Some line
       /\ matchFirst functionHeader line <> None.

Definition headersInv (lines : list jsstring) (st : checkState) : Prop :=
  (funcStart st = (-1)%Z \/ headerAt lines (funcStart st))
  /\ Forall (fun n => headerAt lines (n - 1)) (issueLines st).

Lemma checkStep_headers (all pre : list jsstring) (line : jsstring)
    (st : checkState) :
  nth_error all (List.length pre) = Some line ->
  headersInv all st ->
  headersInv all (checkStep (Z.of_nat (List.length pre)) line st).
Proof.
  intros Hline [Hstart Hissues].
  assert (Hhead : headersInv all
                    (noteHeader (Z.of_nat (List.length pre)) line st)).
  { unfold noteHeader.
    destruct (matchFirst functionHeader line) as [m|] eqn:Em;
      [|split; assumption].
    destruct (funcStart st =? -1)%Z; [|split; assumption].
    split; [|exact Hissues]. right. cbn [funcStart]. split; [lia|].
    exists line. rewrite Nat2Z.id. split; [exact Hline | congruence]. }
  unfold checkStep.
  set (st1 := noteHeader (Z.of_nat (List.length pre)) line st) in *.
  clearbody st1. destruct Hhead as [Hstart1 Hissues1].
  unfold trackBraces.
  destruct (funcStart st1 =? -1)%Z eqn:Efs; cbn [negb]; [split; assumption|].
  apply Z.eqb_neq in Efs. destruct Hstart1 as [?|Hfs]; [contradiction|].
  destruct (_ && _).
  - split; [now left|]. destruct (50 <? _)%Z; [|exact Hissues1].
    unfold issueLines. cbn [issues]. rewrite map_app. apply Forall_app.
    split; [exact Hissues1|]. constructor; [|constructor].
    cbn [BlockIssue.line].
    now replace (funcStart st1 + 1 - 1)%Z with (funcStart st1) by lia.
  - split; [now right | exact Hissues1].
Qed.

Lemma checkLoop_headers (rest pre : list jsstring) (st : checkState) :
  headersInv (pre ++ rest) st ->
  headersInv (pre ++ rest)
    (checkLoop (Z.of_nat (List.length pre)) rest st).
Proof.
  revert pre st. induction rest as [|line rest IH]; intros pre st H;
    [exact H|].
  cbn [checkLoop].
  replace (Z.of_nat (List.length pre) + 1)%Z
    with (Z.of_nat (List.length (pre ++ [line])))
    by (rewrite length_app; cbn [List.length]; lia).
  replace (pre ++ line :: rest) with ((pre ++ [line]) ++ rest) in *
    by (now rewrite <- app_assoc).
  apply IH. rewrite <- app_assoc. cbn [app].
  apply checkStep_headers; [|now rewrite <- app_assoc in H].
  rewrite nth_error_app2 by lia. now rewrite Nat.sub_diag.
Qed.

(** The checker reports header lines only: the line that bears a report
    is one on which the pattern of function headers matches. *)
Theorem GEN002_check_reports_headers (lines : list jsstring) :
  Forall
    (fun b =>
       exists line,
         nth_error lines (Z.to_nat (BlockIssue.line b - 1)) = Some line
         /\ matchFirst functionHeader line <> None)
    (GEN002_check lines).
Proof.
  assert (H0 : headersInv ([] ++ lines) checkStart)
    by (split; [now left | constructor]).
  apply checkLoop_headers in H0. destruct H0 as [_ H].
  unfold issueLines in H. rewrite Forall_map in H.
  eapply Forall_impl; [|exact H]. intros b [_ Hb]. exact Hb.
Qed.

Lemma no_open_brace (line : jsstring) :
  ~ In 123%N line -> countMatches openBrace line = 0%Z.
Proof.
  intros Hnot. unfold countMatches, matchAll.
  assert (H : forall pre, matchesFrom openBrace pre line 0 = []).
  { induction line as [|c line IH]; intros pre; [reflexivity|].
    cbn [matchesFrom openBrace reFlags source lit str list_ascii_of_string
         List.map seqs matcher charMatcher after].
    change (N_of_ascii "{") with 123%N.
    assert (Hc : unitMatches flags_g 123%N c = false).
    { unfold unitMatches, canonicalize. cbn [flags_g ignoreCase andb].
      apply N.eqb_neq. intros <-. apply Hnot. now left. }
    rewrite Hc. apply IH. intros Hin. apply Hnot. now right. }
  now rewrite H.
Qed.

Lemma countMatches_nonneg (R : regexp) (line : jsstring) :
  (0 <= countMatches R line)%Z.
Proof. unfold countMatches. lia. Qed.

(** What holds of [check] on lines without an opening brace. *)
Definition bracelessInv (i : Z) (st : checkState) : Prop :=
  issues st = []
  /\ (funcStart st = (-1)%Z
      \/ (funcStart st = (i - 1)%Z /\ (braceDepth st <= 0)%Z)).

Lemma checkStep_braceless (i : Z) (line : jsstring) (st : checkState) :
  (0 <= i)%Z -> ~ In 123%N line ->
  bracelessInv i st -> bracelessInv (i + 1) (checkStep i line st).
Proof.
  intros Hi Hline [Hissues Hstart].
  pose proof (countMatches_nonneg closeBrace line) as Hclose.
  assert (Hhead : issues (noteHeader i line st) = []
                  /\ (funcStart (noteHeader i line st) = (-1)%Z
                      \/ ((funcStart (noteHeader i line st) = i
                           \/ funcStart (noteHeader i line st) = (i - 1)%Z)
                          /\ (braceDepth (noteHeader i line st) <= 0)%Z))).
  { unfold noteHeader.
    destruct (matchFirst functionHeader line) as [m|].
    - destruct (funcStart st =? -1)%Z eqn:Efs.
      + cbn [issues funcStart braceDepth]. split; [exact Hissues|].
        right. split; [now left | lia].
      + split; [exact Hissues|]. destruct Hstart as [?|[? ?]]; [now left|].
        right. split; [now right | assumption].
    - split; [exact Hissues|]. destruct Hstart as [?|[? ?]]; [now left|].
      right. split; [now right | assumption]. }
  unfold checkStep. set (st1 := noteHeader i line st) in *. clearbody st1.
  destruct Hhead as [Hissues1 Hstart1].
  unfold trackBraces. rewrite (@no_open_brace line Hline).
  destruct (funcStart st1 =? -1)%Z eqn:Efs; cbn [negb].
  { split; [exact Hissues1|]. left. now apply Z.eqb_eq. }
  apply Z.eqb_neq in Efs.
  destruct Hstart1 as [?|[Hfs Hd]]; [contradiction|].
  replace ((braceDepth st1 + 0 - countMatches closeBrace line <=? 0)%Z)
    with true by (symmetry; apply Z.leb_le; lia).
  cbn [andb]. destruct Hfs as [Hfs|Hfs].
  - (* opened on this line: it stays open, with no brace pending *)
    rewrite Hfs, Z.ltb_irrefl. split; [exact Hissues1|].
    right. cbn [funcStart braceDepth]. lia.
  - (* opened on the line before: closed here, one line long *)
    replace (funcStart st1 <? i)%Z with true
      by (symmetry; apply Z.ltb_lt; lia).
    rewrite Hfs.
    replace (50 <? i - (i - 1))%Z with false
      by (symmetry; apply Z.ltb_ge; lia).
    split; [exact Hissues1 | now left].
Qed.

Lemma checkLoop_braceless (lines : list jsstring) (i : Z) (st : checkState) :
  (0 <= i)%Z -> Forall (fun line => ~ In 123%N line) lines ->
  bracelessInv i st ->
  bracelessInv (i + Z.of_nat (List.length lines)) (checkLoop i lines st).
Proof.
  revert i st. induction lines as [|line rest IH]; intros i st Hi Hlines H.
  - cbn [checkLoop List.length]. now rewrite Z.add_0_r.
  - cbn [checkLoop List.length]. inversion Hlines; subst.
    replace (i + Z.of_nat (S (List.length rest)))%Z
      with ((i + 1) + Z.of_nat (List.length rest))%Z by lia.
    apply IH; [lia | assumption | now apply checkStep_braceless].
Qed.

(** Without an opening brace there is no report, whatever the length: a
    function whose header line opens no brace is closed by the next line,
    so that the body of a Python function is never measured. *)
Theorem GEN002_check_silent_without_braces (lines : list jsstring) :
  Forall (fun line => ~ In 123%N line) lines -> GEN002_check lines = [].
Proof.
  intros Hlines.
  assert (H0 : bracelessInv 0 checkStart) by (split; [reflexivity | now left]).
  destruct (@checkLoop_braceless lines 0%Z checkStart (Z.le_refl 0) Hlines H0)
    as [H _].
  exact H.
Qed.

(** A Python function of sixty lines. *)
Definition longPythonFunction : list jsstring :=
  str "def compute(values):" :: repeat (str "    total = total + 1") 60.

Lemma GEN002_check_silent_without_braces_witness :
  GEN002_check longPythonFunction = [].
Proof.
  apply GEN002_check_silent_without_braces.
  apply Forall_forall. intros line Hline.
  destruct Hline as [<-|Hline].
  - intros H. repeat (destruct H as [H|H]; [discriminate H|]). exact H.
  - apply repeat_spec in Hline. subst line.
    intros H. repeat (destruct H as [H|H]; [discriminate H|]). exact H.
Defined.

(* ====================================================================== *)
(** * Further properties of generateSummary *)
(* ====================================================================== *)

Lemma buckets_partition (l : list Issue.t) :
  List.length l = count isError l + count isWarning l + count isInfo l.
Proof.
  unfold count. induction l as [|f l IH]; [reflexivity|].
  cbn [filter List.length]. unfold isInfo at 1.
  destruct (isError f) eqn:Ee.
  - assert (isWarning f = false) as ->.
    { unfold isError, isWarning in *. apply JsFacts.eqb_eq in Ee.
      rewrite Ee. reflexivity. }
    cbn [negb andb List.length]. lia.
  - destruct (isWarning f); cbn [negb andb List.length]; lia.
Qed.

(** Whether the severity of a finding is the string [level]. *)
Definition severityIs (level : string) (f : Issue.t) : bool :=
  if list_eq_dec N.eq_dec (Issue.severity f) (str level) then true else false.

Lemma eqb_severityIs (level : string) (f : Issue.t) :
  Js.eqb (Issue.severity f) (str level) = severityIs level f.
Proof.
  unfold severityIs.
  destruct (list_eq_dec N.eq_dec (Issue.severity f) (str level)) as [E|E].
  - now apply JsFacts.eqb_eq.
  - destruct (JsFacts.eqb_spec (Issue.severity f) (str level)); congruence.
Qed.

(** The three buckets share out the findings.  When the loops are over,
    [errors] is the number of findings whose severity is 'error',
    [warnings] the number of those whose severity is 'warning', and [infos]
    the number of all the others, a finding of an unknown severity
    ('critical', say) included; [totalIssues] is the number of findings,
    and the three counts add up to it. *)
Theorem tally_buckets_add_up (allResults : list FileResult.t) :
  let fs := allFindings allResults in
  let c := tally allResults in
  errors c = List.length (filter (severityIs "error") fs)
  /\ warnings c = List.length (filter (severityIs "warning") fs)
  /\ infos c
     = List.length
         (filter (fun f => negb (severityIs "error" f)
                           && negb (severityIs "warning" f)) fs)
  /\ totalIssues c = List.length fs
  /\ totalIssues c = errors c + warnings c + infos c
  /\ tally [FileResult.mk (str "a.js") [findingOf "critical"]]
     = mkCounters 1 0 0 1.
Proof.
  intros fs c. unfold c. rewrite tally_counts. fold fs. unfold addCounts.
  cbn [totalIssues errors warnings infos Nat.add]. unfold count.
  repeat split.
  - f_equal. apply filter_ext. intros f. apply eqb_severityIs.
  - f_equal. apply filter_ext. intros f. apply eqb_severityIs.
  - f_equal. apply filter_ext. intros f. unfold isInfo, isError, isWarning.
    now rewrite !eqb_severityIs.
  - apply buckets_partition.
Qed.

Lemma count_Permutation (p : Issue.t -> bool) (l l' : list Issue.t) :
  Permutation l l' -> count p l = count p l'.
Proof.
  unfold count. induction 1 as [|x l l' _ IH|x y l|l l' l'' _ IH1 _ IH2].
  - reflexivity.
  - cbn [filter]. destruct (p x); cbn [List.length]; now rewrite IH.
  - cbn [filter]. destruct (p x), (p y); reflexivity.
  - now rewrite IH1.
Qed.

(** The summary depends on the findings only through their number in each
    bucket: results that hold the same findings, in any order and however
    shared out between files, get the same summary. *)
Theorem generateSummary_order_irrelevant (results1 results2 : list FileResult.t) :
  Permutation (allFindings results1) (allFindings results2) ->
  generateSummary results1 = generateSummary results2.
Proof.
  intros H. unfold generateSummary. rewrite !tally_counts. unfold addCounts.
  cbn [totalIssues errors warnings infos Nat.add].
  rewrite (Permutation_length H), !(count_Permutation _ H). reflexivity.
Qed.

Lemma generateSummary_order_irrelevant_witness :
  generateSummary sampleResults
  = generateSummary
      [ FileResult.mk (str "lib.js") [findingOf "info"; findingOf "warning"];
        FileResult.mk (str "app.js") [];
        FileResult.mk (str "x.js") [findingOf "error"] ].
Proof.
  apply generateSummary_order_irrelevant. cbn [allFindings flat_map sampleResults
    FileResult.issues app].
  apply Permutation_sym.
  apply perm_trans
    with (l' := [findingOf "info"; findingOf "error"; findingOf "warning"]).
  - apply perm_skip. apply perm_swap.
  - apply perm_trans
      with (l' := [findingOf "error"; findingOf "info"; findingOf "warning"]).
    + apply perm_swap.
    + apply perm_skip. apply perm_swap.
Defined.

(** The fixed message stands for the absence of findings, and for nothing
    else: the summary is that message exactly when the results hold no
    finding. *)
Theorem generateSummary_no_issues_iff (allResults : list FileResult.t) :
  generateSummary allResults = noIssuesMessage
  <-> allFindings allResults = [].
Proof.
  unfold generateSummary. rewrite tally_counts. unfold addCounts.
  cbn [totalIssues errors warnings infos Nat.add].
  destruct (allFindings allResults) as [|f fs]; cbn [List.length Nat.eqb].
  - split; reflexivity.
  - split; [|discriminate]. unfold summaryHead.
    rewrite <- !app_assoc. cbn [str list_ascii_of_string List.map app].
    unfold noIssuesMessage, checkMark. cbn [app]. intros H. discriminate H.
Qed.

(* ====================================================================== *)
(** * Further properties of analyzeDiff *)
(* ====================================================================== *)

(** Files are analyzed one by one: the records for two lists of units put
    end to end are the records for the first list, then those for the
    second. *)
Theorem analyzeDiff_app (files1 files2 : list FileUnit.t)
    (minSeverity : option jsstring) (s : store) :
  exists results1 results2,
    fst (analyzeDiff files1 minSeverity s) = Ok results1
    /\ fst (analyzeDiff files2 minSeverity s) = Ok results2
    /\ fst (analyzeDiff (files1 ++ files2) minSeverity s)
       = Ok (results1 ++ results2).
Proof.
  destruct (analyzeDiff_returns files1 minSeverity s) as (s1 & E1 & _).
  destruct (analyzeDiff_returns files2 minSeverity s) as (s2 & E2 & _).
  destruct (analyzeDiff_returns (files1 ++ files2) minSeverity s)
    as (s3 & E3 & _).
  do 2 eexists. rewrite E1, E2, E3. repeat split.
  cbn [fst]. now rewrite flat_map_app.
Qed.

(* ====================================================================== *)
(** * The action: from the results to the review *)
(* ====================================================================== *)

(** ** formatReviewComment *)

Definition lightBulb : jsstring := [0xD83D; 0xDCA1]%N.

Definition formatReviewComment (issue : Issue.t) : jsstring :=
  spliced (Issue.message issue) ++ newline ++ newline
  ++ lightBulb ++ str " **Suggestion**: " ++ spliced (Issue.suggestion issue)
  ++ newline ++ newline
  ++ str "<sub>Rule: " ++ Issue.ruleId issue
  ++ str " | [Li Code Review](https://lbartoszcze.github.io/li-agent/) "
  ++ emDash ++ str " Free AI code review</sub>".

(** ** The comments of the review, in [run] *)

(** A comment of the review. *)
Module Comment.
Record t : Type := mk {
  path : jsstring;
  line : Z;
  body : jsstring
}.
End Comment.

(** [n >= maxComments], where [maxComments] is what [parseInt] gave: an
    integer, or NaN ([None]), with which every comparison is false. *)
Definition reached (n : nat) (maxComments : option Z) : bool :=
  match maxComments with
  | Some m => (m <=? Z.of_nat n)%Z
  | None => false
  end.

Definition commentOf (filepath : jsstring) (issue : Issue.t) : Comment.t :=
  Comment.mk filepath (Issue.line issue) (formatReviewComment issue).

(** [for (const issue of result.issues) {
       if (comments.length >= maxComments) break;
       comments.push({ path: result.filepath, line: issue.line,
                       body: formatReviewComment(issue) });
     }] *)
Fixpoint pushComments (maxComments : option Z) (filepath : jsstring)
    (issues : list Issue.t) (comments : list Comment.t) : list Comment.t :=
  match issues with
  | [] => comments
  | issue :: rest =>
      if reached (List.length comments) maxComments then comments
      else pushComments maxComments filepath rest
             (comments ++ [commentOf filepath issue])
  end.

(** [const comments = []; for (const result of results) { ... }] *)
Definition collectComments (maxComments : option Z)
    (results : list FileResult.t) : list Comment.t :=
  fold_left
    (fun comments result =>
       pushComments maxComments (FileResult.filepath result)
         (FileResult.issues result) comments)
    results [].

(** [let totalIssues = 0;
     for (const r of results) totalIssues += r.issues.length;] *)
Definition countIssues (results : list FileResult.t) : nat :=
  fold_left (fun total r => total + List.length (FileResult.issues r)) results 0.

(** What [run] posts: a review with an event and comments when there is a
    comment to post, a plain comment otherwise. *)
Inductive posting : Type :=
| Review (event : jsstring) (comments : list Comment.t)
| PlainComment.

(** [if (comments.length > 0) { createReview({ event: totalIssues > 0 ?
     'COMMENT' : 'APPROVE', ..., comments }) } else { createComment(...) }] *)
Definition chooseReview (maxComments : option Z) (results : list FileResult.t)
  : posting :=
  let totalIssues := countIssues results in
  let comments := collectComments maxComments results in
  if 0 <? List.length comments
  then Review (if 0 <? totalIssues then str "COMMENT" else str "APPROVE")
         comments
  else PlainComment.

(** All the comments that the results call for, file by file. *)
Definition allComments (results : list FileResult.t) : list Comment.t :=
  flat_map
    (fun r => List.map (commentOf (FileResult.filepath r)) (FileResult.issues r))
    results.

(** How many comments the limit lets through: all of them when it is NaN,
    none when it is negative. *)
Definition allowance (maxComments : option Z) (available : nat) : nat :=
  match maxComments with
  | Some m => Z.to_nat m
  | None => available
  end.

Lemma pushComments_firstn (maxComments : option Z) (filepath : jsstring)
    (issues : list Issue.t) (comments : list Comment.t) (bound : nat) :
  List.length comments + List.length issues <= bound ->
  pushComments maxComments filepath issues comments
  = comments
    ++ firstn (allowance maxComments bound - List.length comments)
         (List.map (commentOf filepath) issues).
Proof.
  revert comments. induction issues as [|issue rest IH]; intros comments Hb.
  - cbn [pushComments List.map]. now rewrite firstn_nil, app_nil_r.
  - cbn [pushComments List.map List.length] in *.
    destruct (reached (List.length comments) maxComments) eqn:Hr.
    + destruct maxComments as [m|]; [|discriminate]. cbn [reached] in Hr.
      apply Z.leb_le in Hr. cbn [allowance].
      replace (Z.to_nat m - List.length comments) with 0 by lia.
      now rewrite app_nil_r.
    + rewrite IH by (rewrite length_app; cbn [List.length]; lia).
      rewrite length_app. cbn [List.length]. rewrite <- app_assoc. cbn [app].
      assert (Hpos : exists k,
                 allowance maxComments bound - List.length comments = S k
                 /\ allowance maxComments bound
                    - (List.length comments + 1) = k).
      { destruct maxComments as [m|]; cbn [allowance reached] in *.
        - apply Z.leb_gt in Hr.
          exists (Z.to_nat m - List.length comments - 1). lia.
        - exists (bound - List.length comments - 1). lia. }
      destruct Hpos as (k & -> & ->). reflexivity.
Qed.

Lemma collect_firstn (maxComments : option Z) (results : list FileResult.t)
    (comments : list Comment.t) (bound : nat) :
  List.length comments + List.length (allComments results) <= bound ->
  fold_left
    (fun comments result =>
       pushComments maxComments (FileResult.filepath result)
         (FileResult.issues result) comments)
    results comments
  = comments
    ++ firstn (allowance maxComments bound - List.length comments)
         (allComments results).
Proof.
  revert comments. induction results as [|r rs IH]; intros comments Hb.
  - cbn [fold_left allComments flat_map]. now rewrite firstn_nil, app_nil_r.
  - cbn [fold_left allComments flat_map] in *. fold (allComments rs) in *.
    rewrite length_app, length_map in Hb.
    rewrite (@pushComments_firstn _ _ _ _ bound) by lia.
    set (now_ := firstn _ (List.map _ (FileResult.issues r))).
    assert (Hnow : List.length now_
                   = Nat.min (allowance maxComments bound - List.length comments)
                       (List.length (FileResult.issues r))).
    { unfold now_. now rewrite length_firstn, length_map. }
    rewrite IH by (rewrite length_app; lia).
    rewrite <- app_assoc. f_equal. rewrite firstn_app, length_map.
    fold now_. f_equal. f_equal. rewrite length_app. lia.
Qed.

Lemma collectComments_prefix (maxComments : option Z)
    (results : list FileResult.t) :
  collectComments maxComments results
  = firstn (allowance maxComments (List.length (allComments results)))
      (allComments results).
Proof.
  unfold collectComments.
  rewrite (@collect_firstn _ _ _ (List.length (allComments results)))
    by (cbn [List.length]; lia).
  cbn [app List.length]. now rewrite Nat.sub_0_r.
Qed.

(** The review holds the first [maxComments] comments that the results
    call for, in the order of the files and of their findings, and all of
    them when there are fewer; a negative limit lets none through, and a
    limit that is not a number lets all through. *)
Theorem collectComments_first (maxComments : option Z)
    (results : list FileResult.t) :
  collectComments maxComments results
  = firstn (allowance maxComments (List.length (allComments results)))
      (allComments results)
  /\ List.length (collectComments maxComments results)
     = Nat.min (allowance maxComments (List.length (allComments results)))
         (List.length (allComments results)).
Proof.
  rewrite collectComments_prefix. split; [reflexivity | apply length_firstn].
Qed.

Lemma countIssues_length (results : list FileResult.t) :
  countIssues results = List.length (allComments results).
Proof.
  unfold countIssues.
  assert (H : forall n,
             fold_left
               (fun total r => total + List.length (FileResult.issues r))
               results n
             = n + List.length (allComments results)).
  { induction results as [|r rs IH]; intros n.
    - cbn. lia.
    - cbn [fold_left allComments flat_map]. fold (allComments rs).
      rewrite IH, length_app, length_map. lia. }
  apply H.
Qed.

(** A review is never posted as an approval: when there is a comment to
    post there is a finding, so that the event is 'COMMENT'; and with no
    comment to post no review is posted at all. *)
Theorem chooseReview_never_approves (maxComments : option Z)
    (results : list FileResult.t) :
  chooseReview maxComments results = PlainComment
  \/ exists comments,
       comments <> []
       /\ chooseReview maxComments results = Review (str "COMMENT") comments.
Proof.
  unfold chooseReview. rewrite countIssues_length, collectComments_prefix.
  set (all := allComments results).
  set (kept := firstn (allowance maxComments (List.length all)) all).
  destruct kept as [|c cs] eqn:E; [left; reflexivity|].
  right. exists (c :: cs). split; [discriminate|].
  cbn [List.length Nat.ltb Nat.leb].
  destruct all as [|a all']; [|reflexivity].
  unfold kept in E. rewrite firstn_nil in E. discriminate E.
Qed.

(* ====================================================================== *)
(** * What the path is used for *)
(* ====================================================================== *)

Definition testWord : regexp := mkRegexp (lit "test") noFlags.

Lemma testWord_here (pre suf : list cu) (y : mstate) :
  matcher noFlags (lit "test") (mkState pre suf []) (fun y => Some y) = Some y ->
  exists rest, suf = str "test" ++ rest.
Proof.
  intros H.
  cbn [lit str list_ascii_of_string List.map seqs matcher] in H.
  unfold charMatcher, unitMatches, canonicalize in H.
  cbn [ignoreCase noFlags andb after before captures] in H.
  destruct suf as [|c1 suf]; [discriminate H|].
  destruct (N.eqb_spec (N_of_ascii "t") c1) as [<-|]; [|discriminate H].
  cbn [after before captures] in H.
  destruct suf as [|c2 suf]; [discriminate H|].
  destruct (N.eqb_spec (N_of_ascii "e") c2) as [<-|]; [|discriminate H].
  cbn [after before captures] in H.
  destruct suf as [|c3 suf]; [discriminate H|].
  destruct (N.eqb_spec (N_of_ascii "s") c3) as [<-|]; [|discriminate H].
  cbn [after before captures] in H.
  destruct suf as [|c4 suf]; [discriminate H|].
  destruct (N.eqb_spec (N_of_ascii "t") c4) as [<-|]; [|discriminate H].
  now exists suf.
Qed.

Lemma testWord_scan (suf pre : list cu) (y : mstate) :
  scan testWord pre suf = Some y -> infix (str "test") suf.
Proof.
  revert pre. induction suf as [|c suf IH]; intros pre H.
  - cbn in H. discriminate H.
  - cbn [scan testWord reFlags source] in H.
    destruct (matcher noFlags (lit "test") (mkState pre (c :: suf) [])
                (fun y => Some y)) as [z|] eqn:E.
    + apply testWord_here in E as (rest & E). exists [], rest. exact E.
    + apply IH in H as (a & b & ->). now exists (c :: a), b.
Qed.

(** The filter of PY003 asks whether the path spells 'test'. *)
Lemma testWord_spec (filepath : jsstring) :
  testLiteral testWord filepath = true <-> infix (str "test") filepath.
Proof.
  split; [|apply test_in_path].
  unfold testLiteral, test, exec. cbn [testWord reFlags noFlags global].
  cbn [Nat.ltb Nat.leb firstn skipn rev].
  destruct (scan testWord [] filepath) as [y|] eqn:E;
    [|cbn; intros H; discriminate H].
  intros _. now apply testWord_scan with (pre := []) (y := y).
Qed.

(** No context filter of the table but that of PY003 looks at the path,
    and that one only asks whether it spells 'test'. *)
Lemma filters_use_of_path :
  Forall
    (fun rule =>
       forall line p q,
         testLiteral testWord p = testLiteral testWord q ->
         kept p rule line = kept q rule line)
    rules.
Proof.
  unfold rules.
  repeat (constructor;
          [ intros line p q H; unfold kept; cbn [Rule.contextFilter];
            first [ reflexivity
                  | unfold PY003_contextFilter; fold testWord; now rewrite H ]
          | ]).
  constructor.
Qed.

(** Whether a rule applies depends on the detected language only through
    which of the languages named by the rules it is, if any. *)
Lemma applicable_use_of_language (lang1 lang2 : lookup jsstring)
    (minSev : lookup Z) (rule : Rule.t) :
  In rule rules ->
  (forall tag, In tag ruleLanguages -> lang1 = Own tag <-> lang2 = Own tag) ->
  applicable lang1 minSev rule = applicable lang2 minSev rule.
Proof.
  intros Hin Hsame. unfold applicable. f_equal.
  pose proof rules_languages as H. rewrite forallb_forall in H.
  specialize (H rule Hin).
  destruct (includes (Rule.languages rule) (str "*")); [reflexivity|].
  cbn [orb]. rewrite forallb_forall in H.
  assert (Hone : forall a b,
             (forall tag, In tag ruleLanguages -> a = Own tag -> b = Own tag) ->
             includesValue (Rule.languages rule) a = true ->
             includesValue (Rule.languages rule) b = true).
  { intros a b Hab Ha. destruct a as [l| |]; try discriminate Ha.
    cbn [includesValue] in Ha.
    assert (Hl : In l ruleLanguages).
    { apply includes_In. apply H. now apply includes_In. }
    now rewrite (Hab l Hl eq_refl). }
  destruct (includesValue (Rule.languages rule) lang1) eqn:E1;
    destruct (includesValue (Rule.languages rule) lang2) eqn:E2;
    try reflexivity.
  - rewrite (Hone lang1 lang2) in E2; [discriminate E2 | | exact E1].
    intros tag Htag. apply (Hsame tag Htag).
  - rewrite (Hone lang2 lang1) in E1; [discriminate E1 | | exact E2].
    intros tag Htag. apply (Hsame tag Htag).
Qed.

(** The path of a file matters through two things only: which of the
    languages named by the rules is detected from it, if any, and whether
    it spells 'test'.  Two paths that agree on both get the same findings
    for the same content and floor; so do, in particular, two paths of the
    same detected language. *)
Theorem analyzeFile_use_of_path (path1 path2 content : jsstring)
    (minSeverity : option jsstring) (s : store) :
  (forall tag,
      In tag ruleLanguages ->
      detectLanguage path1 = Own tag <-> detectLanguage path2 = Own tag) ->
  (infix (str "test") path1 <-> infix (str "test") path2) ->
  fst (analyzeFile path1 content minSeverity s)
  = fst (analyzeFile path2 content minSeverity s).
Proof.
  intros Hlang Htest.
  assert (Ht : testLiteral testWord path1 = testLiteral testWord path2).
  { destruct (testLiteral testWord path1) eqn:E1;
      destruct (testLiteral testWord path2) eqn:E2; try reflexivity.
    - apply testWord_spec, Htest, testWord_spec in E1. congruence.
    - apply testWord_spec, Htest, testWord_spec in E2. congruence. }
  destruct (analyzeFile_returns path1 content minSeverity s) as (s1 & E1 & _).
  destruct (analyzeFile_returns path2 content minSeverity s) as (s2 & E2 & _).
  rewrite E1, E2. cbn [fst]. f_equal. unfold fileFindings.
  apply flat_map_ext_In. intros rule Hin.
  pose proof filters_use_of_path as Hf. rewrite Forall_forall in Hf.
  specialize (Hf rule Hin).
  unfold ruleFindings.
  rewrite (@applicable_use_of_language (detectLanguage path1)
             (detectLanguage path2) (floorOf minSeverity) rule Hin Hlang).
  destruct (applicable _ _ rule); [|reflexivity].
  destruct (truthyFlag (Rule.isBlockRule rule)); [reflexivity|].
  generalize 0. induction (split 10%N content) as [|line rest IH]; intros i;
    [reflexivity|].
  cbn [flatMapIndex]. rewrite IH. f_equal.
  unfold lineFindings, lineHit. now rewrite (Hf line path1 path2 Ht).
Qed.

(** A Rust file and a Markdown file are told apart by no rule, and a
    JavaScript module under either of its extensions is one language. *)
Lemma analyzeFile_use_of_path_witness :
  fst (analyzeFile (str "src/main.rs") (str "eval(x)") (Some (str "error"))
         zeroStore)
  = fst (analyzeFile (str "README.md") (str "eval(x)") (Some (str "error"))
           zeroStore)
  /\ fst (analyzeFile (str "src/app.js") (str "eval(x)") (Some (str "error"))
            zeroStore)
     = fst (analyzeFile (str "lib/Other.MJS") (str "eval(x)")
              (Some (str "error")) zeroStore).
Proof.
  assert (Hno : forall p q,
             testLiteral testWord p = false ->
             testLiteral testWord q = false ->
             infix (str "test") p <-> infix (str "test") q).
  { intros p q Hp Hq.
    split; intros H; apply testWord_spec in H; congruence. }
  split.
  - apply analyzeFile_use_of_path; [|apply Hno; reflexivity].
    intros tag Htag. unfold ruleLanguages, langs in Htag.
    cbn [List.map In] in Htag.
    repeat (destruct Htag as [Htag|Htag];
            [subst tag; split; intros H; discriminate H|]).
    contradiction.
  - apply analyzeFile_use_of_path; [|apply Hno; reflexivity].
    intros tag _. reflexivity.
Defined.

(* ====================================================================== *)
(** * Every hit is reported *)
(* ====================================================================== *)

(** What [\s*] consumed is a run of white space. *)
Lemma star_ws_sound (fl : flags) (k : continuation) (fuel : nat) :
  forall pre suf y,
    repeatMatcher (matcher fl ws) [] fuel 0 None true (mkState pre suf []) k
    = Some y ->
    exists blank tail,
      suf = blank ++ tail
      /\ Forall (fun c => isWhiteSpace c = true) blank
      /\ k (mkState (rev blank ++ pre) tail []) = Some y.
Proof.
  remember (matcher fl ws) as mr eqn:Emr.
  assert (Hmr : forall x k',
             mr x k' = charMatcher (classMatches fl false [CSpace]) x k')
    by (subst mr; reflexivity).
  clear Emr. induction fuel as [|fuel IH]; intros pre suf y H;
    [discriminate H|].
  cbn [repeatMatcher Nat.eqb negb] in H.
  unfold clearCaptures in H. cbn [before after captures filter] in H.
  rewrite Hmr in H. unfold charMatcher in H. cbn [after before captures] in H.
  destruct suf as [|c suf].
  { exists [], []. repeat split; [constructor | exact H]. }
  unfold classMatches in H. cbn [existsb itemMatches orb xorb] in H.
  rewrite orb_false_r in H.
  destruct (isWhiteSpace c) eqn:Hc.
  - unfold endIndex in H. cbn [before List.length andb] in H.
    replace (Nat.eqb (S (List.length pre)) (List.length pre)) with false in H
      by (symmetry; apply Nat.eqb_neq; lia).
    cbn [pred predMax option_map] in H.
    destruct (repeatMatcher mr [] fuel 0 None true
                (mkState (c :: pre) suf []) k) as [z|] eqn:E.
    + injection H as <-. apply IH in E as (blank & tail & -> & Hb & Hk).
      exists (c :: blank), tail. repeat split.
      * constructor; assumption.
      * cbn [rev]. now rewrite <- app_assoc.
    + exists [], (c :: suf). repeat split; [constructor | exact H].
  - exists [], (c :: suf). repeat split; [constructor | exact H].
Qed.

(** What the alternation of the leaders matched is a leader. *)
Lemma leaders_sound (pre suf : list cu) (y : mstate) :
  matcher noFlags
    (alts [lit "//"; lit "#"; lit "/*"; lit "*"; lit "--"; lit ";"])
    (mkState pre suf []) (fun y => Some y) = Some y ->
  exists leader rest, In leader commentLeaders /\ suf = leader ++ rest.
Proof.
  intros H.
  cbn [alts lit str list_ascii_of_string List.map seqs matcher] in H.
  unfold charMatcher, unitMatches, canonicalize in H.
  cbn [ignoreCase noFlags andb after before captures] in H.
  destruct suf as [|c1 suf]; [discriminate H|].
  destruct (N.eqb_spec (N_of_ascii "#") c1) as [<-|].
  { exists (str "#"), suf. split; [right; left|]; reflexivity. }
  destruct (N.eqb_spec (N_of_ascii "*") c1) as [<-|].
  { exists (str "*"), suf. split; [do 3 right; left|]; reflexivity. }
  destruct (N.eqb_spec (N_of_ascii ";") c1) as [<-|].
  { exists (str ";"), suf. split; [do 5 right; left|]; reflexivity. }
  destruct (N.eqb_spec (N_of_ascii "/") c1) as [<-|].
  - cbn [after before captures] in H.
    destruct suf as [|c2 suf].
    { vm_compute in H. discriminate H. }
    destruct (N.eqb_spec (N_of_ascii "/") c2) as [<-|].
    { exists (str "//"), suf. split; [left|]; reflexivity. }
    destruct (N.eqb_spec (N_of_ascii "*") c2) as [<-|].
    { exists (str "/*"), suf. split; [do 2 right; left|]; reflexivity. }
    exfalso. cbn [after before captures] in H.
    change (N.eqb (N_of_ascii "#") (N_of_ascii "/")) with false in H.
    change (N.eqb (N_of_ascii "*") (N_of_ascii "/")) with false in H.
    change (N.eqb (N_of_ascii "-") (N_of_ascii "/")) with false in H.
    change (N.eqb (N_of_ascii ";") (N_of_ascii "/")) with false in H.
    discriminate H.
  - destruct (N.eqb_spec (N_of_ascii "-") c1) as [<-|].
    + cbn [after before captures] in H.
      destruct suf as [|c2 suf].
      { vm_compute in H. discriminate H. }
      destruct (N.eqb_spec (N_of_ascii "-") c2) as [<-|].
      { exists (str "--"), suf. split; [do 4 right; left|]; reflexivity. }
      exfalso.
      change (N.eqb (N_of_ascii ";") (N_of_ascii "-")) with false in H.
      discriminate H.
    + discriminate H.
Qed.

(** Past the start of the line the comment test fails: [^] holds at index
    0 only. *)
Lemma commentLeader_start_only (suf : list cu) (c : cu) (pre : list cu) :
  scan commentLeader (c :: pre) suf = None.
Proof.
  revert c pre. induction suf as [|d suf IH]; intros c pre.
  - reflexivity.
  - cbn [scan commentLeader reFlags source seqs matcher before isNil
         multiline noFlags andb orb]. apply IH.
Qed.

(** The comment test holds of the comment lines only. *)
Lemma commentLeader_sound (line : jsstring) :
  testLiteral commentLeader line = true -> commentLine line.
Proof.
  unfold testLiteral, test, exec. cbn [commentLeader reFlags noFlags global].
  cbn [Nat.ltb Nat.leb firstn skipn rev]. fold commentLeader.
  destruct (scan commentLeader [] line) as [y|] eqn:E;
    [|cbn; intros H; discriminate H].
  intros _.
  assert (H : matcher noFlags (source commentLeader) (mkState [] line [])
                (fun y => Some y) = Some y).
  { destruct line as [|c line]; cbn [scan] in E;
      change (reFlags commentLeader) with noFlags in E;
      destruct (matcher noFlags (source commentLeader) _ _) as [z|];
      try exact E; try discriminate E.
    rewrite commentLeader_start_only in E. discriminate E. }
  cbn [commentLeader source seqs matcher before after isNil orb star groups ws
       Nat.add] in H.
  apply star_ws_sound in H as (blank & tail & -> & Hblank & H).
  apply leaders_sound in H as (leader & rest & Hleader & ->).
  now exists blank, leader, rest.
Qed.

(** Nothing that hits is dropped: when a line rule of the table passes the
    two filters of the loop, its pattern matches on a line that begins
    with no comment leader, and its context filter, if it has one, keeps
    the line, then the finding for that rule and that line is returned. *)
Theorem analyzeFile_reports_every_hit (filepath content : jsstring)
    (minSeverity : option jsstring) (s : store) (rule : Rule.t) (i : nat)
    (line : jsstring) :
  In rule rules -> isLineRule rule = true ->
  applicable (detectLanguage filepath) (floorOf minSeverity) rule = true ->
  nth_error (split 10%N content) i = Some line ->
  ~ commentLine line ->
  patternHit rule line = true ->
  kept filepath rule line = true ->
  exists issues s',
    analyzeFile filepath content minSeverity s = (Ok issues, s')
    /\ In (lineFinding rule i) issues.
Proof.
  intros Hin Hkind Happ Hline Hcode Hhit Hkept.
  destruct (analyzeFile_returns filepath content minSeverity s) as (s' & E & _).
  exists (fileFindings filepath content minSeverity), s'.
  split; [exact E|]. unfold fileFindings. apply in_flat_map.
  exists rule. split; [exact Hin|]. unfold ruleFindings. rewrite Happ.
  unfold isLineRule in Hkind. apply negb_true_iff in Hkind. rewrite Hkind.
  apply in_flatMapIndex. exists i, line. split; [exact Hline|].
  unfold lineFindings, lineHit. rewrite Hhit, Hkept.
  destruct (testLiteral commentLeader line) eqn:Ec.
  - exfalso. apply Hcode. now apply commentLeader_sound.
  - left. reflexivity.
Qed.

Lemma analyzeFile_reports_every_hit_witness :
  exists issues s',
    analyzeFile (str "app.js")
      (str ("let x = 1; // set up" ++ lf ++ "x = eval(y); // run")%string)
      (Some (str "error")) zeroStore = (Ok issues, s')
    /\ In (lineFinding (ruleAt 1) 1) issues.
Proof.
  apply (@analyzeFile_reports_every_hit (str "app.js")
           (str ("let x = 1; // set up" ++ lf ++ "x = eval(y); // run")%string)
           (Some (str "error")) zeroStore (ruleAt 1) 1
           (str "x = eval(y); // run")).
  - apply nth_In. vm_compute. lia.
  - reflexivity.
  - reflexivity.
  - reflexivity.
  - intros H. apply commentLine_test in H. vm_compute in H. discriminate H.
  - reflexivity.
  - reflexivity.
Defined.
